(** * 3dspace backend: access control, collaborators, derived design metadata

    A shallow embedding of the Mongoose models (Project, Design, Template),
    of the authentication middleware and of the route handlers that decide
    who may do what, together with the properties the specification states
    about them.

    Conventions of the embedding.
    - An [ObjectId] is the string its [toString()] prints; the source only
      ever compares ids through [toString()].
    - A JavaScript [Number] that carries a price or a coordinate is an exact
      rational ([Qc], rationals in lowest terms, so that equality is plain
      equality); counters are [Z] or [nat].
    - A collection of the document store is a finite map from [_id] to the
      document, which is what the store guarantees ([_id] is unique).
    - Mongoose keeps, next to the fields of a document, whether the document
      was never saved ([isNew]) and whether a path was changed since it was
      loaded ([isModified()]); both are fields of the records below.
    - [new Date()] and [Date.now] read a clock; the time read is an argument
      [now] of the operations that read it.
    - Strings are ASCII, so that the length of a string is the number of its
      characters.
    - A failure of the store itself (connection lost, write refused) is not
      modelled; an exception thrown by the code or by a schema validator
      is. *)

From Stdlib Require Import List String Ascii Bool ZArith QArith Qcanon Qcabs Lia.
From Stdlib Require Import Sorted.
From stdpp Require Import gmap strings list fin_maps pretty.
Import ListNotations.

(** ** Shared vocabulary *)

Definition ObjectId : Type := string.
Definition toString (x : ObjectId) : string := x.
Definition Date : Type := Z.

(** [status] enum of projects and designs. *)
Inductive Status : Type := draft | in_progress | completed | archived.

(** [subscription.plan] of a user, [requirements.subscription] of a template. *)
Inductive Plan : Type := free | pro | enterprise.

Definition Plan_eqb (a b : Plan) : bool :=
  match a, b with
  | free, free | pro, pro | enterprise, enterprise => true
  | _, _ => false
  end.

(** The part of a user record the routes read. *)
Record User : Type := mkUser {
  user_id : ObjectId;          (* _id *)
  user_isActive : bool;        (* isActive *)
  user_plan : Plan             (* subscription.plan *)
}.

(** JavaScript [a || b] on strings: the empty string is falsy, and so is an
    absent value. *)
Definition strOr (a : option string) (b : string) : string :=
  match a with
  | Some s => if String.eqb s "" then b else s
  | None => b
  end.

(** [Array.prototype.find] through a reference: the callback [upd] is applied
    to the first element that satisfies [p], which is how an assignment to a
    field of the object returned by [find] shows in the array. *)
Fixpoint assignFirst {A : Type} (p : A -> bool) (upd : A -> A) (l : list A) : list A :=
  match l with
  | [] => []
  | x :: rest => if p x then upd x :: rest else x :: assignFirst p upd rest
  end.

(** ** Project model *)

Module Project.

Inductive Role : Type := viewer | editor | admin.

Definition Role_eqb (a b : Role) : bool :=
  match a, b with
  | viewer, viewer | editor, editor | admin, admin => true
  | _, _ => false
  end.

(** [const roleHierarchy = { viewer: 1, editor: 2, admin: 3 }] *)
Definition roleHierarchy (r : Role) : Z :=
  match r with viewer => 1 | editor => 2 | admin => 3 end.

Record Collaborator : Type := mkCollaborator {
  user : ObjectId;
  role : Role;
  addedAt : Date
}.

Record Settings : Type := mkSettings {
  units : string;
  gridSize : Qc;
  snapToGrid : bool;
  showMeasurements : bool
}.

Record t : Type := mk {
  _id : ObjectId;
  name : string;
  description : option string;
  owner : ObjectId;
  collaborators : list Collaborator;
  settings : Settings;
  tags : list string;
  isPublic : bool;
  status : Status;
  lastModified : Date;
  version : Z;
  (* Mongoose document state *)
  isNew : bool;
  isModified : bool
}.

Definition with_collaborators (cs : list Collaborator) (dirty : bool) (p : t) : t :=
  mk (_id p) (name p) (description p) (owner p) cs (settings p) (tags p)
     (isPublic p) (status p) (lastModified p) (version p) (isNew p)
     (isModified p || dirty).

(** [projectSchema.pre('save', ...)] *)
Definition preSave (now : Date) (this : t) : t :=
  if isModified this && negb (isNew this) then
    mk (_id this) (name this) (description this) (owner this) (collaborators this)
       (settings this) (tags this) (isPublic this) (status this)
       now (version this + 1)%Z (isNew this) (isModified this)
  else this.

(** [document.save()]: the pre-save hook runs, the document is written and
    is from then on neither new nor modified. The validators of the project
    schema check [name], [description] and [tags], which no operation below
    changes. *)
Definition save (now : Date) (this : t) : t :=
  let d := preSave now this in
  mk (_id d) (name d) (description d) (owner d) (collaborators d)
     (settings d) (tags d) (isPublic d) (status d)
     (lastModified d) (version d) false false.

Definition sameUser (userId : ObjectId) (c : Collaborator) : bool :=
  String.eqb (toString (user c)) (toString userId).

(** [projectSchema.methods.hasAccess] *)
Definition hasAccess (this : t) (userId : ObjectId) (requiredRole : Role) : bool :=
  if String.eqb (toString (owner this)) (toString userId) then true
  else
    match find (sameUser userId) (collaborators this) with
    | None => false
    | Some collaborator =>
        (roleHierarchy (role collaborator) >=? roleHierarchy requiredRole)%Z
    end.

Definition setRole (r : Role) (c : Collaborator) : Collaborator :=
  mkCollaborator (user c) r (addedAt c).

(** [projectSchema.methods.addCollaborator]. The pushed entry has no
    [addedAt]; the schema default [Date.now] fills it in. Assigning a role
    equal to the old one leaves the document unmodified. *)
Definition addCollaborator (now : Date) (this : t) (userId : ObjectId) (r : Role) : t :=
  match find (sameUser userId) (collaborators this) with
  | Some existingCollaborator =>
      save now
        (with_collaborators
           (assignFirst (sameUser userId) (setRole r) (collaborators this))
           (negb (Role_eqb (role existingCollaborator) r)) this)
  | None =>
      save now
        (with_collaborators
           (collaborators this ++ [mkCollaborator userId r now]) true this)
  end.

(** [projectSchema.methods.removeCollaborator] *)
Definition removeCollaborator (now : Date) (this : t) (userId : ObjectId) : t :=
  let kept := List.filter (fun c => negb (sameUser userId c)) (collaborators this) in
  save now
    (with_collaborators kept
       (negb (Nat.eqb (length kept) (length (collaborators this)))) this).

Definition users (this : t) : list ObjectId := map user (collaborators this).

End Project.

(** ** Design model *)

(** Sub-documents that the routes only hand on (settings, layers, camera,
    environment, windows, custom properties): an object from keys to
    serialised values. *)
Abbreviation Mixed := (gmap string string).

(** Object spread [{ ...a, ...b }]: the keys of [b] win. *)
Definition spread (a b : Mixed) : Mixed := b ∪ a.

(** Outcome of an operation that can throw. *)
Inductive Result (A : Type) : Type :=
| Ok (value : A)
| Throw (message : string).
Arguments Ok {A} value.
Arguments Throw {A} message.

(** [String.prototype.trim], on the white space of ASCII. *)
Definition isWhitespace (c : ascii) : bool :=
  match nat_of_ascii c with
  | 9 | 10 | 11 | 12 | 13 | 32 => true
  | _ => false
  end.

Fixpoint trimStart (s : string) : string :=
  match s with
  | EmptyString => EmptyString
  | String c rest => if isWhitespace c then trimStart rest else s
  end.

Definition trim (s : string) : string :=
  String.rev (trimStart (String.rev (trimStart s))).

(** Mongoose [DocumentArray#id(id)]: the first sub-document whose [_id]
    equals [id]; a sub-document without [_id] is skipped. [get_id] reads the
    [_id] of a sub-document. *)
Definition DocumentArray_id {A : Type} (get_id : A -> option string)
    (arr : list A) (id : string) : option A :=
  find (fun val => match get_id val with
                   | None => false
                   | Some i => String.eqb i id
                   end) arr.

Record Vec3 : Type := mkVec3 { vx : Qc; vy : Qc; vz : Qc }.

(** [furnitureItemSchema], declared with [{ _id: false }]: an item has the
    string field [id] and no [_id]. *)
Module FurnitureItem.

Record t : Type := mk {
  id : string;
  name : string;
  category : string;
  type : string;
  price : Qc;
  color : string;
  position : Vec3;
  rotation : Vec3;
  scale : Vec3;
  customProperties : Mixed
}.

(** [val.get('_id')] on a furniture item: the schema has no such path. *)
Definition get_id (f : t) : option string := None.

End FurnitureItem.

(** [wallPointSchema] *)
Record wallPoint : Type := mkPoint { x : Qc; y : Qc }.

(** [wallSchema], used for walls and for rooms. *)
Module Wall.

Inductive WallType : Type := wall | room.

Record t : Type := mk {
  id : string;
  type : WallType;
  color : string;
  points : list wallPoint;
  completed : bool;
  thickness : Qc;
  height : Qc
}.

End Wall.

Module Design.

Record Elements : Type := mkElements {
  walls : list Wall.t;
  windows : list Mixed;
  rooms : list Wall.t
}.

Record Metadata : Type := mkMetadata {
  totalArea : Qc;
  totalCost : Qc;
  furnitureCount : nat;
  lastRendered : option Date
}.

Record t : Type := mk {
  _id : ObjectId;
  project : ObjectId;
  name : string;
  description : option string;
  version : string;
  settings : Mixed;
  elements : Elements;
  furniture : list FurnitureItem.t;
  layers : list Mixed;
  camera : Mixed;
  environment : Mixed;
  metadata : Metadata;
  isPublic : bool;
  tags : list string;
  status : Status;
  (* Mongoose document state *)
  isNew : bool
}.

Definition with_furniture (fs : list FurnitureItem.t) (d : t) : t :=
  mk (_id d) (project d) (name d) (description d) (version d) (settings d)
     (elements d) fs (layers d) (camera d) (environment d) (metadata d)
     (isPublic d) (tags d) (status d) (isNew d).

Definition with_metadata (m : Metadata) (d : t) : t :=
  mk (_id d) (project d) (name d) (description d) (version d) (settings d)
     (elements d) (furniture d) (layers d) (camera d) (environment d) m
     (isPublic d) (tags d) (status d) (isNew d).

Definition with_isNew (b : bool) (d : t) : t :=
  mk (_id d) (project d) (name d) (description d) (version d) (settings d)
     (elements d) (furniture d) (layers d) (camera d) (environment d)
     (metadata d) (isPublic d) (tags d) (status d) b.

(** [item.price || 0]: zero is the only falsy number a price can be. *)
Definition orZero (p : Qc) : Qc := if decide (p = 0%Qc) then 0%Qc else p.

Definition origin : wallPoint := mkPoint 0 0.

(** The inner [for] loop of the pre-save hook, over [room.points]. *)
Definition loopArea (pts : list wallPoint) : Qc :=
  let n := length pts in
  fold_left
    (fun area i =>
       let j := ((i + 1) mod n)%nat in
       (area + x (nth i pts origin) * y (nth j pts origin)
             - x (nth j pts origin) * y (nth i pts origin))%Qc)
    (seq 0 n) 0%Qc.

Definition two : Qc := Q2Qc 2.

(** [designSchema.pre('save', ...)] *)
Definition preSave (this : t) : t :=
  let totalCost :=
    fold_left (fun total item => (total + orZero (FurnitureItem.price item))%Qc)
              (furniture this) 0%Qc in
  let furnitureCount := length (furniture this) in
  let totalArea :=
    fold_left
      (fun totalArea room =>
         if (3 <=? length (Wall.points room))%nat
         then (totalArea + Qcabs (loopArea (Wall.points room)) / two)%Qc
         else totalArea)
      (rooms (elements this)) 0%Qc in
  with_metadata
    (mkMetadata totalArea totalCost furnitureCount (lastRendered (metadata this)))
    this.

(** Validators of the [name] path: [required] and [maxlength: 100]. The
    other validators of the schema check values that the operations below
    copy unchanged from a stored document or receive already typed. *)
Definition validateMaxlength (n : string) : Result unit :=
  if (String.length n <=? 100)%nat then Ok tt
  else Throw "Design name cannot exceed 100 characters".

Definition validate (this : t) : Result unit :=
  if String.eqb (name this) "" then Throw "Design name is required"
  else validateMaxlength (name this).

(** [document.save()]: Mongoose validates first, then runs the pre-save
    hook, then writes. The written document is the result. *)
Definition save (this : t) : Result t :=
  match validate this with
  | Throw e => Throw e
  | Ok _ => Ok (with_isNew false (preSave this))
  end.

(** The body of [POST /:id/furniture]. *)
Record FurnitureData : Type := mkFurnitureData {
  fd_id : option string;
  fd_name : string;
  fd_category : string;
  fd_type : string;
  fd_price : option Qc;
  fd_color : option string;
  fd_position : option Vec3;
  fd_rotation : option Vec3;
  fd_scale : option Vec3;
  fd_customProperties : option Mixed
}.

(** [designSchema.methods.addFurniture] *)
Definition addFurniture (now : Date) (this : t) (furnitureData : FurnitureData)
  : Result t :=
  let furniture' :=
    FurnitureItem.mk
      (strOr (fd_id furnitureData) ("furniture-" ++ pretty now))
      (fd_name furnitureData)
      (fd_category furnitureData)
      (fd_type furnitureData)
      (orZero (default 0%Qc (fd_price furnitureData)))
      (strOr (fd_color furnitureData) "#8B4513")
      (default (mkVec3 0 0 0) (fd_position furnitureData))
      (default (mkVec3 0 0 0) (fd_rotation furnitureData))
      (default (mkVec3 1 1 1) (fd_scale furnitureData))
      (default ∅ (fd_customProperties furnitureData)) in
  save (with_furniture (furniture this ++ [furniture']) this).

(** The body of [PUT /:id/furniture/:furnitureId]: the fields it names. *)
Record FurniturePatch : Type := mkFurniturePatch {
  p_id : option string;
  p_name : option string;
  p_category : option string;
  p_type : option string;
  p_price : option Qc;
  p_color : option string;
  p_position : option Vec3;
  p_rotation : option Vec3;
  p_scale : option Vec3;
  p_customProperties : option Mixed
}.

(** [Object.assign(furniture, updateData)] *)
Definition Object_assign (updateData : FurniturePatch) (f : FurnitureItem.t)
  : FurnitureItem.t :=
  FurnitureItem.mk
    (default (FurnitureItem.id f) (p_id updateData))
    (default (FurnitureItem.name f) (p_name updateData))
    (default (FurnitureItem.category f) (p_category updateData))
    (default (FurnitureItem.type f) (p_type updateData))
    (default (FurnitureItem.price f) (p_price updateData))
    (default (FurnitureItem.color f) (p_color updateData))
    (default (FurnitureItem.position f) (p_position updateData))
    (default (FurnitureItem.rotation f) (p_rotation updateData))
    (default (FurnitureItem.scale f) (p_scale updateData))
    (default (FurnitureItem.customProperties f) (p_customProperties updateData)).

Definition matches_id (furnitureId : string) (val : FurnitureItem.t) : bool :=
  match FurnitureItem.get_id val with
  | None => false
  | Some i => String.eqb i furnitureId
  end.

(** [designSchema.methods.updateFurniture] *)
Definition updateFurniture (this : t) (furnitureId : string)
    (updateData : FurniturePatch) : Result t :=
  match DocumentArray_id FurnitureItem.get_id (furniture this) furnitureId with
  | Some _ =>
      save (with_furniture
              (assignFirst (matches_id furnitureId) (Object_assign updateData)
                           (furniture this))
              this)
  | None => Throw "Furniture not found"
  end.

(** [designSchema.methods.removeFurniture] *)
Definition removeFurniture (this : t) (furnitureId : string) : Result t :=
  save (with_furniture
          (List.filter (fun f => negb (String.eqb (FurnitureItem.id f) furnitureId))
                       (furniture this))
          this).

(** The document of [$set]s handed to [findByIdAndUpdate]. *)
Record Update : Type := mkUpdate {
  u_name : option string;
  u_description : option string;
  u_settings : option Mixed;
  u_elements : option Elements;
  u_furniture : option (list FurnitureItem.t);
  u_layers : option (list Mixed);
  u_camera : option Mixed;
  u_environment : option Mixed;
  u_status : option Status;
  u_tags : option (list string)
}.

Definition applyUpdate (u : Update) (d : t) : t :=
  mk (_id d) (project d)
     (default (name d) (u_name u))
     (match u_description u with Some v => Some v | None => description d end)
     (version d)
     (default (settings d) (u_settings u))
     (default (elements d) (u_elements u))
     (default (furniture d) (u_furniture u))
     (default (layers d) (u_layers u))
     (default (camera d) (u_camera u))
     (default (environment d) (u_environment u))
     (metadata d)
     (isPublic d)
     (default (tags d) (u_tags u))
     (default (status d) (u_status u))
     (isNew d).

(** [Design.findByIdAndUpdate(id, updateData, { new: true, runValidators:
    true })]: the store applies the update to the stored document. It is a
    query, not [document.save()]: Mongoose runs the validators of the updated
    paths and no [pre('save')] hook. The result is the updated document and
    the collection. *)
Definition findByIdAndUpdate (collection : gmap ObjectId t) (id : ObjectId)
    (updateData : Update) : Result (option t * gmap ObjectId t) :=
  match match u_name updateData with
        | Some n => validateMaxlength n
        | None => Ok tt
        end with
  | Throw e => Throw e
  | Ok _ =>
      match collection !! id with
      | None => Ok (None, collection)
      | Some d =>
          let d' := applyUpdate updateData d in
          Ok (Some d', <[id := d']> collection)
      end
  end.





End Design.

(** ** Template model *)

Module Template.

Record Requirements : Type := mkRequirements {
  subscription : Plan;
  features : list string
}.

Record Ratings : Type := mkRatings { average : Qc; count : Z }.

Record Metadata : Type := mkMetadata {
  totalArea : Qc;
  totalCost : Qc;
  furnitureCount : nat;
  wallCount : nat;
  windowCount : nat
}.

Record t : Type := mk {
  _id : ObjectId;
  name : string;
  description : string;
  category : string;
  subcategory : option string;
  difficulty : string;
  style : string;
  tags : list string;
  metadata : Metadata;
  requirements : Requirements;
  isActive : bool;
  isFeatured : bool;
  isPremium : bool;
  popularity : Z;
  usageCount : Z;
  ratings : Ratings;
  createdAt : Date
}.

(** [const subscriptionHierarchy = { free: 1, pro: 2, enterprise: 3 }] *)
Definition subscriptionHierarchy (p : Plan) : Z :=
  match p with free => 1 | pro => 2 | enterprise => 3 end.

(** [templateSchema.methods.canAccess] *)
Definition canAccess (this : t) (userSubscription : Plan) : bool :=
  (subscriptionHierarchy userSubscription
   >=? subscriptionHierarchy (subscription (requirements this)))%Z.


End Template.

(** ** The document store and HTTP vocabulary *)

Record Store : Type := mkStore {
  projects : gmap ObjectId Project.t;
  designs : gmap ObjectId Design.t;
  templates : gmap ObjectId Template.t
}.

Inductive Method : Type := GET | POST | PUT | DELETE.

(** [res.status(code).json({ success, message, data })] *)
Record Response (A : Type) : Type := mkResponse {
  status : nat;
  success : bool;
  message : string;
  data : option A
}.
Arguments mkResponse {A} status success message data.
Arguments status {A} r.
Arguments success {A} r.
Arguments message {A} r.
Arguments data {A} r.

Definition failure {A : Type} (code : nat) (msg : string) : Response A :=
  mkResponse code false msg None.

(** A middleware either calls [next()], handing on what it attached to the
    request, or answers the request itself. *)
Inductive Middleware (A : Type) : Type :=
| next (attached : A)
| respond (code : nat) (msg : string).
Arguments next {A} attached.
Arguments respond {A} code msg.

(** ** Middleware (middleware/auth.js)

    [identity] is the user the bearer token resolves to: [None] when the
    token is missing or does not verify, or when no such user exists. *)

Module Auth.

(** [authenticateToken]: 401 without a user or for a deactivated one. *)
Definition authenticateToken (identity : option User) : Middleware User :=
  match identity with
  | None => respond 401 "Access token required"
  | Some user =>
      if negb (user_isActive user) then respond 401 "Account is deactivated"
      else next user
  end.

(** [optionalAuth]: [req.user] afterwards. *)
Definition optionalAuth (identity : option User) : option User :=
  match identity with
  | Some user => if user_isActive user then Some user else None
  | None => None
  end.

(** [const planHierarchy = { free: 1, pro: 2, enterprise: 3 }] *)
Definition planHierarchy (p : Plan) : Z :=
  match p with free => 1 | pro => 2 | enterprise => 3 end.

(** [requireSubscription(requiredPlan)] *)
Definition requireSubscription (requiredPlan : Plan) (req_user : option User)
  : Middleware unit :=
  match req_user with
  | None => respond 401 "Authentication required"
  | Some user =>
      let userPlan := user_plan user in
      let requiredLevel := planHierarchy requiredPlan in
      let userLevel := planHierarchy userPlan in
      if (userLevel <? requiredLevel)%Z
      then respond 403 "subscription required"
      else next tt
  end.

(** [requireOwnershipOrCollaboration(Project, 'id')]: [req.resource] when it
    calls [next()]. *)
Definition requireOwnershipOrCollaboration (method : Method)
    (req_user : option User) (collection : gmap ObjectId Project.t)
    (resourceId : ObjectId) : Middleware Project.t :=
  match req_user with
  | None => respond 401 "Authentication required"
  | Some user =>
      match collection !! resourceId with
      | None => respond 404 "Resource not found"
      | Some resource =>
          if String.eqb (toString (Project.owner resource)) (toString (user_id user))
          then next resource
          else if (0 <? length (Project.collaborators resource))%nat
                  && existsb (Project.sameUser (user_id user))
                             (Project.collaborators resource)
          then next resource
          else if match method with GET => true | _ => false end
                  && Project.isPublic resource
          then next resource
          else respond 403 "Access denied"
      end
  end.

End Auth.

(** ** Route handlers (routes/projects.js, routes/designs.js, templates) *)

Module Routes.

Definition with_projects (ps : gmap ObjectId Project.t) (st : Store) : Store :=
  mkStore ps (designs st) (templates st).

Definition with_designs (ds : gmap ObjectId Design.t) (st : Store) : Store :=
  mkStore (projects st) ds (templates st).

(** [DELETE /api/projects/:id] *)
Definition deleteProject (st : Store) (identity : option User) (id : ObjectId)
  : Response unit * Store :=
  match Auth.authenticateToken identity with
  | respond code msg => (failure code msg, st)
  | next user =>
      match Auth.requireOwnershipOrCollaboration DELETE (Some user) (projects st) id with
      | respond code msg => (failure code msg, st)
      | next resource =>
          if negb (String.eqb (toString (Project.owner resource))
                              (toString (user_id user)))
          then (failure 403 "Only project owners can delete projects", st)
          else
            let designs' :=
              filter (fun kv => Design.project kv.2 <> id) (designs st) in
            let projects' := delete id (projects st) in
            (mkResponse 200 true "Project deleted successfully" None,
             mkStore projects' designs' (templates st))
      end
  end.

(** The access test of the design routes that read: [GET /:id] and
    [POST /:id/duplicate]. *)
Definition mayRead (project : Project.t) (design : Design.t) (user : User) : bool :=
  String.eqb (toString (Project.owner project)) (toString (user_id user))
  || existsb (fun collab => Project.sameUser (user_id user) collab)
             (Project.collaborators project)
  || Design.isPublic design.

(** The access test of the design routes that write: [PUT /:id],
    [DELETE /:id] and the three furniture routes. *)
Definition mayWrite (project : Project.t) (user : User) : bool :=
  String.eqb (toString (Project.owner project)) (toString (user_id user))
  || existsb (fun collab =>
                Project.sameUser (user_id user) collab
                && existsb (Project.Role_eqb (Project.role collab))
                           [Project.editor; Project.admin])
             (Project.collaborators project).

(** [Design.findById(id).populate('project', ...)]: the design and its
    populated project, [null] when the project is gone. *)
Definition findDesign (st : Store) (id : ObjectId)
  : option (Design.t * option Project.t) :=
  match designs st !! id with
  | None => None
  | Some design => Some (design, projects st !! Design.project design)
  end.

(** [PUT /api/designs/:id]. The body has the shape of the update; [settings]
    and [environment] are spread over those of the stored design. *)
Definition putDesign (st : Store) (identity : option User) (id : ObjectId)
    (body : Design.Update) : Response Design.t * Store :=
  match Auth.authenticateToken identity with
  | respond code msg => (failure code msg, st)
  | next user =>
      match findDesign st id with
      | None => (failure 404 "Design not found", st)
      | Some (design, None) =>
          (* [project.owner] on [null] throws *)
          (failure 500 "Server error while updating design", st)
      | Some (design, Some project) =>
          if negb (mayWrite project user) then (failure 403 "Access denied", st)
          else
            let updateData :=
              Design.mkUpdate
                (Design.u_name body)
                (Design.u_description body)
                (spread (Design.settings design) <$> Design.u_settings body)
                (Design.u_elements body)
                (Design.u_furniture body)
                (Design.u_layers body)
                (Design.u_camera body)
                (spread (Design.environment design) <$> Design.u_environment body)
                (Design.u_status body)
                (Design.u_tags body) in
            match Design.findByIdAndUpdate (designs st) id updateData with
            | Throw _ => (failure 500 "Server error while updating design", st)
            | Ok (updatedDesign, designs') =>
                (mkResponse 200 true "Design updated successfully" updatedDesign,
                 with_designs designs' st)
            end
      end
  end.

(** [PUT /api/designs/:id/furniture/:furnitureId] *)
Definition putFurniture (st : Store) (identity : option User) (id : ObjectId)
    (furnitureId : string) (updateData : Design.FurniturePatch)
  : Response Design.t * Store :=
  match Auth.authenticateToken identity with
  | respond code msg => (failure code msg, st)
  | next user =>
      match findDesign st id with
      | None => (failure 404 "Design not found", st)
      | Some (design, None) =>
          (failure 500 "Server error while updating furniture", st)
      | Some (design, Some project) =>
          if negb (mayWrite project user) then (failure 403 "Access denied", st)
          else
            match Design.updateFurniture design furnitureId updateData with
            | Throw e =>
                if String.eqb e "Furniture not found"
                then (failure 404 "Furniture not found", st)
                else (failure 500 "Server error while updating furniture", st)
            | Ok design' =>
                (mkResponse 200 true "Furniture updated successfully" (Some design'),
                 with_designs (<[id := design']> (designs st)) st)
            end
      end
  end.

(** [new Design({ ... })] as [POST /:id/duplicate] calls it: the schema
    trims the name and fills the paths that are not given with their
    defaults. [newId] is the [_id] the constructor generates. *)
Definition newDuplicate (newId : ObjectId) (design : Design.t)
    (name : option string) : Design.t :=
  Design.mk newId
    (Design.project design)
    (trim (strOr name (Design.name design ++ " (Copy)")))
    (Design.description design)
    "1.0.0"
    (Design.settings design)
    (Design.elements design)
    (Design.furniture design)
    (Design.layers design)
    (Design.camera design)
    (Design.environment design)
    (Design.mkMetadata 0 0 0 None)
    false
    []
    draft
    true.

(** [POST /api/designs/:id/duplicate]. [name] is the [name] of the body; the
    route's sanitizer trims it before the handler runs. *)
Definition duplicateDesign (st : Store) (identity : option User) (id : ObjectId)
    (name : option string) (newId : ObjectId) : Response Design.t * Store :=
  match Auth.authenticateToken identity with
  | respond code msg => (failure code msg, st)
  | next user =>
      match findDesign st id with
      | None => (failure 404 "Design not found", st)
      | Some (design, None) =>
          (failure 500 "Server error while duplicating design", st)
      | Some (design, Some project) =>
          if negb (mayRead project design user) then (failure 403 "Access denied", st)
          else
            let name := trim <$> name in
            match Design.save (newDuplicate newId design name) with
            | Throw _ => (failure 500 "Server error while duplicating design", st)
            | Ok newDesign =>
                (mkResponse 201 true "Design duplicated successfully" (Some newDesign),
                 with_designs (<[newId := newDesign]> (designs st)) st)
            end
      end
  end.

(** *** [GET /api/templates] *)

(** A condition of a query on one path: equality, or [$in]. *)
Inductive Cond (A : Type) : Type :=
| CondEq (v : A)
| CondIn (vs : list A).
Arguments CondEq {A} v.
Arguments CondIn {A} vs.

Definition condHolds {A : Type} (eqb : A -> A -> bool) (c : Cond A) (v : A) : bool :=
  match c with
  | CondEq w => eqb v w
  | CondIn ws => existsb (eqb v) ws
  end.

(** The filter document the handler builds. *)
Record TemplateQuery : Type := mkTemplateQuery {
  tq_isActive : bool;
  tq_subscription : option (Cond Plan);         (* 'requirements.subscription' *)
  tq_text : option string;                      (* $text: { $search } *)
  tq_category : option string;
  tq_subcategory : option string;               (* $regex, $options: 'i' *)
  tq_difficulty : option string;
  tq_style : option string;
  tq_isFeatured : option bool;
  tq_isPremium : option bool;
  tq_tags : option (list string);               (* $in *)
  tq_totalArea : option (option Qc * option Qc) (* $gte, $lte *)
}.

(** The query string of the request, as the validators let it through. *)
Record TemplateParams : Type := mkTemplateParams {
  page : option nat;
  limit : option nat;
  search : option string;
  category : option string;
  subcategory : option string;
  difficulty : option string;
  style : option string;
  featured : option string;
  premium : option string;
  tags : option (list string);
  minArea : option Qc;
  maxArea : option Qc;
  sortBy : option string;
  sortOrder : option string
}.

Record Pagination : Type := mkPagination {
  currentPage : nat;
  totalPages : nat;
  totalItems : nat;
  itemsPerPage : nat;
  hasNextPage : bool;
  hasPrevPage : bool
}.

Record TemplatesPage : Type := mkTemplatesPage {
  page_templates : list Template.t;
  pagination : Pagination
}.

(** A condition that is absent holds. *)
Definition whenSet {A : Type} (c : option A) (test : A -> bool) : bool :=
  match c with
  | None => true
  | Some v => test v
  end.

(** A query parameter is used when it is a non-empty string. *)
Definition truthy (s : option string) : option string :=
  match s with
  | Some v => if String.eqb v "" then None else Some v
  | None => None
  end.

Definition Qcleb (a b : Qc) : bool := Qle_bool (this a) (this b).

Definition isIn (allowed : list string) (v : option string) : bool :=
  whenSet v (fun s => existsb (String.eqb s) allowed).

(** The validators of the route; [false] is answered with 400. *)
Definition validTemplateParams (q : TemplateParams) : bool :=
  whenSet (page q) (fun n => (1 <=? n)%nat)
  && whenSet (limit q) (fun n => (1 <=? n)%nat && (n <=? 100)%nat)
  && isIn ["living"; "bedroom"; "kitchen"; "bathroom"; "office"; "outdoor";
           "commercial"; "studio"; "dining"] (category q)
  && isIn ["beginner"; "intermediate"; "advanced"] (difficulty q)
  && isIn ["modern"; "traditional"; "contemporary"; "minimalist"; "industrial";
           "scandinavian"; "bohemian"; "rustic"; "mid-century"; "art-deco"]
          (style q)
  && isIn ["true"; "false"; "1"; "0"] (featured q)
  && isIn ["true"; "false"; "1"; "0"] (premium q)
  && isIn ["name"; "popularity"; "usageCount"; "rating"; "createdAt"] (sortBy q)
  && isIn ["asc"; "desc"] (sortOrder q).

(** The filter on the tier of the templates, by the plan of [req.user]. *)
Definition subscriptionFilter (req_user : option User) : option (Cond Plan) :=
  match req_user with
  | Some user =>
      match user_plan user with
      | free => Some (CondIn [free])
      | pro => Some (CondIn [free; pro])
      | enterprise => None
      end
  | None => Some (CondEq free)
  end.

Definition buildQuery (req_user : option User) (q : TemplateParams) : TemplateQuery :=
  mkTemplateQuery
    true
    (subscriptionFilter req_user)
    (truthy (search q))
    (truthy (category q))
    (truthy (subcategory q))
    (truthy (difficulty q))
    (truthy (style q))
    ((fun v => String.eqb v "true") <$> featured q)
    ((fun v => String.eqb v "true") <$> premium q)
    (tags q)
    (match minArea q, maxArea q with
     | None, None => None
     | lo, hi => Some (lo, hi)
     end).

(** Insertion of a document into a sorted list, and the sort it gives. *)
Fixpoint insertSorted {A : Type} (le : A -> A -> bool) (v : A) (l : list A) : list A :=
  match l with
  | [] => [v]
  | h :: rest => if le v h then v :: l else h :: insertSorted le v rest
  end.

Definition sortDocs {A : Type} (le : A -> A -> bool) (l : list A) : list A :=
  foldr (insertSorted le) [] l.

(** Order of two templates on the path [sortBy]; ["rating"] is no path of the
    schema, so all templates tie on it. *)
Definition compareField (sortBy : string) (a b : Template.t) : comparison :=
  if String.eqb sortBy "name"
  then String.compare (Template.name a) (Template.name b)
  else if String.eqb sortBy "popularity"
  then Z.compare (Template.popularity a) (Template.popularity b)
  else if String.eqb sortBy "usageCount"
  then Z.compare (Template.usageCount a) (Template.usageCount b)
  else if String.eqb sortBy "createdAt"
  then Z.compare (Template.createdAt a) (Template.createdAt b)
  else Eq.

Section TextIndex.

(** The text index of the store: the score of a template for a search, if
    the template matches; and the store's case-insensitive regular
    expression match. *)
Variable textScore : string -> Template.t -> option Z.
Variable regexMatch : string -> string -> bool.

Definition matchesQuery (q : TemplateQuery) (t : Template.t) : bool :=
  Bool.eqb (Template.isActive t) (tq_isActive q)
  && whenSet (tq_subscription q)
       (fun c => condHolds Plan_eqb c
                   (Template.subscription (Template.requirements t)))
  && whenSet (tq_text q) (fun s => bool_decide (is_Some (textScore s t)))
  && whenSet (tq_category q) (String.eqb (Template.category t))
  && whenSet (tq_subcategory q)
       (fun pattern => match Template.subcategory t with
                       | Some sub => regexMatch pattern sub
                       | None => false
                       end)
  && whenSet (tq_difficulty q) (String.eqb (Template.difficulty t))
  && whenSet (tq_style q) (String.eqb (Template.style t))
  && whenSet (tq_isFeatured q) (Bool.eqb (Template.isFeatured t))
  && whenSet (tq_isPremium q) (Bool.eqb (Template.isPremium t))
  && whenSet (tq_tags q)
       (fun wanted => existsb (fun tag => existsb (String.eqb tag) wanted)
                              (Template.tags t))
  && whenSet (tq_totalArea q)
       (fun range =>
          whenSet range.1
            (fun lo => Qcleb lo (Template.totalArea (Template.metadata t)))
          && whenSet range.2
               (fun hi => Qcleb (Template.totalArea (Template.metadata t)) hi)).

(** [Template.find(query)], before sorting and paging. *)
Definition findTemplates (st : Store) (q : TemplateQuery) : list Template.t :=
  List.filter (matchesQuery q) (map snd (map_to_list (templates st))).

(** The sort: by text score first when there is a search, then by the
    requested path in the requested direction. *)
Definition sortLe (searching : option string) (sortBy : string) (desc : bool)
    (a b : Template.t) : bool :=
  let byScore :=
    match searching with
    | Some s => Z.compare (default 0%Z (textScore s b)) (default 0%Z (textScore s a))
    | None => Eq
    end in
  let byField :=
    if desc then compareField sortBy b a else compareField sortBy a b in
  match byScore with
  | Lt => true
  | Gt => false
  | Eq => match byField with Gt => false | _ => true end
  end.

Definition getTemplates (st : Store) (identity : option User) (q : TemplateParams)
  : Response TemplatesPage :=
  let req_user := Auth.optionalAuth identity in
  if negb (validTemplateParams q) then failure 400 "Validation failed"
  else
    let page := match page q with Some 0 | None => 1 | Some n => n end in
    let limit := match limit q with Some 0 | None => 20 | Some n => n end in
    let skip := (page - 1) * limit in
    let sortBy := default "popularity" (sortBy q) in
    let sortOrder := default "desc" (sortOrder q) in
    let query := buildQuery req_user q in
    let found := findTemplates st query in
    let templates :=
      take limit (drop skip
        (sortDocs (sortLe (tq_text query) sortBy (String.eqb sortOrder "desc"))
                  found)) in
    let total := length found in
    let pages := Nat.div (total + limit - 1) limit in
    mkResponse 200 true ""
      (Some (mkTemplatesPage templates
               (mkPagination page pages total limit
                  (page <? pages)%nat (1 <? page)%nat))).

End TextIndex.

(** *** Collaborator routes of a project *)

(** A project as a query returns it: stored, with nothing modified. *)
Definition hydrate (p : Project.t) : Project.t :=
  Project.mk (Project._id p) (Project.name p) (Project.description p)
    (Project.owner p) (Project.collaborators p) (Project.settings p)
    (Project.tags p) (Project.isPublic p) (Project.status p)
    (Project.lastModified p) (Project.version p) false false.

Section EmailValidator.

(** The validator's test for an e-mail address and its normal form. *)
Variable isEmail : string -> bool.
Variable normalizeEmail : string -> string.

(** [POST /api/projects/:id/collaborators]. [directory] is the users
    collection by e-mail; [role] is [None] when the body's role is none of
    viewer, editor, admin. *)
Definition postCollaborator (now : Date) (st : Store)
    (directory : gmap string User) (identity : option User) (id : ObjectId)
    (email : string) (role : option Project.Role) : Response Project.t * Store :=
  match Auth.authenticateToken identity with
  | respond code msg => (failure code msg, st)
  | next user =>
      match Auth.requireOwnershipOrCollaboration POST (Some user) (projects st) id with
      | respond code msg => (failure code msg, st)
      | next resource =>
          let resource := hydrate resource in
          match (if isEmail email then role else None) with
          | None => (failure 400 "Validation failed", st)
          | Some role =>
              match directory !! normalizeEmail email with
              | None => (failure 404 "User not found", st)
              | Some found =>
                  match find (Project.sameUser (user_id found))
                             (Project.collaborators resource) with
                  | Some _ => (failure 400 "User is already a collaborator", st)
                  | None =>
                      let saved :=
                        Project.addCollaborator now resource (user_id found) role in
                      (mkResponse 200 true "Collaborator added successfully"
                                  (Some saved),
                       with_projects (<[id := saved]> (projects st)) st)
                  end
              end
          end
      end
  end.

End EmailValidator.

(** [PUT /api/projects/:id/collaborators/:userId] *)
Definition putCollaborator (now : Date) (st : Store) (identity : option User)
    (id : ObjectId) (userId : string) (role : Project.Role)
  : Response Project.t * Store :=
  match Auth.authenticateToken identity with
  | respond code msg => (failure code msg, st)
  | next user =>
      match Auth.requireOwnershipOrCollaboration PUT (Some user) (projects st) id with
      | respond code msg => (failure code msg, st)
      | next resource =>
          let resource := hydrate resource in
          match find (fun collab => String.eqb (toString (Project.user collab)) userId)
                     (Project.collaborators resource) with
          | None => (failure 404 "Collaborator not found", st)
          | Some collaborator =>
              let saved :=
                Project.save now
                  (Project.with_collaborators
                     (assignFirst
                        (fun collab =>
                           String.eqb (toString (Project.user collab)) userId)
                        (Project.setRole role)
                        (Project.collaborators resource))
                     (negb (Project.Role_eqb (Project.role collaborator) role))
                     resource) in
              (mkResponse 200 true "Collaborator role updated successfully"
                          (Some saved),
               with_projects (<[id := saved]> (projects st)) st)
          end
      end
  end.

(** [DELETE /api/projects/:id/collaborators/:userId] *)
Definition deleteCollaborator (now : Date) (st : Store) (identity : option User)
    (id : ObjectId) (userId : string) : Response Project.t * Store :=
  match Auth.authenticateToken identity with
  | respond code msg => (failure code msg, st)
  | next user =>
      match Auth.requireOwnershipOrCollaboration DELETE (Some user) (projects st) id with
      | respond code msg => (failure code msg, st)
      | next resource =>
          let resource := hydrate resource in
          if String.eqb userId (toString (user_id user))
          then (failure 400 "You cannot remove yourself from the project", st)
          else
            let saved := Project.removeCollaborator now resource userId in
            (mkResponse 200 true "Collaborator removed successfully" (Some saved),
             with_projects (<[id := saved]> (projects st)) st)
      end
  end.

(** *** [GET /api/templates/:id] *)

(** The checks of the handler, before it counts the use and looks for similar
    templates: the template the requester is shown, or the refusal. *)
Definition getTemplateAccess (st : Store) (identity : option User) (id : ObjectId)
  : Middleware Template.t :=
  let req_user := Auth.optionalAuth identity in
  match templates st !! id with
  | None => respond 404 "Template not found"
  | Some template =>
      if negb (Template.isActive template) then respond 404 "Template not found"
      else
        match req_user with
        | Some user =>
            if negb (Template.canAccess template (user_plan user))
            then respond 403 "Upgrade your subscription to access this template"
            else next template
        | None =>
            if negb (Plan_eqb (Template.subscription (Template.requirements template))
                              free)
            then respond 403 "Please sign in to access this template"
            else next template
        end
  end.

(** *** Creating and deleting a design *)

(** The validator's [isMongoId]: twenty-four hexadecimal digits. *)
Definition isHexDigit (c : ascii) : bool :=
  let n := nat_of_ascii c in
  ((48 <=? n) && (n <=? 57) || (65 <=? n) && (n <=? 70)
   || (97 <=? n) && (n <=? 102))%nat.

Definition isMongoId (s : string) : bool :=
  Nat.eqb (String.length s) 24 && forallb isHexDigit (list_ascii_of_string s).

(** [designData] of the body of [POST /api/designs]. *)
Record DesignData : Type := mkDesignData {
  dd_settings : option Mixed;
  dd_elements : option Design.Elements;
  dd_furniture : option (list FurnitureItem.t);
  dd_layers : option (list Mixed);
  dd_camera : option Mixed;
  dd_environment : option Mixed
}.

Section SchemaDefaults.

(** What the schema stores for [settings], [camera] and [environment] given
    what the constructor received for the path: the value with the defaults
    of the schema filled in. *)
Variable settingsWithDefaults : option Mixed -> Mixed.
Variable cameraWithDefaults : option Mixed -> Mixed.
Variable environmentWithDefaults : option Mixed -> Mixed.

(** [new Design({ project, name, description, ...designData })] *)
Definition newDesign (newId projectId : ObjectId) (name : string)
    (description : option string) (designData : option DesignData) : Design.t :=
  Design.mk newId projectId (trim name) (trim <$> description) "1.0.0"
    (settingsWithDefaults (designData ≫= dd_settings))
    (default (Design.mkElements [] [] []) (designData ≫= dd_elements))
    (default [] (designData ≫= dd_furniture))
    (default [] (designData ≫= dd_layers))
    (cameraWithDefaults (designData ≫= dd_camera))
    (environmentWithDefaults (designData ≫= dd_environment))
    (Design.mkMetadata 0 0 0 None)
    false [] draft true.

(** [POST /api/designs]. The project is looked for among those the user owns
    or is listed on. *)
Definition postDesign (st : Store) (identity : option User) (projectId : string)
    (name : string) (description : option string)
    (designData : option DesignData) (newId : ObjectId)
  : Response Design.t * Store :=
  match Auth.authenticateToken identity with
  | respond code msg => (failure code msg, st)
  | next user =>
      let name := trim name in
      let description := trim <$> description in
      if negb (isMongoId projectId
               && (1 <=? String.length name)%nat
               && (String.length name <=? 100)%nat
               && whenSet description (fun d => (String.length d <=? 500)%nat))
      then (failure 400 "Validation failed", st)
      else
        match projects st !! projectId with
        | None => (failure 404 "Project not found or access denied", st)
        | Some project =>
            if negb (String.eqb (toString (Project.owner project))
                                (toString (user_id user))
                     || existsb (Project.sameUser (user_id user))
                                (Project.collaborators project))
            then (failure 404 "Project not found or access denied", st)
            else
              match Design.save
                      (newDesign newId projectId name description designData) with
              | Throw _ => (failure 500 "Server error while creating design", st)
              | Ok design =>
                  (mkResponse 201 true "Design created successfully" (Some design),
                   with_designs (<[newId := design]> (designs st)) st)
              end
        end
  end.

End SchemaDefaults.

(** [DELETE /api/designs/:id] *)
Definition deleteDesign (st : Store) (identity : option User) (id : ObjectId)
  : Response unit * Store :=
  match Auth.authenticateToken identity with
  | respond code msg => (failure code msg, st)
  | next user =>
      match findDesign st id with
      | None => (failure 404 "Design not found", st)
      | Some (design, None) =>
          (failure 500 "Server error while deleting design", st)
      | Some (design, Some project) =>
          if negb (mayWrite project user) then (failure 403 "Access denied", st)
          else
            (mkResponse 200 true "Design deleted successfully" None,
             with_designs (delete id (designs st)) st)
      end
  end.

(** *** [POST /api/projects/:id/duplicate] *)

(** The validators of the project schema: [name] is required and has at most
    100 characters, [description] at most 500, each tag at most 30. *)
Definition validateProject (this : Project.t) : Result unit :=
  if String.eqb (Project.name this) "" then Throw "Project name is required"
  else if negb (String.length (Project.name this) <=? 100)%nat
  then Throw "Project name cannot exceed 100 characters"
  else if negb match Project.description this with
               | Some d => (String.length d <=? 500)%nat
               | None => true
               end
  then Throw "Description cannot exceed 500 characters"
  else if negb (forallb (fun tag => (String.length tag <=? 30)%nat)
                        (Project.tags this))
  then Throw "Tag cannot exceed 30 characters"
  else Ok tt.

(** [new Project({ name, description, owner, tags, settings, status })]: the
    schema trims the strings and fills the paths that are not given with
    their defaults, [lastModified] with [Date.now]. *)
Definition newProject (now : Date) (newId : ObjectId) (name : string)
    (resource : Project.t) (owner : ObjectId) : Project.t :=
  Project.mk newId (trim name) (trim <$> Project.description resource) owner []
    (Project.settings resource) (map trim (Project.tags resource))
    false draft now 1%Z true true.

(** [new Design({ project: newProject._id, name: design.name, ... })] in the
    loop of the route. *)
Definition copyInto (newId projectId : ObjectId) (design : Design.t) : Design.t :=
  Design.mk newId projectId
    (trim (Design.name design))
    (trim <$> Design.description design)
    "1.0.0"
    (Design.settings design)
    (Design.elements design)
    (Design.furniture design)
    (Design.layers design)
    (Design.camera design)
    (Design.environment design)
    (Design.mkMetadata 0 0 0 None)
    false
    []
    draft
    true.

(** The loop over the designs found: each copy is saved in turn, and the
    first save that throws ends the loop with the copies made so far left in
    the collection. [newIds (S i)] is the [_id] of the [i]-th copy. *)
Fixpoint copyDesigns (projectId : ObjectId) (newIds : nat -> ObjectId) (i : nat)
    (found : list Design.t) (collection : gmap ObjectId Design.t)
  : Result unit * gmap ObjectId Design.t :=
  match found with
  | [] => (Ok tt, collection)
  | design :: rest =>
      match Design.save (copyInto (newIds (S i)) projectId design) with
      | Throw e => (Throw e, collection)
      | Ok newDesign =>
          copyDesigns projectId newIds (S i) rest
            (<[newIds (S i) := newDesign]> collection)
      end
  end.

(** [Design.find({ project })], in the order of the collection. *)
Definition designsOf (projectId : ObjectId) (collection : gmap ObjectId Design.t)
  : list Design.t :=
  List.filter (fun d => String.eqb (toString (Design.project d)) (toString projectId))
              (map snd (map_to_list collection)).

(** The handler. [name] is the [name] of the body, [newIds 0] the [_id] of
    the new project. *)
Definition duplicateProject (now : Date) (st : Store) (identity : option User)
    (id : ObjectId) (name : option string) (newIds : nat -> ObjectId)
  : Response Project.t * Store :=
  match Auth.authenticateToken identity with
  | respond code msg => (failure code msg, st)
  | next user =>
      match Auth.requireOwnershipOrCollaboration POST (Some user) (projects st) id with
      | respond code msg => (failure code msg, st)
      | next resource =>
          let created :=
            newProject now (newIds 0%nat)
              (strOr name (Project.name resource ++ " (Copy)"))
              resource (user_id user) in
          match validateProject created with
          | Throw _ => (failure 500 "Server error while duplicating project", st)
          | Ok _ =>
              let saved := Project.save now created in
              let st1 := with_projects (<[newIds 0%nat := saved]> (projects st)) st in
              match copyDesigns (Project._id saved) newIds 0
                      (designsOf (Project._id resource) (designs st))
                      (designs st) with
              | (Throw _, designs') =>
                  (failure 500 "Server error while duplicating project",
                   with_designs designs' st1)
              | (Ok _, designs') =>
                  (mkResponse 201 true "Project duplicated successfully" (Some saved),
                   with_designs designs' st1)
              end
          end
      end
  end.

(** *** [GET /api/designs/:id] *)

Section ObjectIdCast.

(** The cast of a route parameter to an ObjectId that [findById] makes:
    [None] when the driver refuses the string and the query throws. *)
Variable castObjectId : string -> option ObjectId.

(** The handler. [id] is the parameter as the router bound it. *)
Definition getDesign (st : Store) (identity : option User) (id : string)
  : Response Design.t :=
  match Auth.authenticateToken identity with
  | respond code msg => failure code msg
  | next user =>
      match castObjectId id with
      | None => failure 500 "Server error while fetching design"
      | Some id =>
          match findDesign st id with
          | None => failure 404 "Design not found"
          | Some (design, None) => failure 404 "Associated project not found"
          | Some (design, Some project) =>
              if negb (mayRead project design user) then failure 403 "Access denied"
              else mkResponse 200 true "" (Some design)
          end
      end
  end.

End ObjectIdCast.

(** *** [GET /api/projects] *)

(** The value of the path [status] as the store holds it. *)
Definition statusName (s : Status) : string :=
  match s with
  | draft => "draft"
  | in_progress => "in_progress"
  | completed => "completed"
  | archived => "archived"
  end.

(** The query string of the request. [pq_tags] is set when [tags] is an
    array. *)
Record ProjectParams : Type := mkProjectParams {
  pq_page : option nat;
  pq_limit : option nat;
  pq_status : option string;
  pq_search : option string;
  pq_tags : option (list string);
  pq_sortBy : option string;
  pq_sortOrder : option string
}.

(** [data] of the answer; [stats] is the object from status to count. *)
Record ProjectsPage : Type := mkProjectsPage {
  page_projects : list Project.t;
  projects_pagination : Pagination;
  stats : Status -> option nat
}.

(** The validators of the route; [false] is answered with 400. *)
Definition validProjectParams (q : ProjectParams) : bool :=
  whenSet (pq_page q) (fun n => (1 <=? n)%nat)
  && whenSet (pq_limit q) (fun n => (1 <=? n)%nat && (n <=? 100)%nat)
  && isIn ["draft"; "in_progress"; "completed"; "archived"] (pq_status q)
  && whenSet (pq_search q) (fun s => (String.length (trim s) <=? 100)%nat).

Section ProjectQueries.

(** The regular expression of a pattern with the option [i], as a test on
    strings; [None] for a pattern that is no regular expression. And the
    order of the store on a path. *)
Variable compileRegex : string -> option (string -> bool).
Variable comparePath : string -> Project.t -> Project.t -> comparison.

(** The filter document of the handler, as a test on a project. *)
Definition matchesProject (user : User) (status : option string)
    (search : option (string -> bool)) (tags : option (list string))
    (p : Project.t) : bool :=
  (String.eqb (toString (Project.owner p)) (toString (user_id user))
   || existsb (Project.sameUser (user_id user)) (Project.collaborators p))
  && whenSet status (String.eqb (statusName (Project.status p)))
  && whenSet search
       (fun re => re (Project.name p)
                  || match Project.description p with
                     | Some d => re d
                     | None => false
                     end
                  || existsb re (Project.tags p))
  && whenSet tags
       (fun wanted => existsb (fun tag => existsb (String.eqb tag) wanted)
                              (Project.tags p)).

(** The handler. The sanitizer of the route trims [search]; a search that
    is no regular expression makes the query throw. *)
Definition getProjects (st : Store) (identity : option User) (q : ProjectParams)
  : Response ProjectsPage :=
  match Auth.authenticateToken identity with
  | respond code msg => failure code msg
  | next user =>
      if negb (validProjectParams q) then failure 400 "Validation failed"
      else
        let page := match pq_page q with Some 0 | None => 1 | Some n => n end in
        let limit := match pq_limit q with Some 0 | None => 20 | Some n => n end in
        let skip := (page - 1) * limit in
        let sortBy := default "lastModified" (pq_sortBy q) in
        let desc := String.eqb (default "desc" (pq_sortOrder q)) "desc" in
        match match truthy (trim <$> pq_search q) with
              | None => Some None
              | Some pattern => Some <$> compileRegex pattern
              end with
        | None => failure 500 "Server error while fetching projects"
        | Some search =>
            let stored := map snd (map_to_list (projects st)) in
            let found :=
              List.filter (matchesProject user (pq_status q) search (pq_tags q))
                          stored in
            let le a b :=
              match (if desc then comparePath sortBy b a
                     else comparePath sortBy a b) with
              | Gt => false
              | _ => true
              end in
            let total := length found in
            let pages := Nat.div (total + limit - 1) limit in
            let owned :=
              List.filter
                (fun p => String.eqb (toString (Project.owner p))
                                     (toString (user_id user)))
                stored in
            mkResponse 200 true ""
              (Some (mkProjectsPage
                       (take limit (drop skip (sortDocs le found)))
                       (mkPagination page pages total limit
                          (page <? pages)%nat (1 <? page)%nat)
                       (fun s =>
                          let count :=
                            length
                              (List.filter
                                 (fun p => String.eqb (statusName (Project.status p))
                                                      (statusName s))
                                 owned) in
                          if Nat.eqb count 0 then None else Some count)))
        end
  end.

End ProjectQueries.

(** *** [POST /:id/furniture] and [DELETE /:id/furniture/:furnitureId] *)

(** The body of [POST /:id/furniture]: [furnitureId], which the validators
    of the route ask for, and the fields [addFurniture] reads. *)
Record FurnitureBody : Type := mkFurnitureBody {
  fb_furnitureId : option string;
  fb_item : Design.FurnitureData
}.

(** The validators of the route; [false] is answered with 400. *)
Definition validFurnitureBody (body : FurnitureBody) : bool :=
  match fb_furnitureId body with
  | Some i => negb (String.eqb i "")
  | None => false
  end
  && (1 <=? String.length (trim (Design.fd_name (fb_item body))))%nat
  && (String.length (trim (Design.fd_name (fb_item body))) <=? 100)%nat
  && existsb (String.eqb (Design.fd_category (fb_item body)))
       ["Seating"; "Tables"; "Storage"; "Lighting"; "Bedroom"; "Decorative"]
  && match Design.fd_position (fb_item body) with
     | Some _ => true
     | None => false
     end.

(** The body after the sanitizer of the route: the name is trimmed. *)
Definition sanitized (fd : Design.FurnitureData) : Design.FurnitureData :=
  Design.mkFurnitureData (Design.fd_id fd) (trim (Design.fd_name fd))
    (Design.fd_category fd) (Design.fd_type fd) (Design.fd_price fd)
    (Design.fd_color fd) (Design.fd_position fd) (Design.fd_rotation fd)
    (Design.fd_scale fd) (Design.fd_customProperties fd).

(** [POST /api/designs/:id/furniture]. The schema of furniture items
    requires [type], which no validator of the route looks at: without it
    the save throws. *)
Definition postFurniture (now : Date) (st : Store) (identity : option User)
    (id : ObjectId) (body : FurnitureBody) : Response Design.t * Store :=
  match Auth.authenticateToken identity with
  | respond code msg => (failure code msg, st)
  | next user =>
      if negb (validFurnitureBody body) then (failure 400 "Validation failed", st)
      else
        match findDesign st id with
        | None => (failure 404 "Design not found", st)
        | Some (design, None) =>
            (failure 500 "Server error while adding furniture", st)
        | Some (design, Some project) =>
            if negb (mayWrite project user) then (failure 403 "Access denied", st)
            else
              let furnitureData := sanitized (fb_item body) in
              if String.eqb (Design.fd_type furnitureData) ""
              then (failure 500 "Server error while adding furniture", st)
              else
                match Design.addFurniture now design furnitureData with
                | Throw _ =>
                    (failure 500 "Server error while adding furniture", st)
                | Ok design' =>
                    (mkResponse 200 true "Furniture added successfully"
                       (Some design'),
                     with_designs (<[id := design']> (designs st)) st)
                end
        end
  end.

(** [DELETE /api/designs/:id/furniture/:furnitureId] *)
Definition deleteFurniture (st : Store) (identity : option User) (id : ObjectId)
    (furnitureId : string) : Response Design.t * Store :=
  match Auth.authenticateToken identity with
  | respond code msg => (failure code msg, st)
  | next user =>
      match findDesign st id with
      | None => (failure 404 "Design not found", st)
      | Some (design, None) =>
          (failure 500 "Server error while removing furniture", st)
      | Some (design, Some project) =>
          if negb (mayWrite project user) then (failure 403 "Access denied", st)
          else
            match Design.removeFurniture design furnitureId with
            | Throw _ =>
                (failure 500 "Server error while removing furniture", st)
            | Ok design' =>
                (mkResponse 200 true "Furniture removed successfully"
                   (Some design'),
                 with_designs (<[id := design']> (designs st)) st)
            end
      end
  end.

End Routes.

(** ** Route tables (express.Router) *)

Module Router.

(** A segment of a route path: a literal, or a named parameter [:name]. *)
Inductive Segment : Type :=
| Lit (s : string)
| Param (name : string).

(** A registration [router.METHOD(path, ...)]; [line] is the line of the
    source file on which it stands. *)
Record Route : Type := mkRoute {
  method : Method;
  pattern : list Segment;
  line : nat
}.

Definition Method_eqb (a b : Method) : bool :=
  match a, b with
  | GET, GET | POST, POST | PUT, PUT | DELETE, DELETE => true
  | _, _ => false
  end.

(** Routers are created with the default options: literals match without
    regard to case. *)
Definition lower (c : ascii) : ascii :=
  let n := nat_of_ascii c in
  if ((65 <=? n) && (n <=? 90))%nat then ascii_of_nat (n + 32) else c.

Fixpoint lowerString (s : string) : string :=
  match s with
  | EmptyString => EmptyString
  | String c rest => String (lower c) (lowerString rest)
  end.

Definition eqbNoCase (a b : string) : bool :=
  String.eqb (lowerString a) (lowerString b).

(** The match of a pattern against the segments of the request path: the
    parameters it binds. A parameter takes one segment that is not empty. *)
Fixpoint matchPath (pattern : list Segment) (path : list string)
  : option (list (string * string)) :=
  match pattern, path with
  | [], [] => Some []
  | Lit l :: pattern', s :: path' =>
      if eqbNoCase l s then matchPath pattern' path' else None
  | Param name :: pattern', s :: path' =>
      if String.eqb s "" then None
      else match matchPath pattern' path' with
           | Some params => Some ((name, s) :: params)
           | None => None
           end
  | _, _ => None
  end.

(** The router walks its routes in the order of registration and hands the
    request to the first one whose method and path match; the handlers of
    the routers below answer every request they are handed, none passes it
    on with [next()]. *)
Fixpoint dispatch (router : list Route) (m : Method) (path : list string)
  : option (Route * list (string * string)) :=
  match router with
  | [] => None
  | r :: rest =>
      if Method_eqb (method r) m then
        match matchPath (pattern r) path with
        | Some params => Some (r, params)
        | None => dispatch rest m path
        end
      else dispatch rest m path
  end.

(** routes/projects.js *)
Definition projects : list Route :=
  [ mkRoute GET [] 12;
    mkRoute GET [Param "id"] 131;
    mkRoute POST [] 171;
    mkRoute PUT [Param "id"] 238;
    mkRoute DELETE [Param "id"] 306;
    mkRoute POST [Param "id"; Lit "collaborators"] 341;
    mkRoute PUT [Param "id"; Lit "collaborators"; Param "userId"] 409;
    mkRoute DELETE [Param "id"; Lit "collaborators"; Param "userId"] 456;
    mkRoute POST [Param "id"; Lit "duplicate"] 494;
    mkRoute GET [Lit "public"] 553 ].

(** routes/designs.js, the designs router *)
Definition designs : list Route :=
  [ mkRoute GET [] 12;
    mkRoute GET [Param "id"] 131;
    mkRoute POST [] 183;
    mkRoute PUT [Param "id"] 263;
    mkRoute DELETE [Param "id"] 341;
    mkRoute POST [Param "id"; Lit "furniture"] 388;
    mkRoute PUT [Param "id"; Lit "furniture"; Param "furnitureId"] 468;
    mkRoute DELETE [Param "id"; Lit "furniture"; Param "furnitureId"] 526;
    mkRoute POST [Param "id"; Lit "duplicate"] 575;
    mkRoute GET [Lit "public"] 648 ].

(** routes/ai-tools.js, the templates router *)
Definition templates : list Route :=
  [ mkRoute GET [] 583;
    mkRoute GET [Param "id"] 774;
    mkRoute POST [Param "id"; Lit "use"] 830;
    mkRoute GET [Lit "categories"] 950;
    mkRoute GET [Lit "featured"] 992;
    mkRoute GET [Lit "category"; Param "category"] 1018;
    mkRoute GET [Lit "style"; Param "style"] 1077;
    mkRoute POST [Param "id"; Lit "rate"] 1136;
    mkRoute GET [Lit "search"] 1184 ].

(** routes/furniture.js *)
Definition furniture : list Route :=
  [ mkRoute GET [] 11;
    mkRoute GET [Param "id"] 216;
    mkRoute GET [Lit "categories"] 254;
    mkRoute GET [Lit "featured"] 296;
    mkRoute GET [Lit "category"; Param "category"] 322;
    mkRoute GET [Lit "search"] 381;
    mkRoute POST [Param "id"; Lit "rate"] 444;
    mkRoute GET [Lit "trending"] 492 ].

End Router.

(** ** Subscriptions (the subscription routes) *)

Module Subscription.

(** [user.subscription] *)
Record t : Type := mk {
  plan : Plan;
  status : string;
  currentPeriodEnd : option Date;
  stripeCustomerId : option string;
  stripeSubscriptionId : option string
}.

(** [const planHierarchy = { free: 1, pro: 2, enterprise: 3 }] *)
Definition planHierarchy (p : Plan) : Z :=
  match p with free => 1 | pro => 2 | enterprise => 3 end.

(** Thirty days, in milliseconds. *)
Definition thirtyDays : Z := 30 * 24 * 60 * 60 * 1000.

(** [POST /api/subscriptions/upgrade]. [accounts] holds the subscription of
    every user; the payment provider is a stub that answers with the id
    ["sub_" ++ now]. *)
Definition upgrade (now : Date) (accounts : gmap ObjectId t)
    (identity : option User) (planId : Plan) (paymentMethodId : string)
  : Response t * gmap ObjectId t :=
  match Auth.authenticateToken identity with
  | respond code msg => (failure code msg, accounts)
  | next req_user =>
      if negb (existsb (Plan_eqb planId) [pro; enterprise])
         || String.eqb paymentMethodId ""
      then (failure 400 "Validation failed", accounts)
      else
        match accounts !! user_id req_user with
        | None => (failure 500 "Server error while upgrading subscription", accounts)
        | Some subscription =>
            if (planHierarchy (plan subscription) >=? planHierarchy planId)%Z
            then (failure 400 "You are already on this plan or higher", accounts)
            else
              let subscription' :=
                mk planId "active" (Some (now + thirtyDays)%Z)
                   (stripeCustomerId subscription)
                   (Some ("sub_" ++ pretty now)%string) in
              (mkResponse 200 true "Subscription upgraded successfully"
                          (Some subscription'),
               <[user_id req_user := subscription']> accounts)
        end
  end.

(** [POST /api/subscriptions/cancel] *)
Definition cancel (accounts : gmap ObjectId t) (identity : option User)
  : Response t * gmap ObjectId t :=
  match Auth.authenticateToken identity with
  | respond code msg => (failure code msg, accounts)
  | next req_user =>
      match accounts !! user_id req_user with
      | None => (failure 500 "Server error while cancelling subscription", accounts)
      | Some subscription =>
          if Plan_eqb (plan subscription) free
          then (failure 400 "No active subscription to cancel", accounts)
          else
            let subscription' :=
              mk free "cancelled" (currentPeriodEnd subscription)
                 (stripeCustomerId subscription) None in
            (mkResponse 200 true "Subscription cancelled successfully"
                        (Some subscription'),
             <[user_id req_user := subscription']> accounts)
      end
  end.

End Subscription.

(** * Vocabulary of the statements and sample data *)

(** A template like [base] whose [requirements.subscription] is [p]. *)
Definition requiring (p : Plan) (base : Template.t) : Template.t :=
  Template.mk (Template._id base) (Template.name base) (Template.description base)
    (Template.category base) (Template.subcategory base) (Template.difficulty base)
    (Template.style base) (Template.tags base) (Template.metadata base)
    (Template.mkRequirements p (Template.features (Template.requirements base)))
    (Template.isActive base) (Template.isFeatured base) (Template.isPremium base)
    (Template.popularity base) (Template.usageCount base) (Template.ratings base)
    (Template.createdAt base).

Definition alice : ObjectId := "64a000000000000000000001".
Definition bob : ObjectId := "64a000000000000000000002".
Definition carol : ObjectId := "64a000000000000000000003".

Definition defaultSettings : Project.Settings :=
  Project.mkSettings "metric" (Q2Qc (1 # 2)) true true.

(** A project of alice's on which bob is an editor. *)
Definition sampleProject : Project.t :=
  Project.mk "64b000000000000000000001" "Loft" None alice
    [Project.mkCollaborator bob Project.editor 1000%Z]
    defaultSettings [] false draft 1000%Z 1%Z false false.

(** A document's life after its creation: a sequence of saves, each at some
    time and each preceded or not by a change to the document. *)
Definition saveHistory (events : list (Date * bool)) (p : Project.t) : Project.t :=
  fold_left
    (fun q ev => Project.save ev.1 (Project.with_collaborators
                                      (Project.collaborators q) ev.2 q))
    events p.

(** A stored project that was loaded and not changed. *)
Definition loadedProject : Project.t := sampleProject.

Definition sampleMetadata : Design.Metadata := Design.mkMetadata 0 0 0 None.

(** A stored design of [sampleProject], without furniture and rooms. *)
Definition sampleDesign : Design.t :=
  Design.mk "64c000000000000000000001" (Project._id sampleProject) "Living room"
    None "1.0.0" ∅ (Design.mkElements [] [] []) [] [] ∅ ∅ sampleMetadata
    false [] draft false.

(** What an in-place overwrite of [userId]'s role leaves of a list in which
    [userId] occurs at most once. *)
Definition overwriteRole (userId : ObjectId) (r : Project.Role)
    (l : list Project.Collaborator) : list Project.Collaborator :=
  map (fun c => if Project.sameUser userId c then Project.setRole r c else c) l.

(** A project of alice's on which bob is an admin, with two designs, and a
    design of another project. *)
Definition adminProject : Project.t :=
  Project.mk "64b000000000000000000002" "Studio" None alice
    [Project.mkCollaborator bob Project.admin 1000%Z]
    defaultSettings [] false draft 1000%Z 1%Z false false.

Definition designOf (id project : ObjectId) (name : string) (isPublic : bool)
  : Design.t :=
  Design.mk id project name None "1.0.0" ∅ (Design.mkElements [] [] []) [] [] ∅ ∅
    sampleMetadata isPublic [] draft false.

Definition sampleStore : Store :=
  mkStore
    (<[Project._id adminProject := adminProject]>
       (<[Project._id sampleProject := sampleProject]> ∅))
    (<["64c000000000000000000011" :=
         designOf "64c000000000000000000011" (Project._id adminProject) "Plan A" false]>
       (<["64c000000000000000000012" :=
            designOf "64c000000000000000000012" (Project._id adminProject) "Plan B" true]>
          (<[Design._id sampleDesign := sampleDesign]> ∅)))
    ∅.

Definition userOf (id : ObjectId) (plan : Plan) : User := mkUser id true plan.

(** *** Derived metadata, in the words of the specification *)

(** Sum of a list of numbers. *)
Definition Qcsum (l : list Qc) : Qc := foldr Qcplus 0%Qc l.

(** [x_i * y_(i+1) - x_(i+1) * y_i], indices taken cyclically. *)
Definition crossTerm (pts : list wallPoint) (i : nat) : Qc :=
  let j := ((i + 1) mod length pts)%nat in
  (x (nth i pts Design.origin) * y (nth j pts Design.origin)
   - x (nth j pts Design.origin) * y (nth i pts Design.origin))%Qc.

(** Shoelace area: [0.5 * |sum_i (x_i * y_(i+1) - x_(i+1) * y_i)|]. *)
Definition shoelaceArea (pts : list wallPoint) : Qc :=
  (Q2Qc (1 # 2) * Qcabs (Qcsum (map (crossTerm pts) (seq 0 (length pts)))))%Qc.

(** What a room adds to the total area: polygons of fewer than three points
    add nothing. *)
Definition roomArea (r : Wall.t) : Qc :=
  if (3 <=? length (Wall.points r))%nat then shoelaceArea (Wall.points r) else 0%Qc.





(** The metadata agree with the furniture and the rooms of the design. *)
Definition metadataConsistent (d : Design.t) : Prop :=
  Design.totalCost (Design.metadata d)
    = Qcsum (map FurnitureItem.price (Design.furniture d))
  /\ Design.furnitureCount (Design.metadata d) = length (Design.furniture d)
  /\ Design.totalArea (Design.metadata d)
    = Qcsum (map roomArea (Design.rooms (Design.elements d))).

Definition sofa : FurnitureItem.t :=
  FurnitureItem.mk "sofa-1" "Sofa" "Seating" "sofa" (Q2Qc 100) "#8B4513"
    (mkVec3 0 0 0) (mkVec3 0 0 0) (mkVec3 1 1 1) ∅.

(** A body of [PUT /api/designs/:id] that replaces the furniture. *)
Definition furnitureBody : Design.Update :=
  Design.mkUpdate None None None None (Some [sofa]) None None None None None.

(** A body of [PUT /:id/furniture/:furnitureId] that changes the price. *)
Definition pricePatch : Design.FurniturePatch :=
  Design.mkFurniturePatch None None None None (Some (Q2Qc 250)) None None None
    None None.

(** A stored design that holds the sofa, with the metadata a save gave it. *)
Definition furnishedDesign : Design.t :=
  Design.mk "64c000000000000000000021" (Project._id sampleProject) "Den" None
    "1.0.0" ∅ (Design.mkElements [] [] []) [sofa] [] ∅ ∅
    (Design.mkMetadata 0 (Q2Qc 100) 1 None) false [] draft false.

Definition furnishedStore : Store :=
  mkStore (<[Project._id sampleProject := sampleProject]> ∅)
          (<[Design._id furnishedDesign := furnishedDesign]> ∅) ∅.

(** A name of one hundred characters, the longest the schema accepts. *)
Definition longName : string := string_of_list_ascii (repeat "a"%char 100).

(** A public design of alice's [adminProject] with that name. *)
Definition longNamedDesign : Design.t :=
  designOf "64c000000000000000000031" (Project._id adminProject) longName true.

Definition longNameStore : Store :=
  mkStore (<[Project._id adminProject := adminProject]> ∅)
          (<[Design._id longNamedDesign := longNamedDesign]> ∅) ∅.

(** The name [POST /:id/duplicate] gives the copy. *)
Definition duplicateName (design : Design.t) (name : option string) : string :=
  trim (strOr (trim <$> name) (Design.name design ++ " (Copy)")).

(** Number of characters of a string that are not white space. *)
Fixpoint inkCount (s : string) : nat :=
  match s with
  | EmptyString => 0
  | String c rest => (if isWhitespace c then 0 else 1) + inkCount rest
  end.

(** *** The tiers an identity may see, in the words of the specification *)

Definition visibleTiers (req_user : option User) : list Plan :=
  match req_user with
  | None => [free]
  | Some user =>
      match user_plan user with
      | free => [free]
      | pro => [free; pro]
      | enterprise => [free; pro; enterprise]
      end
  end.

Definition tierOf (t : Template.t) : Plan :=
  Template.subscription (Template.requirements t).

Definition tierVisible (req_user : option User) (t : Template.t) : bool :=
  existsb (Plan_eqb (tierOf t)) (visibleTiers req_user).

(** The query [q] without its condition on the tier. *)
Definition anyTier (q : Routes.TemplateQuery) : Routes.TemplateQuery :=
  Routes.mkTemplateQuery (Routes.tq_isActive q) None (Routes.tq_text q)
    (Routes.tq_category q) (Routes.tq_subcategory q) (Routes.tq_difficulty q)
    (Routes.tq_style q) (Routes.tq_isFeatured q) (Routes.tq_isPremium q)
    (Routes.tq_tags q) (Routes.tq_totalArea q).

Definition templateOf (id name : string) (tier : Plan) (popularity : Z)
  : Template.t :=
  Template.mk id name "A room" "living" None "beginner" "modern" []
    (Template.mkMetadata (Q2Qc 20) 0 0 0 0) (Template.mkRequirements tier [])
    true false false popularity 0%Z (Template.mkRatings 0 0%Z) 1000%Z.

(** A catalogue with one template of each tier. *)
Definition catalogue : Store :=
  mkStore ∅ ∅
    (<["64d000000000000000000001" :=
         templateOf "64d000000000000000000001" "Starter" free 5%Z]>
       (<["64d000000000000000000002" :=
            templateOf "64d000000000000000000002" "Loft" pro 9%Z]>
          (<["64d000000000000000000003" :=
               templateOf "64d000000000000000000003" "Penthouse" enterprise 7%Z]> ∅))).

Definition noParams : Routes.TemplateParams :=
  Routes.mkTemplateParams None None None None None None None None None None
    None None None None.

(** A text index that knows no word, and a regular-expression match that
    compares for equality. *)
Definition noIndex (s : string) (t : Template.t) : option Z := None.
Definition exactMatch (pattern target : string) : bool := String.eqb pattern target.

(** * Vocabulary of the further properties *)


Definition furnitureIds (d : Design.t) : list string :=
  map FurnitureItem.id (Design.furniture d).







(** The user [userId] is listed on [p] with the role [r]. *)
Definition listedAs (userId : ObjectId) (r : Project.Role) (p : Project.t) : bool :=
  match find (Project.sameUser userId) (Project.collaborators p) with
  | Some c => Project.Role_eqb (Project.role c) r
  | None => false
  end.

(** A viewer-only project of alice's with bob listed. *)
Definition viewerProject : Project.t :=
  Project.mk "64b000000000000000000003" "Attic" None alice
    [Project.mkCollaborator bob Project.viewer 1000%Z]
    defaultSettings [] false draft 1000%Z 4%Z false false.

(** The user owns the project or is listed on it. *)
Definition isMember (user : User) (p : Project.t) : Prop :=
  Project.owner p = user_id user \/ In (user_id user) (Project.users p).

(** A project of alice's with bob as viewer and carol as admin. *)
Definition teamProject : Project.t :=
  Project.mk "64b000000000000000000004" "Cabin" None alice
    [Project.mkCollaborator bob Project.viewer 1000%Z;
     Project.mkCollaborator carol Project.admin 1000%Z]
    defaultSettings [] false draft 1000%Z 7%Z false false.

Definition teamStore : Store :=
  mkStore (<[Project._id teamProject := teamProject]>
             (<[Project._id viewerProject := viewerProject]> ∅)) ∅ ∅.

Definition dave : ObjectId := "64a000000000000000000004".

(** The users collection by e-mail. *)
Definition directory : gmap string User :=
  <["dave@example.com" := userOf dave free]>
    (<["alice@example.com" := userOf alice pro]> ∅).

(** An e-mail test that looks for nothing, and the identity as normal form. *)
Definition anyEmail (s : string) : bool := true.
Definition sameEmail (s : string) : string := s.

Definition freeAccount : Subscription.t :=
  Subscription.mk free "active" None None None.

Definition accountsSample : gmap ObjectId Subscription.t :=
  <[bob := freeAccount]> (<[alice := Subscription.mk pro "active" None None None]> ∅).

(** Schema defaults that add nothing. *)
Definition asGiven (m : option Mixed) : Mixed := default ∅ m.

(** A body of [PUT /api/designs/:id] that sets one key of the settings. *)
Definition zoomBody : Design.Update :=
  Design.mkUpdate None None (Some {["zoomLevel" := "150"]}) None None None None
    None None None.

(** [c] is a copy of the design [d] under the project [projectId]: a private
    draft of version "1.0.0" with the content of [d]. *)
Definition isCopyOf (projectId : ObjectId) (c d : Design.t) : Prop :=
  Design.project c = projectId
  /\ Design.name c = trim (Design.name d)
  /\ Design.furniture c = Design.furniture d
  /\ Design.elements c = Design.elements d
  /\ Design.settings c = Design.settings d
  /\ Design.layers c = Design.layers d
  /\ Design.camera c = Design.camera d
  /\ Design.environment c = Design.environment d
  /\ Design.version c = "1.0.0"
  /\ Design.status c = draft
  /\ Design.isPublic c = false.

(** The name a project copy is created with. *)
Definition projectCopyName (resource : Project.t) (name : option string) : string :=
  trim (strOr name (Project.name resource ++ " (Copy)")).

(** A stored name: at most 100 characters, not all of them white space. *)
Definition storedName (n : string) : Prop :=
  0 < inkCount n /\ String.length n <= 100.

(** A supply of ids that the sample store does not use. *)
Definition freshIds (n : nat) : ObjectId := ("65d" ++ pretty n)%string.

(** Some request is handed to the route [r] of [router]. *)
Definition reachable (router : list Router.Route) (r : Router.Route) : Prop :=
  exists (path : list string) (params : list (string * string)),
    Router.dispatch router (Router.method r) path = Some (r, params).

(** Every path the pattern [q] matches is matched by the pattern [p]. *)
Fixpoint subsumes (p q : list Router.Segment) : bool :=
  match p, q with
  | [], [] => true
  | Router.Param _ :: p', Router.Lit l :: q' =>
      negb (String.eqb l "") && subsumes p' q'
  | Router.Param _ :: p', Router.Param _ :: q' => subsumes p' q'
  | Router.Lit a :: p', Router.Lit b :: q' => Router.eqbNoCase a b && subsumes p' q'
  | _, _ => false
  end.

(** A path for a pattern: its literals, and [x] for each parameter. *)
Definition pathFor (pattern : list Router.Segment) : list string :=
  map (fun seg => match seg with
                  | Router.Lit l => l
                  | Router.Param _ => "x"
                  end) pattern.

(** A cast that takes the strings of twenty-four hexadecimal digits. *)
Definition hexOnly (s : string) : option ObjectId :=
  if Routes.isMongoId s then Some s else None.

(** The stored projects, and those among them that [user] owns. *)
Definition storedProjects (st : Store) : list Project.t :=
  map snd (map_to_list (projects st)).

Definition ownedProjects (user : User) (st : Store) : list Project.t :=
  List.filter (fun p => String.eqb (Project.owner p) (user_id user))
              (storedProjects st).

(** The search of the request, if it has one, is a regular expression. *)
Definition searchCompiles (compileRegex : string -> option (string -> bool))
    (q : Routes.ProjectParams) : bool :=
  match Routes.truthy (trim <$> Routes.pq_search q) with
  | Some pattern => bool_decide (is_Some (compileRegex pattern))
  | None => true
  end.

(** A request for the first page with no filter. *)
Definition unfiltered (q : Routes.ProjectParams) : Prop :=
  Routes.pq_page q = None /\ Routes.pq_status q = None
  /\ Routes.pq_search q = None /\ Routes.pq_tags q = None.

(** A regular expression engine for plain words: the pattern matches the
    strings that contain it. And an order that makes all projects tie. *)
Fixpoint contains (pattern s : string) : bool :=
  String.prefix pattern s
  || match s with
     | EmptyString => false
     | String _ rest => contains pattern rest
     end.

Definition plainRegex (pattern : string) : option (string -> bool) :=
  if existsb (fun c => Ascii.eqb c "(") (list_ascii_of_string pattern) then None
  else Some (contains pattern).

Definition allTie (path : string) (a b : Project.t) : comparison := Eq.

Definition noProjectParams : Routes.ProjectParams :=
  Routes.mkProjectParams None None None None None None None.

(** The id under which [addFurniture] stores the item of a request. *)
Definition itemId (now : Date) (fd : Design.FurnitureData) : string :=
  strOr (Design.fd_id fd) ("furniture-" ++ pretty now).

(** A body as the validators of [POST /:id/furniture] ask for it. *)
Definition sofaBody : Routes.FurnitureBody :=
  Routes.mkFurnitureBody (Some "sofa-7")
    (Design.mkFurnitureData None " Sofa " "Seating" "sofa" (Some (Q2Qc 100)) None
       (Some (mkVec3 0 0 0)) None None None).

(** * Properties *)

(** ** Subscription tiers *)


Lemma Zgeb_ge (a b : Z) : (a >=? b)%Z = true <-> (a >= b)%Z.
Proof. rewrite Z.geb_leb, Z.leb_le. lia. Qed.

(** C8. [canAccess] holds exactly when the rank of the user's plan is at
    least the rank of the plan the template requires, the ranks being free =
    1, pro = 2, enterprise = 3; a free user cannot access a pro template, a
    pro user can, and an enterprise user can access a free template. The
    subscription middleware lets a request through under the same
    comparison. *)
Theorem canAccess_iff_tierRank :
  (Template.subscriptionHierarchy free = 1
   /\ Template.subscriptionHierarchy pro = 2
   /\ Template.subscriptionHierarchy enterprise = 3)%Z
  /\ (forall (t : Template.t) (userPlan : Plan),
        Template.canAccess t userPlan = true <->
        (Template.subscriptionHierarchy userPlan
         >= Template.subscriptionHierarchy
              (Template.subscription (Template.requirements t)))%Z)
  /\ (forall base : Template.t,
        Template.canAccess (requiring pro base) free = false
        /\ Template.canAccess (requiring pro base) pro = true
        /\ Template.canAccess (requiring free base) enterprise = true)
  /\ (forall (requiredPlan : Plan) (user : User),
        Auth.requireSubscription requiredPlan (Some user) = next tt <->
        (Auth.planHierarchy (user_plan user) >= Auth.planHierarchy requiredPlan)%Z).
Proof.
  split; [repeat split|]. split; [|split].
  - intros t userPlan. unfold Template.canAccess. apply Zgeb_ge.
  - intros base. repeat split.
  - intros requiredPlan user. unfold Auth.requireSubscription.
    destruct (Z.ltb_spec (Auth.planHierarchy (user_plan user))
                         (Auth.planHierarchy requiredPlan)) as [Hlt|Hge].
    + split; [discriminate | lia].
    + split; [lia | reflexivity].
Qed.

(** ** Role hierarchy *)

Lemma find_sameUser_Some (userId : ObjectId) (l : list Project.Collaborator)
    (c : Project.Collaborator) :
  find (Project.sameUser userId) l = Some c ->
  In c l /\ Project.user c = userId.
Proof.
  intros H. apply find_some in H as [Hin Heq]. split; [exact Hin|].
  unfold Project.sameUser, toString in Heq. now apply String.eqb_eq in Heq.
Qed.

Lemma find_sameUser_None (userId : ObjectId) (l : list Project.Collaborator) :
  find (Project.sameUser userId) l = None <-> ~ In userId (map Project.user l).
Proof.
  induction l as [|c l IH]; simpl.
  - split; [intros _ []|reflexivity].
  - unfold Project.sameUser at 1, toString.
    destruct (String.eqb_spec (Project.user c) userId) as [Heq|Hne].
    + split; [discriminate|]. intros H. exfalso. apply H. now left.
    + rewrite IH. split.
      * intros H [Hc|Hin]; [now apply Hne | now apply H].
      * intros H Hin. apply H. now right.
Qed.



(** ** Versioning *)

Lemma Project_save_version (now : Date) (p : Project.t) :
  Project.version (Project.save now p) =
  if Project.isModified p && negb (Project.isNew p)
  then (Project.version p + 1)%Z else Project.version p.
Proof.
  unfold Project.save, Project.preSave.
  destruct (Project.isModified p && negb (Project.isNew p)); reflexivity.
Qed.

Lemma Project_save_version_le (now : Date) (p : Project.t) :
  (Project.version p <= Project.version (Project.save now p))%Z.
Proof.
  rewrite Project_save_version.
  destruct (Project.isModified p && negb (Project.isNew p)); lia.
Qed.

Lemma saveHistory_version_le (events : list (Date * bool)) (p : Project.t) :
  (Project.version p <= Project.version (saveHistory events p))%Z.
Proof.
  revert p. induction events as [|ev events IH]; intros p; simpl.
  - reflexivity.
  - etransitivity; [|apply IH].
    etransitivity; [|apply Project_save_version_le]. reflexivity.
Qed.

(** C4, as the code has it. A save of a project increments [version] by
    exactly one and sets [lastModified] to the current time when the project
    is not new and has been modified, and changes neither otherwise (first
    save, or nothing modified); so a project's [version] never decreases over
    its saves. A design's [version] is the string the document was created
    with: no save changes it, and no update through the store either. *)
Theorem save_version_bump :
  (forall (now : Date) (p : Project.t),
     Project.version (Project.save now p) =
       (if Project.isModified p && negb (Project.isNew p)
        then (Project.version p + 1)%Z else Project.version p)
     /\ Project.lastModified (Project.save now p) =
       (if Project.isModified p && negb (Project.isNew p)
        then now else Project.lastModified p))
  /\ (forall (events : list (Date * bool)) (p : Project.t),
        (Project.version p <= Project.version (saveHistory events p))%Z)
  /\ (forall d : Design.t,
        match Design.save d with
        | Ok d' => Design.version d' = Design.version d
        | Throw _ => True
        end)
  /\ (forall (u : Design.Update) (d : Design.t),
        Design.version (Design.applyUpdate u d) = Design.version d).
Proof.
  split; [|split; [|split]].
  - intros now p. split; [apply Project_save_version|].
    unfold Project.save, Project.preSave.
    destruct (Project.isModified p && negb (Project.isNew p)); reflexivity.
  - apply saveHistory_version_le.
  - intros d. unfold Design.save. destruct (Design.validate d); [reflexivity|exact I].
  - reflexivity.
Qed.

(** C4 as stated fails: a save of a stored project with nothing modified
    leaves its version where it was, and so does a save of a stored design. *)
Lemma save_without_version_bump :
  (Project.isNew loadedProject = false
   /\ Project.version (Project.save 2000%Z loadedProject)
      <> (Project.version loadedProject + 1)%Z)
  /\ (Design.isNew sampleDesign = false
      /\ exists d', Design.save sampleDesign = Ok d'
                    /\ Design.version d' = Design.version sampleDesign).
Proof.
  split.
  - split; [reflexivity|]. vm_compute. discriminate.
  - split; [reflexivity|]. eexists. split; reflexivity.
Qed.

(** ** Collaborators *)

Lemma Project_save_collaborators (now : Date) (p : Project.t) :
  Project.collaborators (Project.save now p) = Project.collaborators p.
Proof.
  unfold Project.save, Project.preSave.
  destruct (Project.isModified p && negb (Project.isNew p)); reflexivity.
Qed.

Lemma addCollaborator_collaborators (now : Date) (p : Project.t)
    (userId : ObjectId) (r : Project.Role) :
  Project.collaborators (Project.addCollaborator now p userId r) =
  match find (Project.sameUser userId) (Project.collaborators p) with
  | Some _ => assignFirst (Project.sameUser userId) (Project.setRole r)
                          (Project.collaborators p)
  | None => Project.collaborators p ++ [Project.mkCollaborator userId r now]
  end.
Proof.
  unfold Project.addCollaborator.
  destruct (find (Project.sameUser userId) (Project.collaborators p));
    now rewrite Project_save_collaborators.
Qed.

Lemma removeCollaborator_collaborators (now : Date) (p : Project.t)
    (userId : ObjectId) :
  Project.collaborators (Project.removeCollaborator now p userId) =
  List.filter (fun c => negb (Project.sameUser userId c)) (Project.collaborators p).
Proof. unfold Project.removeCollaborator. now rewrite Project_save_collaborators. Qed.

Lemma sameUser_true (userId : ObjectId) (c : Project.Collaborator) :
  Project.sameUser userId c = true <-> Project.user c = userId.
Proof. unfold Project.sameUser, toString. apply String.eqb_eq. Qed.

Lemma sameUser_false (userId : ObjectId) (c : Project.Collaborator) :
  Project.sameUser userId c = false <-> Project.user c <> userId.
Proof. unfold Project.sameUser, toString. apply String.eqb_neq. Qed.

Lemma assignFirst_users (userId : ObjectId) (r : Project.Role)
    (l : list Project.Collaborator) :
  map Project.user (assignFirst (Project.sameUser userId) (Project.setRole r) l)
  = map Project.user l.
Proof.
  induction l as [|c l IH]; simpl; [reflexivity|].
  destruct (Project.sameUser userId c); simpl; [reflexivity|now rewrite IH].
Qed.

Lemma overwriteRole_absent (userId : ObjectId) (r : Project.Role)
    (l : list Project.Collaborator) :
  ~ In userId (map Project.user l) -> overwriteRole userId r l = l.
Proof.
  induction l as [|c l IH]; simpl; intros Hnot; [reflexivity|].
  destruct (Project.sameUser userId c) eqn:Hc.
  - exfalso. apply Hnot. left. now apply sameUser_true.
  - f_equal. apply IH. intros Hin. apply Hnot. now right.
Qed.

Lemma assignFirst_overwriteRole (userId : ObjectId) (r : Project.Role)
    (l : list Project.Collaborator) :
  List.NoDup (map Project.user l) ->
  assignFirst (Project.sameUser userId) (Project.setRole r) l
  = overwriteRole userId r l.
Proof.
  induction l as [|c l IH]; simpl; intros Hnd; [reflexivity|].
  inversion Hnd as [|? ? Hnotin Hnd']; subst.
  destruct (Project.sameUser userId c) eqn:Hc.
  - f_equal. symmetry. apply overwriteRole_absent.
    apply sameUser_true in Hc. now rewrite <- Hc.
  - f_equal. now apply IH.
Qed.

Lemma assignFirst_idempotent (userId : ObjectId) (r : Project.Role)
    (l : list Project.Collaborator) :
  assignFirst (Project.sameUser userId) (Project.setRole r)
    (assignFirst (Project.sameUser userId) (Project.setRole r) l)
  = assignFirst (Project.sameUser userId) (Project.setRole r) l.
Proof.
  induction l as [|c l IH]; simpl; [reflexivity|].
  destruct (Project.sameUser userId c) eqn:Hc; simpl.
  - replace (Project.sameUser userId (Project.setRole r c)) with true
      by (symmetry; apply sameUser_true; simpl; now apply sameUser_true).
    reflexivity.
  - rewrite Hc. now rewrite IH.
Qed.

Lemma assignFirst_app_absent (userId : ObjectId) (r : Project.Role)
    (l : list Project.Collaborator) (now : Date) :
  find (Project.sameUser userId) l = None ->
  assignFirst (Project.sameUser userId) (Project.setRole r)
    (l ++ [Project.mkCollaborator userId r now])
  = l ++ [Project.mkCollaborator userId r now].
Proof.
  induction l as [|c l IH]; simpl; intros Hfind.
  - replace (Project.sameUser userId (Project.mkCollaborator userId r now))
      with true by (symmetry; now apply sameUser_true).
    reflexivity.
  - destruct (Project.sameUser userId c); [discriminate|]. now rewrite IH.
Qed.

Lemma find_assignFirst (userId : ObjectId) (r : Project.Role)
    (l : list Project.Collaborator) (c : Project.Collaborator) :
  find (Project.sameUser userId) l = Some c ->
  find (Project.sameUser userId)
       (assignFirst (Project.sameUser userId) (Project.setRole r) l)
  = Some (Project.setRole r c).
Proof.
  induction l as [|c0 l IH]; simpl; [discriminate|].
  destruct (Project.sameUser userId c0) eqn:Hc; simpl.
  - intros [= <-].
    replace (Project.sameUser userId (Project.setRole r c0)) with true
      by (symmetry; apply sameUser_true; simpl; now apply sameUser_true).
    reflexivity.
  - rewrite Hc. exact IH.
Qed.

Lemma find_app_new (userId : ObjectId) (r : Project.Role)
    (l : list Project.Collaborator) (now : Date) :
  find (Project.sameUser userId) l = None ->
  find (Project.sameUser userId) (l ++ [Project.mkCollaborator userId r now])
  = Some (Project.mkCollaborator userId r now).
Proof.
  induction l as [|c l IH]; simpl; intros Hfind.
  - replace (Project.sameUser userId (Project.mkCollaborator userId r now))
      with true by (symmetry; now apply sameUser_true).
    reflexivity.
  - destruct (Project.sameUser userId c); [discriminate|]. now apply IH.
Qed.

(** Adding the same collaborator with the same role a second time changes
    nothing in the list. *)
Lemma addCollaborator_idempotent (now now' : Date) (p : Project.t)
    (userId : ObjectId) (r : Project.Role) :
  Project.collaborators
    (Project.addCollaborator now' (Project.addCollaborator now p userId r) userId r)
  = Project.collaborators (Project.addCollaborator now p userId r).
Proof.
  rewrite (addCollaborator_collaborators now').
  rewrite (addCollaborator_collaborators now).
  destruct (find (Project.sameUser userId) (Project.collaborators p)) as [c|] eqn:Hfind.
  - rewrite (find_assignFirst _ r _ _ Hfind). apply assignFirst_idempotent.
  - rewrite (find_app_new _ r _ now Hfind). now apply assignFirst_app_absent.
Qed.

Lemma find_removed (userId : ObjectId) (l : list Project.Collaborator) :
  find (Project.sameUser userId)
       (List.filter (fun c => negb (Project.sameUser userId c)) l) = None.
Proof.
  induction l as [|c l IH]; simpl; [reflexivity|].
  destruct (Project.sameUser userId c) eqn:Hc; simpl; [exact IH|].
  now rewrite Hc.
Qed.

Lemma filter_removed (userId : ObjectId) (l : list Project.Collaborator) :
  List.filter (Project.sameUser userId)
              (List.filter (fun c => negb (Project.sameUser userId c)) l) = [].
Proof.
  induction l as [|c l IH]; simpl; [reflexivity|].
  destruct (Project.sameUser userId c) eqn:Hc; simpl; [exact IH|].
  now rewrite Hc.
Qed.

(** Removing a user and adding the user again leaves exactly one entry for
    the user, with the role given last; this needs no assumption on the list
    before. *)
Lemma remove_then_add (now now' : Date) (p : Project.t) (userId : ObjectId)
    (r' : Project.Role) :
  List.filter (Project.sameUser userId)
    (Project.collaborators
       (Project.addCollaborator now'
          (Project.removeCollaborator now p userId) userId r'))
  = [Project.mkCollaborator userId r' now'].
Proof.
  rewrite addCollaborator_collaborators, removeCollaborator_collaborators.
  rewrite find_removed, List.filter_app, filter_removed. simpl.
  replace (Project.sameUser userId (Project.mkCollaborator userId r' now'))
    with true by (symmetry; now apply sameUser_true).
  reflexivity.
Qed.

Lemma NoDup_users_app (userId : ObjectId) (r : Project.Role) (now : Date)
    (l : list Project.Collaborator) :
  List.NoDup (map Project.user l) ->
  ~ In userId (map Project.user l) ->
  List.NoDup (map Project.user (l ++ [Project.mkCollaborator userId r now])).
Proof.
  intros Hnd Hnot. rewrite map_app. simpl.
  induction (map Project.user l) as [|u us IH]; simpl.
  - constructor; [intros []|constructor].
  - inversion Hnd as [|? ? Hu Hus]; subst. constructor.
    + rewrite in_app_iff. intros [Hin|[Heq|[]]]; [now apply Hu|].
      apply Hnot. now left.
    + apply IH; [exact Hus|]. intros Hin. apply Hnot. now right.
Qed.

(** C6. On a project in which every user is listed at most once,
    [addCollaborator] keeps it so; when the user is already listed, the role
    of the user's entry is overwritten where it stands and nothing else
    changes; otherwise one entry is appended; doing it a second time changes
    nothing; and removing the user and then adding the user with some role
    leaves exactly one entry for the user, with that role. *)
Theorem addCollaborator_upsert (now : Date) (p : Project.t)
    (userId : ObjectId) (r : Project.Role) :
  List.NoDup (Project.users p) ->
  List.NoDup (Project.users (Project.addCollaborator now p userId r))
  /\ Project.collaborators (Project.addCollaborator now p userId r)
     = (if decide (elem_of userId (Project.users p))
        then overwriteRole userId r (Project.collaborators p)
        else Project.collaborators p ++ [Project.mkCollaborator userId r now])
  /\ (forall now' : Date,
        Project.collaborators
          (Project.addCollaborator now'
             (Project.addCollaborator now p userId r) userId r)
        = Project.collaborators (Project.addCollaborator now p userId r))
  /\ (forall (now' : Date) (r' : Project.Role),
        List.filter (Project.sameUser userId)
          (Project.collaborators
             (Project.addCollaborator now'
                (Project.removeCollaborator now p userId) userId r'))
        = [Project.mkCollaborator userId r' now']).
Proof.
  unfold Project.users. intros Hnd.
  split; [|split; [|split]].
  - rewrite addCollaborator_collaborators.
    destruct (find (Project.sameUser userId) (Project.collaborators p)) eqn:Hfind.
    + now rewrite assignFirst_users.
    + apply NoDup_users_app; [exact Hnd|]. now apply find_sameUser_None.
  - rewrite addCollaborator_collaborators.
    destruct (find (Project.sameUser userId) (Project.collaborators p)) eqn:Hfind.
    + destruct (decide (elem_of userId (map Project.user (Project.collaborators p))))
        as [_|Hnot].
      * now apply assignFirst_overwriteRole.
      * rewrite list_elem_of_In in Hnot.
        apply find_sameUser_None in Hnot. congruence.
    + destruct (decide (elem_of userId (map Project.user (Project.collaborators p))))
        as [Hin|_]; [|reflexivity].
      rewrite list_elem_of_In in Hin.
      apply find_sameUser_None in Hfind. contradiction.
  - intros now'. apply addCollaborator_idempotent.
  - intros now' r'. apply remove_then_add.
Qed.

Lemma addCollaborator_upsert_witness :
  List.NoDup (Project.users sampleProject)
  /\ (List.NoDup (Project.users
                    (Project.addCollaborator 2000%Z sampleProject bob Project.admin))
      /\ Project.collaborators
           (Project.addCollaborator 2000%Z sampleProject bob Project.admin)
         = (if decide (elem_of bob (Project.users sampleProject))
            then overwriteRole bob Project.admin (Project.collaborators sampleProject)
            else Project.collaborators sampleProject
                 ++ [Project.mkCollaborator bob Project.admin 2000%Z])
      /\ (forall now' : Date,
            Project.collaborators
              (Project.addCollaborator now'
                 (Project.addCollaborator 2000%Z sampleProject bob Project.admin)
                 bob Project.admin)
            = Project.collaborators
                (Project.addCollaborator 2000%Z sampleProject bob Project.admin))
      /\ (forall (now' : Date) (r' : Project.Role),
            List.filter (Project.sameUser bob)
              (Project.collaborators
                 (Project.addCollaborator now'
                    (Project.removeCollaborator 2000%Z sampleProject bob) bob r'))
            = [Project.mkCollaborator bob r' now'])).
Proof.
  assert (Hnd : List.NoDup (Project.users sampleProject)).
  { repeat constructor. intros []. }
  split; [exact Hnd|].
  exact (addCollaborator_upsert 2000%Z sampleProject bob Project.admin Hnd).
Defined.

(** ** Deleting a project *)

(** C1. Deleting a stored project is refused (403, nothing changes) for every
    authenticated user who is not its owner, whatever role the user holds as
    a collaborator; for the owner it succeeds, the project is gone and so is
    every design of the project, while the designs of other projects stay. *)
Theorem deleteProject_owner_only (st : Store) (user : User) (id : ObjectId)
    (P : Project.t) :
  user_isActive user = true ->
  projects st !! id = Some P ->
  if decide (user_id user = Project.owner P)
  then status (Routes.deleteProject st (Some user) id).1 = 200
       /\ projects (Routes.deleteProject st (Some user) id).2 !! id = None
       /\ (forall k d,
             designs (Routes.deleteProject st (Some user) id).2 !! k = Some d <->
             designs st !! k = Some d /\ Design.project d <> id)
  else status (Routes.deleteProject st (Some user) id).1 = 403
       /\ (Routes.deleteProject st (Some user) id).2 = st.
Proof.
  intros Hactive Hlookup.
  unfold Routes.deleteProject, Auth.authenticateToken,
    Auth.requireOwnershipOrCollaboration, toString.
  rewrite Hactive, Hlookup. simpl.
  destruct (decide (user_id user = Project.owner P)) as [Heq|Hne].
  - rewrite <- Heq, String.eqb_refl. simpl. rewrite <- Heq, String.eqb_refl. simpl.
    split; [reflexivity|]. split; [apply lookup_delete_eq|].
    intros k d. rewrite map_lookup_filter_Some. simpl. reflexivity.
  - destruct (String.eqb_spec (Project.owner P) (user_id user)) as [Heq|_];
      [now symmetry in Heq|].
    destruct ((0 <? length (Project.collaborators P))%nat
              && existsb (Project.sameUser (user_id user)) (Project.collaborators P));
      simpl.
    + destruct (String.eqb_spec (Project.owner P) (user_id user)) as [Heq|_];
        [now symmetry in Heq|].
      simpl. split; reflexivity.
    + split; reflexivity.
Qed.

Lemma deleteProject_owner_only_witness :
  (user_isActive (userOf bob enterprise) = true
   /\ projects sampleStore !! Project._id adminProject = Some adminProject)
  /\ Project.hasAccess adminProject bob Project.admin = true
  /\ status (Routes.deleteProject sampleStore (Some (userOf bob enterprise))
               (Project._id adminProject)).1 = 403
  /\ (Routes.deleteProject sampleStore (Some (userOf bob enterprise))
        (Project._id adminProject)).2 = sampleStore.
Proof.
  split; [split; reflexivity|]. split; [reflexivity|].
  exact (deleteProject_owner_only sampleStore (userOf bob enterprise)
           (Project._id adminProject) adminProject eq_refl eq_refl).
Defined.

(** ** Derived metadata *)

Lemma orZero_id (p : Qc) : Design.orZero p = p.
Proof. unfold Design.orZero. destruct (decide (p = 0%Qc)); congruence. Qed.

Lemma fold_left_Qcsum {A : Type} (f : A -> Qc) (l : list A) (a : Qc) :
  fold_left (fun acc v => (acc + f v)%Qc) l a = (a + Qcsum (map f l))%Qc.
Proof.
  revert a. induction l as [|v l IH]; intros a; simpl.
  - ring.
  - rewrite IH. ring.
Qed.

Lemma fold_left_pointwise {A B : Type} (f g : B -> A -> B) (l : list A) (b : B) :
  (forall acc v, f acc v = g acc v) -> fold_left f l b = fold_left g l b.
Proof.
  intros Hfg. revert b. induction l as [|v l IH]; intros b; simpl;
    [reflexivity|]. now rewrite Hfg, IH.
Qed.

Lemma half_is_inverse_of_two : Q2Qc (1 # 2) = (/ Design.two)%Qc.
Proof. apply Qc_is_canon. reflexivity. Qed.

(** The loop of the hook computes the cyclic sum of the shoelace formula. *)
Lemma loopArea_crossTerms (pts : list wallPoint) :
  Design.loopArea pts = Qcsum (map (crossTerm pts) (seq 0 (length pts))).
Proof.
  unfold Design.loopArea.
  rewrite (fold_left_pointwise _ (fun acc i => (acc + crossTerm pts i)%Qc)).
  - rewrite fold_left_Qcsum. ring.
  - intros acc i. unfold crossTerm. simpl. ring.
Qed.

Lemma totalArea_step (acc : Qc) (r : Wall.t) :
  (if (3 <=? length (Wall.points r))%nat
   then (acc + Qcabs (Design.loopArea (Wall.points r)) / Design.two)%Qc
   else acc)
  = (acc + roomArea r)%Qc.
Proof.
  unfold roomArea, shoelaceArea.
  destruct (3 <=? length (Wall.points r))%nat.
  - rewrite loopArea_crossTerms, half_is_inverse_of_two.
    unfold Qcdiv. ring.
  - ring.
Qed.

Lemma preSave_totalArea (d : Design.t) :
  Design.totalArea (Design.metadata (Design.preSave d))
  = Qcsum (map roomArea (Design.rooms (Design.elements d))).
Proof.
  unfold Design.preSave, Design.with_metadata.
  cbn [Design.metadata Design.totalArea].
  rewrite (fold_left_pointwise _ (fun acc r => (acc + roomArea r)%Qc)).
  - rewrite fold_left_Qcsum. ring.
  - apply totalArea_step.
Qed.

Lemma preSave_totalCost (d : Design.t) :
  Design.totalCost (Design.metadata (Design.preSave d))
  = Qcsum (map FurnitureItem.price (Design.furniture d)).
Proof.
  unfold Design.preSave, Design.with_metadata.
  cbn [Design.metadata Design.totalCost].
  rewrite (fold_left_pointwise _ (fun acc v => (acc + FurnitureItem.price v)%Qc)).
  - rewrite fold_left_Qcsum. ring.
  - intros acc v. now rewrite orZero_id.
Qed.

Lemma preSave_consistent (d : Design.t) : metadataConsistent (Design.preSave d).
Proof.
  split; [|split].
  - apply (preSave_totalCost d).
  - reflexivity.
  - apply (preSave_totalArea d).
Qed.



(** ** Saving recomputes the metadata; updating through the store does not *)

Lemma save_consistent (d d' : Design.t) :
  Design.save d = Ok d' -> metadataConsistent d'.
Proof.
  unfold Design.save. destruct (Design.validate d); [|discriminate].
  intros [= <-]. apply (preSave_consistent d).
Qed.

(** The furniture operations of the model save the design, so what they
    store has consistent metadata. *)
Lemma furniture_methods_consistent (now : Date) (d d' : Design.t)
    (furnitureData : Design.FurnitureData) (furnitureId : string) :
  (Design.addFurniture now d furnitureData = Ok d' -> metadataConsistent d')
  /\ (Design.removeFurniture d furnitureId = Ok d' -> metadataConsistent d').
Proof. split; apply save_consistent. Qed.

(** [findByIdAndUpdate] leaves the stored metadata as they were. *)
Lemma applyUpdate_metadata (u : Design.Update) (d : Design.t) :
  Design.metadata (Design.applyUpdate u d) = Design.metadata d.
Proof. reflexivity. Qed.

(** C3, where the code departs from it. The owner replaces the furniture of
    a design without furniture through [PUT /api/designs/:id]: the request
    succeeds, the stored design holds the sofa, and its metadata still say no
    furniture and no cost. *)
Theorem putDesign_stale_metadata :
  metadataConsistent sampleDesign
  /\ status (Routes.putDesign sampleStore (Some (userOf alice free))
               (Design._id sampleDesign) furnitureBody).1 = 200
  /\ exists d',
       designs (Routes.putDesign sampleStore (Some (userOf alice free))
                  (Design._id sampleDesign) furnitureBody).2
         !! Design._id sampleDesign = Some d'
       /\ Design.furniture d' = [sofa]
       /\ Design.furnitureCount (Design.metadata d') = 0
       /\ Design.totalCost (Design.metadata d') = 0%Qc
       /\ ~ metadataConsistent d'.
Proof.
  split; [repeat split|]. split; [reflexivity|].
  eexists. split; [reflexivity|]. split; [reflexivity|].
  split; [reflexivity|]. split; [reflexivity|].
  intros (_ & Hcount & _). discriminate Hcount.
Qed.

(** ** Updating a furniture item *)

(** No furniture item carries an [_id], so the look-up never finds one. *)
Lemma DocumentArray_id_furniture (fs : list FurnitureItem.t) (furnitureId : string) :
  DocumentArray_id FurnitureItem.get_id fs furnitureId = None.
Proof. induction fs as [|f fs IH]; simpl; [reflexivity|exact IH]. Qed.

Lemma updateFurniture_throws (d : Design.t) (furnitureId : string)
    (updateData : Design.FurniturePatch) :
  Design.updateFurniture d furnitureId updateData = Throw "Furniture not found".
Proof. unfold Design.updateFurniture. now rewrite DocumentArray_id_furniture. Qed.

(** C5, where the code departs from it. The design holds an item whose [id]
    is ["sofa-1"]; updating that item fails with "Furniture not found", the
    route answers 404 and the stored design is unchanged. *)
Theorem updateFurniture_present_not_found :
  In "sofa-1" (map FurnitureItem.id (Design.furniture furnishedDesign))
  /\ Design.updateFurniture furnishedDesign "sofa-1" pricePatch
     = Throw "Furniture not found"
  /\ status (Routes.putFurniture furnishedStore (Some (userOf alice free))
               (Design._id furnishedDesign) "sofa-1" pricePatch).1 = 404
  /\ (Routes.putFurniture furnishedStore (Some (userOf alice free))
        (Design._id furnishedDesign) "sofa-1" pricePatch).2 = furnishedStore.
Proof.
  split; [now left|]. split; [apply updateFurniture_throws|].
  split; reflexivity.
Qed.

(** ** Duplicating a design *)

Lemma inkCount_app (s1 s2 : string) :
  inkCount (s1 ++ s2) = inkCount s1 + inkCount s2.
Proof. induction s1 as [|c s1 IH]; simpl; [reflexivity|]. rewrite IH. lia. Qed.

Lemma inkCount_rev_app (s1 s2 : string) :
  inkCount (String.rev_app s1 s2) = inkCount s1 + inkCount s2.
Proof.
  revert s2. induction s1 as [|c s1 IH]; intros s2; simpl; [reflexivity|].
  rewrite IH. simpl. lia.
Qed.

Lemma inkCount_rev (s : string) : inkCount (String.rev s) = inkCount s.
Proof. unfold String.rev. rewrite inkCount_rev_app. simpl. lia. Qed.

Lemma inkCount_trimStart (s : string) : inkCount (trimStart s) = inkCount s.
Proof.
  induction s as [|c s IH]; simpl; [reflexivity|].
  destruct (isWhitespace c) eqn:Hc; simpl; [exact IH|]. now rewrite Hc.
Qed.

Lemma inkCount_trim (s : string) : inkCount (trim s) = inkCount s.
Proof.
  unfold trim.
  now rewrite inkCount_rev, inkCount_trimStart, inkCount_rev, inkCount_trimStart.
Qed.

Lemma trimStart_ink (s : string) : trimStart s <> "" -> 0 < inkCount s.
Proof.
  induction s as [|c s IH]; simpl; [congruence|].
  destruct (isWhitespace c); simpl; [exact IH|lia].
Qed.

Lemma rev_app_nonempty (s1 s2 : string) : s2 <> "" -> String.rev_app s1 s2 <> "".
Proof.
  revert s2. induction s1 as [|c s1 IH]; intros s2 Hs2; simpl; [exact Hs2|].
  apply IH. discriminate.
Qed.

Lemma rev_empty (s : string) : String.rev s = "" -> s = "".
Proof.
  destruct s as [|c s]; [reflexivity|]. unfold String.rev. simpl. intros H.
  exfalso. revert H. apply rev_app_nonempty. discriminate.
Qed.

Lemma trim_ink (s : string) : trim s <> "" -> 0 < inkCount s.
Proof.
  intros Hne. rewrite <- inkCount_trimStart, <- inkCount_rev.
  apply trimStart_ink. intros Hempty. apply Hne. unfold trim.
  now rewrite Hempty.
Qed.

Lemma ink_nonempty (s : string) : 0 < inkCount s -> s <> "".
Proof. intros H ->. simpl in H. lia. Qed.

(** The name of a copy is never empty. *)
Lemma duplicateName_nonempty (design : Design.t) (name : option string) :
  duplicateName design name <> "".
Proof.
  unfold duplicateName. apply ink_nonempty. rewrite inkCount_trim.
  destruct name as [s|]; simpl.
  - destruct (String.eqb_spec (trim s) "") as [Heq|Hne].
    + rewrite inkCount_app. simpl. lia.
    + rewrite inkCount_trim. now apply trim_ink.
  - rewrite inkCount_app. simpl. lia.
Qed.

Lemma save_newDuplicate (newId : ObjectId) (design : Design.t) (name : option string) :
  Design.save (Routes.newDuplicate newId design (trim <$> name)) =
  if (String.length (duplicateName design name) <=? 100)%nat
  then Ok (Design.with_isNew false
             (Design.preSave (Routes.newDuplicate newId design (trim <$> name))))
  else Throw "Design name cannot exceed 100 characters".
Proof.
  unfold Design.save, Design.validate, Design.validateMaxlength.
  change (Design.name (Routes.newDuplicate newId design (trim <$> name)))
    with (duplicateName design name).
  destruct (String.eqb_spec (duplicateName design name) "") as [Heq|_].
  - now apply duplicateName_nonempty in Heq.
  - destruct (String.length (duplicateName design name) <=? 100)%nat; reflexivity.
Qed.

(** C10, as the code has it. Any authenticated user may duplicate a public
    design, owner or collaborator of its project or not. When the name of the
    copy (the trimmed name of the request, or the name of the source followed
    by " (Copy)") has at most 100 characters, the request succeeds with 201
    and stores one new design under the project of the source, as a draft of
    version "1.0.0" with the furniture and elements of the source; the
    projects and the other designs are untouched. When the name is longer the
    schema refuses the copy: the answer is 500 and nothing is stored. *)
Theorem duplicateDesign_public (st : Store) (user : User) (id : ObjectId)
    (design : Design.t) (project : Project.t) (name : option string)
    (newId : ObjectId) :
  user_isActive user = true ->
  designs st !! id = Some design ->
  projects st !! Design.project design = Some project ->
  Design.isPublic design = true ->
  designs st !! newId = None ->
  if (String.length (duplicateName design name) <=? 100)%nat
  then status (Routes.duplicateDesign st (Some user) id name newId).1 = 201
       /\ exists newDesign : Design.t,
            data (Routes.duplicateDesign st (Some user) id name newId).1
              = Some newDesign
            /\ designs (Routes.duplicateDesign st (Some user) id name newId).2
               = <[newId := newDesign]> (designs st)
            /\ projects (Routes.duplicateDesign st (Some user) id name newId).2
               = projects st
            /\ (forall k d, designs st !! k = Some d ->
                  designs (Routes.duplicateDesign st (Some user) id name newId).2
                    !! k = Some d)
            /\ Design._id newDesign = newId
            /\ Design.project newDesign = Design.project design
            /\ Design.name newDesign = duplicateName design name
            /\ Design.status newDesign = draft
            /\ Design.version newDesign = "1.0.0"
            /\ Design.furniture newDesign = Design.furniture design
            /\ Design.elements newDesign = Design.elements design
  else status (Routes.duplicateDesign st (Some user) id name newId).1 = 500
       /\ (Routes.duplicateDesign st (Some user) id name newId).2 = st.
Proof.
  intros Hactive Hdesign Hproject Hpublic Hfresh.
  unfold Routes.duplicateDesign, Auth.authenticateToken, Routes.findDesign.
  rewrite Hactive, Hdesign, Hproject. simpl.
  unfold Routes.mayRead. rewrite Hpublic, orb_true_r. simpl.
  rewrite save_newDuplicate.
  destruct (String.length (duplicateName design name) <=? 100)%nat; simpl.
  - split; [reflexivity|]. eexists. split; [reflexivity|].
    split; [reflexivity|]. split; [reflexivity|]. split.
    + intros k d Hk. rewrite lookup_insert_ne; [exact Hk|]. congruence.
    + repeat split.
  - split; reflexivity.
Qed.

(** C10 as stated fails on long names: carol, a stranger to alice's project,
    duplicates a public design whose name has 100 characters and gives no
    name; the copy's name has 107, the save fails, nothing is stored. *)
Lemma duplicateDesign_long_name_fails :
  Design.isPublic longNamedDesign = true
  /\ designs longNameStore !! Design._id longNamedDesign = Some longNamedDesign
  /\ String.length (Design.name longNamedDesign) = 100
  /\ status (Routes.duplicateDesign longNameStore (Some (userOf carol free))
               (Design._id longNamedDesign) None "64c000000000000000000099").1 = 500
  /\ (Routes.duplicateDesign longNameStore (Some (userOf carol free))
        (Design._id longNamedDesign) None "64c000000000000000000099").2
     = longNameStore.
Proof. repeat split. Qed.

Lemma duplicateDesign_public_witness :
  (user_isActive (userOf carol free) = true
   /\ designs sampleStore !! "64c000000000000000000012"
      = Some (designOf "64c000000000000000000012" (Project._id adminProject)
                       "Plan B" true)
   /\ projects sampleStore !! Project._id adminProject = Some adminProject
   /\ Project.hasAccess adminProject carol Project.viewer = false
   /\ designs sampleStore !! "64c000000000000000000099" = None)
  /\ status (Routes.duplicateDesign sampleStore (Some (userOf carol free))
               "64c000000000000000000012" None "64c000000000000000000099").1 = 201
  /\ exists newDesign : Design.t,
       designs (Routes.duplicateDesign sampleStore (Some (userOf carol free))
                  "64c000000000000000000012" None "64c000000000000000000099").2
         !! "64c000000000000000000099" = Some newDesign
       /\ Design.project newDesign = Project._id adminProject
       /\ Design.name newDesign = "Plan B (Copy)".
Proof.
  split; [repeat split|].
  pose proof (duplicateDesign_public sampleStore (userOf carol free)
                "64c000000000000000000012"
                (designOf "64c000000000000000000012" (Project._id adminProject)
                          "Plan B" true)
                adminProject None "64c000000000000000000099"
                eq_refl eq_refl eq_refl eq_refl eq_refl) as H.
  change (String.length
            (duplicateName
               (designOf "64c000000000000000000012" (Project._id adminProject)
                         "Plan B" true) None) <=? 100)%nat with true in H.
  destruct H as (Hstatus & newDesign & _ & Hstore & _ & _ & _ & Hproj & Hname & _).
  split; [exact Hstatus|].
  exists newDesign. split; [|split].
  - rewrite Hstore. apply lookup_insert_eq.
  - exact Hproj.
  - exact Hname.
Defined.

(** ** The template catalogue *)

Lemma In_insertSorted {A : Type} (le : A -> A -> bool) (v x : A) (l : list A) :
  In x (Routes.insertSorted le v l) -> x = v \/ In x l.
Proof.
  induction l as [|h rest IH]; simpl.
  - intros [<-|[]]. now left.
  - destruct (le v h); simpl.
    + intros [<-|[<-|Hin]]; [now left|right; now left|right; now right].
    + intros [<-|Hin]; [right; now left|].
      destruct (IH Hin) as [->|Hrest]; [now left|right; now right].
Qed.

Lemma In_sortDocs {A : Type} (le : A -> A -> bool) (x : A) (l : list A) :
  In x (Routes.sortDocs le l) -> In x l.
Proof.
  induction l as [|h rest IH]; simpl; [intros []|].
  intros Hin. apply In_insertSorted in Hin as [->|Hin]; [now left|].
  right. now apply IH.
Qed.

Lemma In_take_drop {A : Type} (n k : nat) (x : A) (l : list A) :
  In x (take n (drop k l)) -> In x l.
Proof.
  intros Hin.
  rewrite <- (take_drop k l). apply in_or_app. right.
  rewrite <- (take_drop n (drop k l)). apply in_or_app. now left.
Qed.

Lemma subscriptionFilter_visible (req_user : option User) (t : Template.t) :
  Routes.whenSet (Routes.subscriptionFilter req_user)
    (fun c => Routes.condHolds Plan_eqb c (tierOf t))
  = tierVisible req_user t.
Proof.
  unfold tierVisible, visibleTiers, Routes.subscriptionFilter.
  destruct req_user as [user|]; [destruct (user_plan user)|];
    destruct (tierOf t); reflexivity.
Qed.

Section TextIndexFacts.

Variable textScore : string -> Template.t -> option Z.
Variable regexMatch : string -> string -> bool.

Lemma matchesQuery_tier (req_user : option User) (q : Routes.TemplateParams)
    (t : Template.t) :
  Routes.matchesQuery textScore regexMatch (Routes.buildQuery req_user q) t
  = tierVisible req_user t
    && Routes.matchesQuery textScore regexMatch
         (anyTier (Routes.buildQuery req_user q)) t.
Proof.
  unfold Routes.matchesQuery, anyTier.
  cbn [Routes.tq_isActive Routes.tq_subscription Routes.tq_text
       Routes.tq_category Routes.tq_subcategory Routes.tq_difficulty
       Routes.tq_style Routes.tq_isFeatured Routes.tq_isPremium Routes.tq_tags
       Routes.tq_totalArea Routes.buildQuery].
  fold (tierOf t). rewrite subscriptionFilter_visible.
  cbn [Routes.whenSet].
  destruct (tierVisible req_user t); [|now rewrite !andb_false_r].
  now rewrite !andb_true_r.
Qed.


End TextIndexFacts.




(** The catalogue as three requesters see it, most popular first. *)
Example getTemplates_catalogue :
  (Routes.page_templates <$>
     data (Routes.getTemplates noIndex exactMatch catalogue None noParams))
  = Some [templateOf "64d000000000000000000001" "Starter" free 5%Z]
  /\ (map Template.name <$>
        (Routes.page_templates <$>
           data (Routes.getTemplates noIndex exactMatch catalogue
                   (Some (userOf bob pro)) noParams)))
     = Some ["Loft"; "Starter"]
  /\ (map Template.name <$>
        (Routes.page_templates <$>
           data (Routes.getTemplates noIndex exactMatch catalogue
                   (Some (userOf bob enterprise)) noParams)))
     = Some ["Loft"; "Penthouse"; "Starter"].
Proof. repeat split; vm_compute; reflexivity. Qed.

(** The owner deletes [adminProject]: its two designs go, the design of the
    other project stays. *)
Example deleteProject_cascade :
  status (Routes.deleteProject sampleStore (Some (userOf alice free))
            (Project._id adminProject)).1 = 200
  /\ map fst (map_to_list
                (designs (Routes.deleteProject sampleStore (Some (userOf alice free))
                            (Project._id adminProject)).2))
     = [Design._id sampleDesign]
  /\ map fst (map_to_list
                (projects (Routes.deleteProject sampleStore (Some (userOf alice free))
                             (Project._id adminProject)).2))
     = [Project._id sampleProject].
Proof. repeat split; vm_compute; reflexivity. Qed.

(** ** The gates the routes use *)

Lemma existsb_first_match (userId : ObjectId) (f : Project.Collaborator -> bool)
    (l : list Project.Collaborator) (c : Project.Collaborator) :
  List.NoDup (map Project.user l) ->
  find (Project.sameUser userId) l = Some c ->
  existsb (fun x => Project.sameUser userId x && f x) l = f c.
Proof.
  induction l as [|x l IH]; simpl; [discriminate|].
  intros Hnd Hfind. inversion Hnd as [|? ? Hnotin Hnd']; subst.
  destruct (Project.sameUser userId x) eqn:Hx.
  - injection Hfind as ->. simpl.
    replace (existsb (fun x => Project.sameUser userId x && f x) l) with false;
      [now rewrite orb_false_r|].
    symmetry. apply not_true_is_false. intros Hex.
    apply existsb_exists in Hex as (y & Hy & Hsame).
    apply andb_true_iff in Hsame as [Hsame _].
    apply sameUser_true in Hsame. apply sameUser_true in Hx.
    apply Hnotin. rewrite Hx, <- Hsame. now apply in_map.
  - simpl. now apply IH.
Qed.

(** The design routes that write ask for an editor: for a collaborator who is
    not the owner they compare ranks like [hasAccess] with required role
    editor. *)
Lemma mayWrite_iff_editor_rank (p : Project.t) (user : User)
    (c : Project.Collaborator) :
  Project.owner p <> user_id user ->
  List.NoDup (Project.users p) ->
  find (Project.sameUser (user_id user)) (Project.collaborators p) = Some c ->
  Routes.mayWrite p user = Project.hasAccess p (user_id user) Project.editor
  /\ (Routes.mayWrite p user = true <->
      (Project.roleHierarchy (Project.role c)
       >= Project.roleHierarchy Project.editor)%Z).
Proof.
  intros Howner Hnd Hfind.
  assert (Hgate : Routes.mayWrite p user
                  = existsb (Project.Role_eqb (Project.role c))
                            [Project.editor; Project.admin]).
  { unfold Routes.mayWrite, toString.
    destruct (String.eqb_spec (Project.owner p) (user_id user)) as [Heq|_];
      [contradiction|].
    rewrite orb_false_l.
    exact (existsb_first_match (user_id user)
             (fun x => existsb (Project.Role_eqb (Project.role x))
                               [Project.editor; Project.admin])
             (Project.collaborators p) c Hnd Hfind). }
  assert (Hacc : Project.hasAccess p (user_id user) Project.editor
                 = (Project.roleHierarchy (Project.role c)
                    >=? Project.roleHierarchy Project.editor)%Z).
  { unfold Project.hasAccess, toString.
    destruct (String.eqb_spec (Project.owner p) (user_id user)) as [Heq|_];
      [contradiction|].
    now rewrite Hfind. }
  split.
  - rewrite Hgate, Hacc. destruct (Project.role c); reflexivity.
  - rewrite Hgate, <- Zgeb_ge. destruct (Project.role c); simpl; split; auto.
Qed.

(** The middleware of the project routes takes no required role: it lets a
    collaborator through whatever the collaborator's role and whatever the
    method of the request. *)
Lemma requireOwnershipOrCollaboration_any_role (method : Method) (user : User)
    (collection : gmap ObjectId Project.t) (resourceId : ObjectId)
    (resource : Project.t) (c : Project.Collaborator) :
  collection !! resourceId = Some resource ->
  find (Project.sameUser (user_id user)) (Project.collaborators resource) = Some c ->
  Auth.requireOwnershipOrCollaboration method (Some user) collection resourceId
  = next resource.
Proof.
  intros Hres Hfind. unfold Auth.requireOwnershipOrCollaboration.
  rewrite Hres.
  destruct (String.eqb (toString (Project.owner resource)) (toString (user_id user)));
    [reflexivity|].
  apply find_some in Hfind as [Hin Hsame].
  replace (existsb (Project.sameUser (user_id user)) (Project.collaborators resource))
    with true by (symmetry; apply existsb_exists; eauto).
  destruct (Project.collaborators resource); [destruct Hin|reflexivity].
Qed.

(** * Further properties of the models and routes *)

(** ** Furniture and walls of a design *)

Lemma save_valid (d : Design.t) :
  Design.validate d = Ok tt ->
  Design.save d = Ok (Design.with_isNew false (Design.preSave d)).
Proof. intros Hvalid. unfold Design.save. now rewrite Hvalid. Qed.

Lemma validate_with_furniture (fs : list FurnitureItem.t) (d : Design.t) :
  Design.validate (Design.with_furniture fs d) = Design.validate d.
Proof. reflexivity. Qed.



Lemma filter_absent_id (furnitureId : string) (fs : list FurnitureItem.t) :
  ~ In furnitureId (map FurnitureItem.id fs) ->
  List.filter (fun f => negb (String.eqb (FurnitureItem.id f) furnitureId)) fs = fs.
Proof.
  induction fs as [|f fs IH]; simpl; intros Hnot; [reflexivity|].
  destruct (String.eqb_spec (FurnitureItem.id f) furnitureId) as [Heq|Hne]; simpl.
  - exfalso. apply Hnot. now left.
  - f_equal. apply IH. intros Hin. apply Hnot. now right.
Qed.






Lemma filter_app_new_id (i : string) (fs : list FurnitureItem.t)
    (item : FurnitureItem.t) :
  FurnitureItem.id item = i ->
  ~ In i (map FurnitureItem.id fs) ->
  List.filter (fun f => negb (String.eqb (FurnitureItem.id f) i)) (fs ++ [item])
  = fs.
Proof.
  intros Hid Hnot. rewrite List.filter_app, filter_absent_id by exact Hnot.
  simpl. rewrite Hid, String.eqb_refl. simpl. apply app_nil_r.
Qed.


Lemma addFurniture_result (now : Date) (d : Design.t)
    (furnitureData : Design.FurnitureData) :
  Design.validate d = Ok tt ->
  exists (d1 : Design.t) (item : FurnitureItem.t),
    Design.addFurniture now d furnitureData = Ok d1
    /\ Design.furniture d1 = Design.furniture d ++ [item]
    /\ FurnitureItem.id item
       = strOr (Design.fd_id furnitureData) ("furniture-" ++ pretty now)
    /\ Design.validate d1 = Ok tt
    /\ Design.elements d1 = Design.elements d
    /\ Design.lastRendered (Design.metadata d1)
       = Design.lastRendered (Design.metadata d).
Proof.
  intros Hvalid. unfold Design.addFurniture.
  rewrite save_valid by (now rewrite validate_with_furniture).
  eexists. eexists. split; [reflexivity|]. split; [reflexivity|].
  split; [reflexivity|]. split; [exact Hvalid|]. split; reflexivity.
Qed.

Lemma removeFurniture_result (d : Design.t) (furnitureId : string) :
  Design.validate d = Ok tt ->
  Design.removeFurniture d furnitureId
  = Ok (Design.with_isNew false
          (Design.preSave
             (Design.with_furniture
                (List.filter
                   (fun f => negb (String.eqb (FurnitureItem.id f) furnitureId))
                   (Design.furniture d)) d))).
Proof.
  intros Hvalid. unfold Design.removeFurniture.
  now rewrite save_valid by (now rewrite validate_with_furniture).
Qed.





(** ** The pre-save hook of a design *)

Lemma preSave_idempotent (d : Design.t) :
  Design.preSave (Design.preSave d) = Design.preSave d.
Proof. reflexivity. Qed.

(** X5. Saving is idempotent: a design that a save has written is written
    back unchanged by a second save, and the hook alone changes nothing but
    [totalArea], [totalCost] and [furnitureCount]. *)
Theorem save_idempotent (d d1 : Design.t) :
  Design.save d = Ok d1 ->
  Design.save d1 = Ok d1
  /\ Design.preSave (Design.preSave d) = Design.preSave d
  /\ Design.with_metadata (Design.metadata d) (Design.preSave d) = d.
Proof.
  unfold Design.save. destruct (Design.validate d) eqn:Hvalid; [|discriminate].
  intros [= <-]. split; [|split].
  - change (Design.validate (Design.with_isNew false (Design.preSave d)))
      with (Design.validate d).
    rewrite Hvalid. reflexivity.
  - reflexivity.
  - now destruct d.
Qed.

Lemma save_idempotent_witness :
  Design.save furnishedDesign = Ok furnishedDesign
  /\ Design.save furnishedDesign = Ok furnishedDesign
  /\ Design.preSave (Design.preSave furnishedDesign) = Design.preSave furnishedDesign
  /\ Design.with_metadata (Design.metadata furnishedDesign)
       (Design.preSave furnishedDesign) = furnishedDesign.
Proof.
  assert (Hsave : Design.save furnishedDesign = Ok furnishedDesign).
  { unfold Design.save. simpl. f_equal. }
  split; [exact Hsave|].
  exact (save_idempotent furnishedDesign furnishedDesign Hsave).
Defined.




(** ** Ratings *)







(** ** Middleware *)

(** X8. The two authentication middlewares accept the same identities: the
    optional one attaches a user exactly when the mandatory one lets the
    request through with that user, and attaches none exactly when the
    mandatory one answers 401. *)
Theorem optionalAuth_agrees (identity : option User) :
  (forall user : User,
     Auth.optionalAuth identity = Some user <->
     Auth.authenticateToken identity = next user)
  /\ (Auth.optionalAuth identity = None <->
      exists msg : string, Auth.authenticateToken identity = respond 401 msg)
  /\ (forall user : User,
        Auth.optionalAuth identity = Some user ->
        identity = Some user /\ user_isActive user = true).
Proof.
  unfold Auth.optionalAuth, Auth.authenticateToken.
  destruct identity as [u|]; [destruct (user_isActive u) eqn:Hactive|]; simpl.
  - split; [|split].
    + intros user. split; intros [= ->]; reflexivity.
    + split; [discriminate|]. intros [msg Hmsg]. discriminate Hmsg.
    + intros user [= ->]. now split.
  - split; [|split].
    + intros user. split; discriminate.
    + split; [eauto|reflexivity].
    + intros user. discriminate.
  - split; [|split].
    + intros user. split; discriminate.
    + split; [eauto|reflexivity].
    + intros user. discriminate.
Qed.

Lemma existsb_sameUser (userId : ObjectId) (l : list Project.Collaborator) :
  existsb (Project.sameUser userId) l = true <-> In userId (map Project.user l).
Proof.
  rewrite existsb_exists, in_map_iff. split.
  - intros (c & Hin & Hsame). exists c. split; [now apply sameUser_true|exact Hin].
  - intros (c & Huser & Hin). exists c. split; [exact Hin|now apply sameUser_true].
Qed.



(** ** Access on the project model *)

(** X10. [hasAccess] grants the owner everything; with the default required
    role (viewer) it holds exactly for the owner and the listed
    collaborators; it never grants a user who is neither, public project or
    not; and what it grants for a role it grants for every lower role. *)
Theorem hasAccess_scope (p : Project.t) (userId : ObjectId) :
  (forall r : Project.Role,
     Project.owner p = userId -> Project.hasAccess p userId r = true)
  /\ (Project.hasAccess p userId Project.viewer = true <->
      Project.owner p = userId \/ In userId (Project.users p))
  /\ (forall r : Project.Role,
        Project.hasAccess p userId r = true ->
        Project.owner p = userId \/ In userId (Project.users p))
  /\ (forall r1 r2 : Project.Role,
        (Project.roleHierarchy r1 <= Project.roleHierarchy r2)%Z ->
        Project.hasAccess p userId r2 = true ->
        Project.hasAccess p userId r1 = true).
Proof.
  unfold Project.hasAccess, Project.users, toString.
  destruct (String.eqb_spec (Project.owner p) userId) as [Heq|Hne].
  - split; [reflexivity|]. split; [tauto|]. split; [tauto|reflexivity].
  - destruct (find (Project.sameUser userId) (Project.collaborators p)) as [c|]
      eqn:Hfind.
    + assert (Hin : In userId (map Project.user (Project.collaborators p))).
      { apply find_sameUser_Some in Hfind as [Hin <-]. now apply in_map. }
      split; [contradiction|]. split; [|split].
      * split; [tauto|]. intros _. apply Zgeb_ge.
        destruct (Project.role c); simpl; lia.
      * tauto.
      * intros r1 r2 Hle H2. apply Zgeb_ge in H2. apply Zgeb_ge. lia.
    + apply find_sameUser_None in Hfind.
      split; [contradiction|]. split; [|split].
      * split; [discriminate|]. tauto.
      * discriminate.
      * discriminate.
Qed.

(** X11. Adding a collaborator to a project as loaded from the store bumps
    the version by exactly one and stamps [lastModified], except when the
    user is already listed with that very role: then neither changes. The
    owner and the other fields are never touched. *)
Theorem addCollaborator_version (now : Date) (p : Project.t) (userId : ObjectId)
    (r : Project.Role) :
  Project.isNew p = false ->
  Project.isModified p = false ->
  Project.version (Project.addCollaborator now p userId r)
    = (if listedAs userId r p then Project.version p
       else (Project.version p + 1)%Z)
  /\ Project.lastModified (Project.addCollaborator now p userId r)
    = (if listedAs userId r p then Project.lastModified p else now)
  /\ Project.owner (Project.addCollaborator now p userId r) = Project.owner p
  /\ Project.isPublic (Project.addCollaborator now p userId r)
     = Project.isPublic p.
Proof.
  intros Hnew Hmod. unfold Project.addCollaborator, listedAs.
  destruct (find (Project.sameUser userId) (Project.collaborators p)) as [c|].
  - unfold Project.save, Project.preSave, Project.with_collaborators.
    cbn [Project.isModified Project.isNew].
    rewrite Hnew, Hmod.
    destruct (Project.Role_eqb (Project.role c) r); repeat split.
  - unfold Project.save, Project.preSave, Project.with_collaborators.
    cbn [Project.isModified Project.isNew].
    rewrite Hnew, Hmod. repeat split.
Qed.

Lemma addCollaborator_version_witness :
  (Project.isNew sampleProject = false /\ Project.isModified sampleProject = false)
  /\ Project.version (Project.addCollaborator 2000%Z sampleProject bob Project.editor)
     = 1%Z
  /\ Project.version (Project.addCollaborator 2000%Z sampleProject bob Project.admin)
     = 2%Z
  /\ Project.version (Project.addCollaborator 2000%Z sampleProject carol Project.viewer)
     = 2%Z.
Proof.
  split; [split; reflexivity|].
  split; [|split].
  - exact (proj1 (addCollaborator_version 2000%Z sampleProject bob Project.editor
                    eq_refl eq_refl)).
  - exact (proj1 (addCollaborator_version 2000%Z sampleProject bob Project.admin
                    eq_refl eq_refl)).
  - exact (proj1 (addCollaborator_version 2000%Z sampleProject carol Project.viewer
                    eq_refl eq_refl)).
Defined.

(** ** Collaborator routes *)

Lemma gate_member (method : Method) (user : User)
    (collection : gmap ObjectId Project.t) (id : ObjectId) (P : Project.t) :
  collection !! id = Some P ->
  isMember user P ->
  Auth.requireOwnershipOrCollaboration method (Some user) collection id = next P.
Proof.
  intros Hres Hmember. unfold Auth.requireOwnershipOrCollaboration, toString.
  rewrite Hres.
  destruct (String.eqb_spec (Project.owner P) (user_id user)) as [_|Hne];
    [reflexivity|].
  destruct Hmember as [Ho|Hin]; [contradiction|].
  apply existsb_sameUser in Hin. rewrite Hin.
  destruct (Project.collaborators P); [discriminate Hin|reflexivity].
Qed.

Lemma hydrate_fields (p : Project.t) :
  Project.collaborators (Routes.hydrate p) = Project.collaborators p
  /\ Project.owner (Routes.hydrate p) = Project.owner p
  /\ Project.isNew (Routes.hydrate p) = false
  /\ Project.isModified (Routes.hydrate p) = false.
Proof. repeat split. Qed.

Lemma Project_save_owner (now : Date) (p : Project.t) :
  Project.owner (Project.save now p) = Project.owner p.
Proof.
  unfold Project.save, Project.preSave.
  destruct (Project.isModified p && negb (Project.isNew p)); reflexivity.
Qed.

Lemma hasAccess_listed (p : Project.t) (userId : ObjectId) (r : Project.Role) :
  listedAs userId r p = true -> Project.hasAccess p userId r = true.
Proof.
  unfold listedAs, Project.hasAccess.
  destruct (String.eqb _ _); [reflexivity|].
  destruct (find (Project.sameUser userId) (Project.collaborators p)) as [c|];
    [|discriminate].
  intros Hrole. apply Zgeb_ge.
  destruct (Project.role c), r; simpl in *; try discriminate; lia.
Qed.

(** X12. Whoever owns a project or is listed on it, with whatever role, can
    add a collaborator with any role: when the e-mail address is valid and
    belongs to a user not yet listed, the answer is 200 and the stored
    project lists that user last, with the role asked for, and keeps every
    user listed once; when the user is already listed the answer is 400 and
    nothing changes. The designs are never touched. *)
Theorem postCollaborator_adds (isEmail : string -> bool)
    (normalizeEmail : string -> string) (now : Date) (st : Store)
    (dir : gmap string User) (user found : User) (id : ObjectId) (P : Project.t)
    (email : string) (r : Project.Role) :
  user_isActive user = true ->
  projects st !! id = Some P ->
  isMember user P ->
  isEmail email = true ->
  dir !! normalizeEmail email = Some found ->
  if decide (elem_of (user_id found) (Project.users P))
  then status (Routes.postCollaborator isEmail normalizeEmail now st dir
                 (Some user) id email (Some r)).1 = 400
       /\ (Routes.postCollaborator isEmail normalizeEmail now st dir
             (Some user) id email (Some r)).2 = st
  else status (Routes.postCollaborator isEmail normalizeEmail now st dir
                 (Some user) id email (Some r)).1 = 200
       /\ exists P' : Project.t,
            projects (Routes.postCollaborator isEmail normalizeEmail now st dir
                        (Some user) id email (Some r)).2 !! id = Some P'
            /\ Project.collaborators P'
               = Project.collaborators P
                 ++ [Project.mkCollaborator (user_id found) r now]
            /\ Project.owner P' = Project.owner P
            /\ Project.hasAccess P' (user_id found) r = true
            /\ (List.NoDup (Project.users P) -> List.NoDup (Project.users P'))
            /\ designs (Routes.postCollaborator isEmail normalizeEmail now st dir
                          (Some user) id email (Some r)).2 = designs st.
Proof.
  intros Hactive Hres Hmember Hemail Hfound.
  unfold Routes.postCollaborator, Auth.authenticateToken.
  rewrite Hactive. cbn [negb].
  rewrite (gate_member POST user (projects st) id P Hres Hmember).
  rewrite Hemail, Hfound.
  change (Project.collaborators (Routes.hydrate P)) with (Project.collaborators P).
  destruct (decide (elem_of (user_id found) (Project.users P))) as [Hin|Hnot].
  - rewrite list_elem_of_In in Hin.
    destruct (find (Project.sameUser (user_id found)) (Project.collaborators P))
      eqn:Hfind.
    + split; reflexivity.
    + apply find_sameUser_None in Hfind. contradiction.
  - rewrite list_elem_of_In in Hnot.
    assert (Hfind : find (Project.sameUser (user_id found)) (Project.collaborators P)
                    = None) by now apply find_sameUser_None.
    rewrite Hfind. cbn [fst snd status].
    split; [reflexivity|].
    assert (Hcoll :
      Project.collaborators
        (Project.addCollaborator now (Routes.hydrate P) (user_id found) r)
      = Project.collaborators P ++ [Project.mkCollaborator (user_id found) r now]).
    { rewrite addCollaborator_collaborators.
      change (Project.collaborators (Routes.hydrate P))
        with (Project.collaborators P).
      now rewrite Hfind. }
    eexists. split; [apply lookup_insert_eq|].
    split; [exact Hcoll|]. split; [|split; [|split]].
    + unfold Project.addCollaborator.
      change (Project.collaborators (Routes.hydrate P))
        with (Project.collaborators P).
      rewrite Hfind. now rewrite Project_save_owner.
    + apply hasAccess_listed. unfold listedAs. rewrite Hcoll.
      rewrite (find_app_new _ r _ now Hfind). cbn.
      now destruct r.
    + intros Hnd. unfold Project.users. rewrite Hcoll.
      now apply NoDup_users_app.
    + reflexivity.
Qed.

Lemma postCollaborator_adds_witness :
  (user_isActive (userOf bob free) = true
   /\ projects teamStore !! Project._id viewerProject = Some viewerProject
   /\ isMember (userOf bob free) viewerProject
   /\ Project.hasAccess viewerProject bob Project.editor = false
   /\ anyEmail "dave@example.com" = true
   /\ directory !! sameEmail "dave@example.com" = Some (userOf dave free))
  /\ status (Routes.postCollaborator anyEmail sameEmail 2000%Z teamStore directory
               (Some (userOf bob free)) (Project._id viewerProject)
               "dave@example.com" (Some Project.admin)).1 = 200
  /\ exists P' : Project.t,
       projects (Routes.postCollaborator anyEmail sameEmail 2000%Z teamStore
                   directory (Some (userOf bob free)) (Project._id viewerProject)
                   "dave@example.com" (Some Project.admin)).2
         !! Project._id viewerProject = Some P'
       /\ Project.hasAccess P' dave Project.admin = true.
Proof.
  assert (Hmember : isMember (userOf bob free) viewerProject)
    by (right; now left).
  split; [repeat split; exact Hmember|].
  pose proof (postCollaborator_adds anyEmail sameEmail 2000%Z teamStore directory
                (userOf bob free) (userOf dave free) (Project._id viewerProject)
                viewerProject "dave@example.com" Project.admin
                eq_refl eq_refl Hmember eq_refl eq_refl) as H.
  destruct (decide (elem_of (user_id (userOf dave free))
                            (Project.users viewerProject))) as [Hin|_].
  - exfalso. rewrite list_elem_of_In in Hin. simpl in Hin.
    destruct Hin as [Hin|[]]. discriminate Hin.
  - destruct H as (Hstatus & P' & Hstore & _ & _ & Haccess & _).
    split; [exact Hstatus|]. exists P'. split; [exact Hstore|exact Haccess].
Defined.

Lemma find_by_id_sameUser (userId : string) (l : list Project.Collaborator) :
  find (fun collab => String.eqb (toString (Project.user collab)) userId) l
  = find (Project.sameUser userId) l.
Proof. reflexivity. Qed.

(** X13. Whoever owns a project or is listed on it can set the role of any
    listed user, their own included: the answer is 200, the stored project
    lists the same users in the same order, the user now holds the role asked
    for and [hasAccess] grants it; so a viewer can make themselves admin. For
    a user who is not listed the answer is 404 and nothing changes. *)
Theorem putCollaborator_sets_role (now : Date) (st : Store) (user : User)
    (id : ObjectId) (P : Project.t) (userId : string) (r : Project.Role) :
  user_isActive user = true ->
  projects st !! id = Some P ->
  isMember user P ->
  if decide (elem_of userId (Project.users P))
  then status (Routes.putCollaborator now st (Some user) id userId r).1 = 200
       /\ exists P' : Project.t,
            projects (Routes.putCollaborator now st (Some user) id userId r).2
              !! id = Some P'
            /\ Project.users P' = Project.users P
            /\ listedAs userId r P' = true
            /\ Project.hasAccess P' userId r = true
            /\ Project.owner P' = Project.owner P
  else status (Routes.putCollaborator now st (Some user) id userId r).1 = 404
       /\ (Routes.putCollaborator now st (Some user) id userId r).2 = st.
Proof.
  intros Hactive Hres Hmember.
  unfold Routes.putCollaborator, Auth.authenticateToken.
  rewrite Hactive. cbn [negb].
  rewrite (gate_member PUT user (projects st) id P Hres Hmember).
  change (Project.collaborators (Routes.hydrate P)) with (Project.collaborators P).
  rewrite find_by_id_sameUser.
  destruct (decide (elem_of userId (Project.users P))) as [Hin|Hnot].
  - rewrite list_elem_of_In in Hin.
    destruct (find (Project.sameUser userId) (Project.collaborators P)) as [c|]
      eqn:Hfind; [|apply find_sameUser_None in Hfind; contradiction].
    cbn [fst snd status]. split; [reflexivity|].
    eexists. split; [apply lookup_insert_eq|].
    assert (Hlisted :
      find (Project.sameUser userId)
           (assignFirst (Project.sameUser userId) (Project.setRole r)
                        (Project.collaborators P))
      = Some (Project.setRole r c)) by now apply find_assignFirst.
    match goal with |- Project.users ?s = _ /\ _ => set (saved := s) end.
    assert (Hsaved :
      Project.collaborators saved
      = assignFirst (Project.sameUser userId) (Project.setRole r)
                    (Project.collaborators P)).
    { unfold saved. now rewrite Project_save_collaborators. }
    assert (Hrole : listedAs userId r saved = true).
    { unfold listedAs. rewrite Hsaved, Hlisted. cbn. now destruct r. }
    split; [|split; [|split]].
    + unfold Project.users. rewrite Hsaved. apply assignFirst_users.
    + exact Hrole.
    + now apply hasAccess_listed.
    + unfold saved. now rewrite Project_save_owner.
  - rewrite list_elem_of_In in Hnot. apply find_sameUser_None in Hnot.
    rewrite Hnot. split; reflexivity.
Qed.

Lemma putCollaborator_sets_role_witness :
  (user_isActive (userOf bob free) = true
   /\ projects teamStore !! Project._id viewerProject = Some viewerProject
   /\ isMember (userOf bob free) viewerProject
   /\ Project.hasAccess viewerProject bob Project.admin = false)
  /\ status (Routes.putCollaborator 2000%Z teamStore (Some (userOf bob free))
               (Project._id viewerProject) bob Project.admin).1 = 200
  /\ exists P' : Project.t,
       projects (Routes.putCollaborator 2000%Z teamStore (Some (userOf bob free))
                   (Project._id viewerProject) bob Project.admin).2
         !! Project._id viewerProject = Some P'
       /\ Project.hasAccess P' bob Project.admin = true.
Proof.
  assert (Hmember : isMember (userOf bob free) viewerProject)
    by (right; now left).
  split; [repeat split; exact Hmember|].
  pose proof (putCollaborator_sets_role 2000%Z teamStore (userOf bob free)
                (Project._id viewerProject) viewerProject bob Project.admin
                eq_refl eq_refl Hmember) as H.
  destruct (decide (elem_of bob (Project.users viewerProject))) as [_|Hnot].
  - destruct H as (Hstatus & P' & Hstore & _ & _ & Haccess & _).
    split; [exact Hstatus|]. exists P'. split; [exact Hstore|exact Haccess].
  - exfalso. apply Hnot. rewrite list_elem_of_In. now left.
Defined.

Lemma filter_removed_users (userId : ObjectId) (l : list Project.Collaborator) :
  ~ In userId
      (map Project.user
           (List.filter (fun c => negb (Project.sameUser userId c)) l)).
Proof.
  intros Hin. apply in_map_iff in Hin as (c & Huser & Hc).
  apply List.filter_In in Hc as [_ Hne].
  apply sameUser_true in Huser. now rewrite Huser in Hne.
Qed.

(** X14. Nobody can remove themselves from a project: the answer is 400 and
    nothing changes, for the owner as for a collaborator. Whoever owns the
    project or is listed on it, with whatever role, can remove any other
    user: the answer is 200 whether that user was listed or not, afterwards
    the user is not listed, every other entry is kept in order, and unless
    the user owns the project [hasAccess] grants them nothing. *)
Theorem deleteCollaborator_removes (now : Date) (st : Store) (user : User)
    (id : ObjectId) (P : Project.t) (userId : string) :
  user_isActive user = true ->
  projects st !! id = Some P ->
  isMember user P ->
  if decide (userId = user_id user)
  then status (Routes.deleteCollaborator now st (Some user) id userId).1 = 400
       /\ (Routes.deleteCollaborator now st (Some user) id userId).2 = st
  else status (Routes.deleteCollaborator now st (Some user) id userId).1 = 200
       /\ exists P' : Project.t,
            projects (Routes.deleteCollaborator now st (Some user) id userId).2
              !! id = Some P'
            /\ Project.collaborators P'
               = List.filter (fun c => negb (Project.sameUser userId c))
                             (Project.collaborators P)
            /\ ~ In userId (Project.users P')
            /\ (~ In userId (Project.users P) ->
                Project.collaborators P' = Project.collaborators P)
            /\ Project.owner P' = Project.owner P
            /\ (Project.owner P <> userId ->
                forall r : Project.Role, Project.hasAccess P' userId r = false).
Proof.
  intros Hactive Hres Hmember.
  unfold Routes.deleteCollaborator, Auth.authenticateToken, toString.
  rewrite Hactive. cbn [negb].
  rewrite (gate_member DELETE user (projects st) id P Hres Hmember).
  destruct (decide (userId = user_id user)) as [->|Hne].
  - rewrite String.eqb_refl. split; reflexivity.
  - destruct (String.eqb_spec userId (user_id user)) as [Heq|_]; [contradiction|].
    cbn [fst snd status]. split; [reflexivity|].
    eexists. split; [apply lookup_insert_eq|].
    assert (Hcoll :
      Project.collaborators (Project.removeCollaborator now (Routes.hydrate P) userId)
      = List.filter (fun c => negb (Project.sameUser userId c))
                    (Project.collaborators P))
      by apply (removeCollaborator_collaborators now (Routes.hydrate P) userId).
    split; [exact Hcoll|]. split; [|split; [|split]].
    + unfold Project.users. rewrite Hcoll. apply filter_removed_users.
    + intros Hnot. rewrite Hcoll. unfold Project.users in Hnot.
      clear -Hnot. induction (Project.collaborators P) as [|c l IH]; simpl;
        [reflexivity|].
      destruct (Project.sameUser userId c) eqn:Hc; simpl.
      * exfalso. apply Hnot. left. now apply sameUser_true.
      * f_equal. apply IH. intros Hin. apply Hnot. now right.
    + unfold Project.removeCollaborator. now rewrite Project_save_owner.
    + intros Howner r. unfold Project.hasAccess, toString.
      unfold Project.removeCollaborator at 1. rewrite Project_save_owner.
      cbn [Project.owner Project.with_collaborators Routes.hydrate].
      destruct (String.eqb_spec (Project.owner P) userId) as [Heq|_];
        [contradiction|].
      rewrite Hcoll, find_removed. reflexivity.
Qed.

Lemma deleteCollaborator_removes_witness :
  (user_isActive (userOf bob free) = true
   /\ projects teamStore !! Project._id teamProject = Some teamProject
   /\ isMember (userOf bob free) teamProject
   /\ Project.hasAccess teamProject bob Project.editor = false
   /\ Project.hasAccess teamProject carol Project.admin = true)
  /\ status (Routes.deleteCollaborator 2000%Z teamStore (Some (userOf bob free))
               (Project._id teamProject) carol).1 = 200
  /\ exists P' : Project.t,
       projects (Routes.deleteCollaborator 2000%Z teamStore
                   (Some (userOf bob free)) (Project._id teamProject) carol).2
         !! Project._id teamProject = Some P'
       /\ Project.users P' = [bob].
Proof.
  assert (Hmember : isMember (userOf bob free) teamProject)
    by (right; now left).
  split; [repeat split; exact Hmember|].
  pose proof (deleteCollaborator_removes 2000%Z teamStore (userOf bob free)
                (Project._id teamProject) teamProject carol
                eq_refl eq_refl Hmember) as H.
  destruct (decide (carol = user_id (userOf bob free))) as [Heq|_];
    [discriminate Heq|].
  destruct H as (Hstatus & P' & Hstore & Hcoll & _).
  split; [exact Hstatus|]. exists P'. split; [exact Hstore|].
  unfold Project.users. now rewrite Hcoll.
Defined.

(** ** Paging and order of the template list *)

Lemma length_insertSorted {A : Type} (le : A -> A -> bool) (v : A) (l : list A) :
  length (Routes.insertSorted le v l) = S (length l).
Proof.
  induction l as [|h rest IH]; simpl; [reflexivity|].
  destruct (le v h); simpl; [reflexivity|now rewrite IH].
Qed.

Lemma length_sortDocs {A : Type} (le : A -> A -> bool) (l : list A) :
  length (Routes.sortDocs le l) = length l.
Proof.
  induction l as [|h rest IH]; simpl; [reflexivity|].
  now rewrite length_insertSorted, IH.
Qed.

Lemma ceil_div_gt (total limit page : nat) :
  0 < limit ->
  page < Nat.div (total + limit - 1) limit <-> page * limit < total.
Proof.
  intros Hlimit. split.
  - intros Hlt.
    destruct (Nat.lt_ge_cases (page * limit) total) as [H|H]; [exact H|].
    exfalso.
    assert (Nat.div (total + limit - 1) limit < S page); [|lia].
    apply Nat.Div0.div_lt_upper_bound. nia.
  - intros Hlt.
    assert (S page <= Nat.div (total + limit - 1) limit); [|lia].
    apply Nat.div_le_lower_bound; [lia|]. nia.
Qed.

Lemma ceil_div_bounds (total limit : nat) :
  0 < limit ->
  total <= Nat.div (total + limit - 1) limit * limit
  /\ (0 < total -> (Nat.div (total + limit - 1) limit - 1) * limit < total).
Proof.
  intros Hlimit. set (pages := Nat.div (total + limit - 1) limit).
  split.
  - destruct (Nat.le_gt_cases total (pages * limit)) as [H|H]; [exact H|].
    apply (ceil_div_gt total limit pages Hlimit) in H. unfold pages in H. lia.
  - intros Hpos. destruct pages as [|k] eqn:Hpages.
    + simpl. exact Hpos.
    + simpl. rewrite Nat.sub_0_r.
      apply (ceil_div_gt total limit k Hlimit). fold pages. lia.
Qed.

Lemma validTemplateParams_paging (q : Routes.TemplateParams) :
  Routes.validTemplateParams q = true ->
  1 <= match Routes.page q with Some 0 | None => 1 | Some n => n end
  /\ 1 <= match Routes.limit q with Some 0 | None => 20 | Some n => n end <= 100.
Proof.
  unfold Routes.validTemplateParams. rewrite !andb_true_iff.
  intros [[[[[[[[Hpage Hlimit] _] _] _] _] _] _] _].
  destruct (Routes.page q) as [[|n]|], (Routes.limit q) as [[|m]|];
    cbn [Routes.whenSet] in *; try discriminate;
    repeat match goal with
           | H : (_ && _) = true |- _ => apply andb_true_iff in H as [? ?]
           end;
    repeat match goal with
           | H : (_ <=? _)%nat = true |- _ => apply Nat.leb_le in H
           end;
    lia.
Qed.

(** X15. A valid list query on the templates is answered with consistent
    paging: the page number is at least 1 and the page size between 1 and
    100; the page holds the size asked for, or what is left of the matches
    after the pages before it; [totalPages] is the number of matches divided
    by the page size, rounded up; [hasNextPage] says exactly that matches are
    left after this page and [hasPrevPage] that the page is not the first;
    a page past the last one is empty. *)
Theorem getTemplates_paging (textScore : string -> Template.t -> option Z)
    (regexMatch : string -> string -> bool) (st : Store)
    (identity : option User) (q : Routes.TemplateParams) :
  Routes.validTemplateParams q = true ->
  exists pg : Routes.TemplatesPage,
    data (Routes.getTemplates textScore regexMatch st identity q) = Some pg
    /\ 1 <= Routes.currentPage (Routes.pagination pg)
    /\ 1 <= Routes.itemsPerPage (Routes.pagination pg) <= 100
    /\ length (Routes.page_templates pg)
       = Nat.min (Routes.itemsPerPage (Routes.pagination pg))
           (Routes.totalItems (Routes.pagination pg)
            - (Routes.currentPage (Routes.pagination pg) - 1)
              * Routes.itemsPerPage (Routes.pagination pg))
    /\ Routes.totalItems (Routes.pagination pg)
       <= Routes.totalPages (Routes.pagination pg)
          * Routes.itemsPerPage (Routes.pagination pg)
    /\ (0 < Routes.totalItems (Routes.pagination pg) ->
        (Routes.totalPages (Routes.pagination pg) - 1)
        * Routes.itemsPerPage (Routes.pagination pg)
        < Routes.totalItems (Routes.pagination pg))
    /\ (Routes.hasNextPage (Routes.pagination pg) = true <->
        Routes.currentPage (Routes.pagination pg)
        * Routes.itemsPerPage (Routes.pagination pg)
        < Routes.totalItems (Routes.pagination pg))
    /\ (Routes.hasPrevPage (Routes.pagination pg) = true <->
        1 < Routes.currentPage (Routes.pagination pg))
    /\ (Routes.totalPages (Routes.pagination pg)
        < Routes.currentPage (Routes.pagination pg) ->
        Routes.page_templates pg = []).
Proof.
  intros Hvalid.
  destruct (validTemplateParams_paging q Hvalid) as [Hpage [Hlimit1 Hlimit2]].
  unfold Routes.getTemplates. rewrite Hvalid. cbn [negb data].
  set (page := match Routes.page q with Some 0 | None => 1 | Some n => n end) in *.
  set (limit := match Routes.limit q with Some 0 | None => 20 | Some n => n end) in *.
  set (found := Routes.findTemplates textScore regexMatch st _).
  set (sorted := Routes.sortDocs _ found).
  assert (Hsorted : length sorted = length found) by apply length_sortDocs.
  eexists. split; [reflexivity|].
  cbn [Routes.pagination Routes.page_templates Routes.currentPage
       Routes.itemsPerPage Routes.totalItems Routes.totalPages
       Routes.hasNextPage Routes.hasPrevPage].
  destruct (ceil_div_bounds (length found) limit) as [Hup Hlow]; [lia|].
  split; [exact Hpage|]. split; [lia|]. split; [|split; [exact Hup|]].
  - rewrite length_take, length_drop, Hsorted. reflexivity.
  - split; [exact Hlow|]. split; [|split].
    + rewrite Nat.ltb_lt. apply ceil_div_gt. lia.
    + apply Nat.ltb_lt.
    + intros Hpast. apply nil_length_inv.
      rewrite length_take, length_drop, Hsorted. nia.
Qed.

Lemma getTemplates_paging_witness :
  Routes.validTemplateParams noParams = true
  /\ exists pg : Routes.TemplatesPage,
       data (Routes.getTemplates noIndex exactMatch catalogue
               (Some (userOf bob enterprise)) noParams) = Some pg
       /\ length (Routes.page_templates pg) = 3
       /\ Routes.totalPages (Routes.pagination pg) = 1
       /\ Routes.hasNextPage (Routes.pagination pg) = false.
Proof.
  split; [reflexivity|].
  destruct (getTemplates_paging noIndex exactMatch catalogue
              (Some (userOf bob enterprise)) noParams eq_refl)
    as (pg & Hdata & _).
  exists pg. split; [exact Hdata|].
  vm_compute in Hdata. injection Hdata as <-. repeat split.
Defined.

Lemma HdRel_insertSorted {A : Type} (le : A -> A -> bool) (v h : A) (l : list A) :
  le h v = true ->
  HdRel (fun a b => le a b = true) h l ->
  HdRel (fun a b => le a b = true) h (Routes.insertSorted le v l).
Proof.
  intros Hhv Hhd. destruct l as [|x rest]; simpl.
  - now constructor.
  - destruct (le v x); constructor; [exact Hhv|].
    now inversion Hhd.
Qed.

Lemma Sorted_insertSorted {A : Type} (le : A -> A -> bool) (v : A) (l : list A) :
  (forall a b, le a b = false -> le b a = true) ->
  Sorted (fun a b => le a b = true) l ->
  Sorted (fun a b => le a b = true) (Routes.insertSorted le v l).
Proof.
  intros Htotal Hsorted. induction Hsorted as [|h rest Hrest IH Hhd]; simpl.
  - repeat constructor.
  - destruct (le v h) eqn:Hvh.
    + constructor; [now constructor|now constructor].
    + constructor; [exact IH|].
      apply HdRel_insertSorted; [now apply Htotal|exact Hhd].
Qed.

Lemma Sorted_sortDocs {A : Type} (le : A -> A -> bool) (l : list A) :
  (forall a b, le a b = false -> le b a = true) ->
  Sorted (fun a b => le a b = true) (Routes.sortDocs le l).
Proof.
  intros Htotal. induction l as [|h rest IH]; simpl; [constructor|].
  now apply Sorted_insertSorted.
Qed.

Lemma Sorted_drop {A : Type} (R : A -> A -> Prop) (k : nat) (l : list A) :
  Sorted R l -> Sorted R (drop k l).
Proof.
  revert l. induction k as [|k IH]; intros l Hsorted; [now rewrite drop_0|].
  destruct l as [|h rest]; [constructor|]. simpl. apply IH.
  now inversion Hsorted.
Qed.

Lemma Sorted_take {A : Type} (R : A -> A -> Prop) (n : nat) (l : list A) :
  Sorted R l -> Sorted R (take n l).
Proof.
  revert l. induction n as [|n IH]; intros l Hsorted; [constructor|].
  destruct l as [|h rest]; [constructor|]. simpl.
  inversion Hsorted as [|? ? Hrest Hhd]; subst. constructor; [now apply IH|].
  destruct rest as [|x rest'], n as [|n']; simpl; constructor.
  now inversion Hhd.
Qed.

Lemma Sorted_weaken {A : Type} (R R' : A -> A -> Prop) (l : list A) :
  (forall a b, R a b -> R' a b) -> Sorted R l -> Sorted R' l.
Proof.
  intros Himpl. induction 1 as [|h rest Hrest IH Hhd]; constructor; [exact IH|].
  destruct Hhd; constructor. now apply Himpl.
Qed.

Lemma sortLe_default (textScore : string -> Template.t -> option Z)
    (a b : Template.t) :
  Routes.sortLe textScore None "popularity" true a b = true ->
  (Template.popularity b <= Template.popularity a)%Z.
Proof.
  unfold Routes.sortLe, Routes.compareField. simpl.
  destruct (Z.compare_spec (Template.popularity b) (Template.popularity a));
    [lia|lia|discriminate].
Qed.

Lemma compareField_antisym (sortBy : string) (a b : Template.t) :
  Routes.compareField sortBy b a = CompOpp (Routes.compareField sortBy a b).
Proof.
  unfold Routes.compareField.
  destruct (String.eqb sortBy "name"); [apply String.compare_antisym|].
  destruct (String.eqb sortBy "popularity"); [apply Z.compare_antisym|].
  destruct (String.eqb sortBy "usageCount"); [apply Z.compare_antisym|].
  destruct (String.eqb sortBy "createdAt"); [apply Z.compare_antisym|].
  reflexivity.
Qed.

Lemma sortLe_total (textScore : string -> Template.t -> option Z)
    (searching : option string) (sortBy : string) (desc : bool) (a b : Template.t) :
  Routes.sortLe textScore searching sortBy desc a b = false ->
  Routes.sortLe textScore searching sortBy desc b a = true.
Proof.
  unfold Routes.sortLe.
  assert (Hfield : (if desc then Routes.compareField sortBy a b
                    else Routes.compareField sortBy b a)
                   = CompOpp (if desc then Routes.compareField sortBy b a
                              else Routes.compareField sortBy a b)).
  { destruct desc; apply compareField_antisym. }
  rewrite Hfield.
  destruct searching as [s|].
  - rewrite (Z.compare_antisym (default 0%Z (textScore s b))
                               (default 0%Z (textScore s a))).
    destruct (default 0%Z (textScore s b) ?= default 0%Z (textScore s a))%Z;
      simpl; try discriminate; try reflexivity.
    destruct (if desc then Routes.compareField sortBy b a
              else Routes.compareField sortBy a b); simpl;
      try discriminate; reflexivity.
  - destruct (if desc then Routes.compareField sortBy b a
              else Routes.compareField sortBy a b); simpl;
      try discriminate; reflexivity.
Qed.

(** X16. The templates of a page come in the order asked for: each one is
    followed by one that the sort (text score first when searching, then the
    sort path in the sort direction) puts after it or level with it. With no
    search and no sort parameter, every template of the page is at least as
    popular as all those after it. *)
Theorem getTemplates_sorted (textScore : string -> Template.t -> option Z)
    (regexMatch : string -> string -> bool) (st : Store)
    (identity : option User) (q : Routes.TemplateParams) :
  Routes.validTemplateParams q = true ->
  exists pg : Routes.TemplatesPage,
    data (Routes.getTemplates textScore regexMatch st identity q) = Some pg
    /\ Sorted (fun a b =>
                 Routes.sortLe textScore (Routes.truthy (Routes.search q))
                   (default "popularity" (Routes.sortBy q))
                   (String.eqb (default "desc" (Routes.sortOrder q)) "desc")
                   a b = true)
              (Routes.page_templates pg)
    /\ (Routes.truthy (Routes.search q) = None ->
        Routes.sortBy q = None ->
        Routes.sortOrder q = None ->
        StronglySorted (fun a b => (Template.popularity b <= Template.popularity a)%Z)
                       (Routes.page_templates pg)).
Proof.
  intros Hvalid. unfold Routes.getTemplates. rewrite Hvalid. cbn [negb data].
  eexists. split; [reflexivity|]. cbn [Routes.page_templates].
  assert (Hsorted :
    Sorted (fun a b =>
              Routes.sortLe textScore (Routes.truthy (Routes.search q))
                (default "popularity" (Routes.sortBy q))
                (String.eqb (default "desc" (Routes.sortOrder q)) "desc")
                a b = true)
      (take (match Routes.limit q with Some 0 | None => 20 | Some n => n end)
         (drop ((match Routes.page q with Some 0 | None => 1 | Some n => n end - 1)
                * match Routes.limit q with Some 0 | None => 20 | Some n => n end)
            (Routes.sortDocs
               (Routes.sortLe textScore (Routes.truthy (Routes.search q))
                  (default "popularity" (Routes.sortBy q))
                  (String.eqb (default "desc" (Routes.sortOrder q)) "desc"))
               (Routes.findTemplates textScore regexMatch st
                  (Routes.buildQuery (Auth.optionalAuth identity) q)))))).
  { apply Sorted_take, Sorted_drop, Sorted_sortDocs. apply sortLe_total. }
  split; [exact Hsorted|].
  intros Hsearch HsortBy HsortOrder.
  apply Sorted_StronglySorted.
  - intros a b c Hab Hbc. lia.
  - refine (Sorted_weaken _ _ _ _ Hsorted).
    rewrite Hsearch, HsortBy, HsortOrder. apply sortLe_default.
Qed.

Lemma getTemplates_sorted_witness :
  Routes.validTemplateParams noParams = true
  /\ exists pg : Routes.TemplatesPage,
       data (Routes.getTemplates noIndex exactMatch catalogue
               (Some (userOf bob enterprise)) noParams) = Some pg
       /\ map Template.popularity (Routes.page_templates pg) = [9; 7; 5]%Z
       /\ StronglySorted
            (fun a b => (Template.popularity b <= Template.popularity a)%Z)
            (Routes.page_templates pg).
Proof.
  split; [reflexivity|].
  destruct (getTemplates_sorted noIndex exactMatch catalogue
              (Some (userOf bob enterprise)) noParams eq_refl)
    as (pg & Hdata & _ & Hstrong).
  exists pg. split; [exact Hdata|]. split.
  - vm_compute in Hdata. injection Hdata as <-. reflexivity.
  - now apply Hstrong.
Defined.

(** ** Reading one template *)

Lemma canAccess_visible (user : User) (t : Template.t) :
  Template.canAccess t (user_plan user) = tierVisible (Some user) t.
Proof.
  unfold Template.canAccess, tierVisible, visibleTiers, tierOf.
  destruct (user_plan user), (Template.subscription (Template.requirements t));
    reflexivity.
Qed.

Lemma getTemplateAccess_next (st : Store) (identity : option User) (id : ObjectId)
    (t : Template.t) :
  Routes.getTemplateAccess st identity id = next t <->
  templates st !! id = Some t
  /\ Template.isActive t = true
  /\ tierVisible (Auth.optionalAuth identity) t = true.
Proof.
  unfold Routes.getTemplateAccess.
  destruct (templates st !! id) as [template|]; [|split; [discriminate|]];
    [|intros [H _]; discriminate H].
  destruct (Template.isActive template) eqn:Hactive; cbn [negb].
  - destruct (Auth.optionalAuth identity) as [user|].
    + rewrite canAccess_visible.
      destruct (tierVisible (Some user) template) eqn:Hvis; cbn [negb].
      * split; [intros [= <-]; now repeat split|]. now intros ([= <-] & _).
      * split; [discriminate|]. intros ([= <-] & _ & Hv). congruence.
    + assert (Hvis : tierVisible None template
                     = Plan_eqb (Template.subscription
                                   (Template.requirements template)) free).
      { unfold tierVisible, visibleTiers, tierOf. simpl. apply orb_false_r. }
      rewrite <- Hvis.
      destruct (tierVisible None template) eqn:Hv; cbn [negb].
      * split; [intros [= <-]; now repeat split|]. now intros ([= <-] & _).
      * split; [discriminate|]. intros ([= <-] & _ & Hv'). congruence.
  - split; [discriminate|]. intros ([= <-] & Ha & _). congruence.
Qed.

Lemma matchesQuery_noParams (textScore : string -> Template.t -> option Z)
    (regexMatch : string -> string -> bool) (req_user : option User)
    (t : Template.t) :
  Routes.matchesQuery textScore regexMatch (Routes.buildQuery req_user noParams) t
  = Template.isActive t && tierVisible req_user t.
Proof.
  rewrite matchesQuery_tier. unfold Routes.matchesQuery, anyTier. simpl.
  rewrite !andb_true_r.
  destruct (Template.isActive t), (tierVisible req_user t); reflexivity.
Qed.

(** X17. The list and the detail route agree on what a requester may see:
    the templates the list matches when no filter is given are exactly the
    stored templates the detail route shows to the same requester. A
    template that is not active is answered with 404 as if it did not
    exist, and one of a tier out of reach with 403. *)
Theorem list_and_detail_agree (textScore : string -> Template.t -> option Z)
    (regexMatch : string -> string -> bool) (st : Store)
    (identity : option User) (t : Template.t) :
  (In t (Routes.findTemplates textScore regexMatch st
           (Routes.buildQuery (Auth.optionalAuth identity) noParams)) <->
   exists id : ObjectId, Routes.getTemplateAccess st identity id = next t)
  /\ (forall id : ObjectId,
        templates st !! id = Some t ->
        Template.isActive t = false ->
        Routes.getTemplateAccess st identity id = respond 404 "Template not found")
  /\ (forall id : ObjectId,
        templates st !! id = Some t ->
        Template.isActive t = true ->
        tierVisible (Auth.optionalAuth identity) t = false ->
        exists msg : string,
          Routes.getTemplateAccess st identity id = respond 403 msg).
Proof.
  split; [|split].
  - unfold Routes.findTemplates. rewrite List.filter_In, matchesQuery_noParams.
    rewrite andb_true_iff. split.
    + intros (Hin & Hactive & Hvis).
      apply in_map_iff in Hin as ([id t'] & Heq & Hin). simpl in Heq. subst t'.
      apply list_elem_of_In, elem_of_map_to_list in Hin.
      exists id. now apply getTemplateAccess_next.
    + intros (id & Hnext). apply getTemplateAccess_next in Hnext
        as (Hlookup & Hactive & Hvis).
      split; [|now split]. apply in_map_iff. exists (id, t). split; [reflexivity|].
      now apply list_elem_of_In, elem_of_map_to_list.
  - intros id Hlookup Hinactive. unfold Routes.getTemplateAccess.
    now rewrite Hlookup, Hinactive.
  - intros id Hlookup Hactive Hhidden. unfold Routes.getTemplateAccess.
    rewrite Hlookup, Hactive. cbn [negb].
    destruct (Auth.optionalAuth identity) as [user|].
    + rewrite canAccess_visible, Hhidden. eauto.
    + assert (Hfree : Plan_eqb (Template.subscription (Template.requirements t)) free
                      = false).
      { unfold tierVisible, visibleTiers, tierOf in Hhidden. simpl in Hhidden.
        now rewrite orb_false_r in Hhidden. }
      rewrite Hfree. eauto.
Qed.

(** ** Subscriptions *)

(** X18. An upgrade only ever raises the plan. For an authenticated user
    with an account, a paid target plan and a payment method, the request is
    refused with 400 and changes nothing when the user's plan already ranks
    as high as the target; otherwise it succeeds, the account holds the
    target plan, active for thirty days from now, and no other account
    changes. Asking for the same upgrade again is refused, and a cancellation
    brings the account back to the free plan, which cannot be cancelled
    again. *)
Theorem upgrade_raises_plan (now : Date) (accounts : gmap ObjectId Subscription.t)
    (user : User) (sub : Subscription.t) (planId : Plan) (paymentMethodId : string) :
  user_isActive user = true ->
  accounts !! user_id user = Some sub ->
  planId <> free ->
  paymentMethodId <> "" ->
  if (Subscription.planHierarchy (Subscription.plan sub)
      >=? Subscription.planHierarchy planId)%Z
  then status (Subscription.upgrade now accounts (Some user) planId
                 paymentMethodId).1 = 400
       /\ (Subscription.upgrade now accounts (Some user) planId paymentMethodId).2
          = accounts
  else status (Subscription.upgrade now accounts (Some user) planId
                 paymentMethodId).1 = 200
       /\ exists sub' : Subscription.t,
            (Subscription.upgrade now accounts (Some user) planId paymentMethodId).2
            = <[user_id user := sub']> accounts
            /\ Subscription.plan sub' = planId
            /\ (Subscription.planHierarchy (Subscription.plan sub)
                < Subscription.planHierarchy (Subscription.plan sub'))%Z
            /\ Subscription.status sub' = "active"
            /\ Subscription.currentPeriodEnd sub' = Some (now + 2592000000)%Z
            /\ Subscription.stripeCustomerId sub' = Subscription.stripeCustomerId sub
            /\ (forall now' : Date,
                  status (Subscription.upgrade now'
                            (<[user_id user := sub']> accounts) (Some user) planId
                            paymentMethodId).1 = 400)
            /\ (exists sub'' : Subscription.t,
                  (Subscription.cancel (<[user_id user := sub']> accounts)
                     (Some user)).2
                  = <[user_id user := sub'']> accounts
                  /\ Subscription.plan sub'' = free
                  /\ Subscription.status sub'' = "cancelled"
                  /\ Subscription.currentPeriodEnd sub''
                     = Subscription.currentPeriodEnd sub'
                  /\ status (Subscription.cancel
                               (<[user_id user := sub'']> accounts)
                               (Some user)).1 = 400).
Proof.
  intros Hactive Hacc Hpaid Hpay.
  assert (Hvalid : negb (existsb (Plan_eqb planId) [pro; enterprise])
                   || String.eqb paymentMethodId "" = false).
  { destruct (String.eqb_spec paymentMethodId "") as [Heq|_]; [contradiction|].
    destruct planId; [contradiction|reflexivity|reflexivity]. }
  unfold Subscription.upgrade at 1 2 3 4, Auth.authenticateToken.
  rewrite Hactive. cbn [negb]. rewrite Hvalid, Hacc.
  destruct (Subscription.planHierarchy (Subscription.plan sub)
            >=? Subscription.planHierarchy planId)%Z eqn:Hrank.
  - split; reflexivity.
  - cbn [fst snd status]. split; [reflexivity|].
    eexists. split; [reflexivity|]. split; [reflexivity|].
    split; [|split; [reflexivity|split; [reflexivity|split; [reflexivity|split]]]].
    + cbn [Subscription.plan].
      destruct (Z.geb_spec (Subscription.planHierarchy (Subscription.plan sub))
                           (Subscription.planHierarchy planId));
        [discriminate|lia].
    + intros now'. unfold Subscription.upgrade, Auth.authenticateToken.
      rewrite Hactive. cbn [negb]. rewrite Hvalid, lookup_insert_eq.
      cbn [Subscription.plan].
      replace (Subscription.planHierarchy planId
               >=? Subscription.planHierarchy planId)%Z with true
        by (symmetry; apply Zgeb_ge; lia).
      reflexivity.
    + unfold Subscription.cancel, Auth.authenticateToken.
      rewrite Hactive. cbn [negb]. rewrite lookup_insert_eq.
      cbn [Subscription.plan].
      replace (Plan_eqb planId free) with false
        by (destruct planId; [contradiction|reflexivity|reflexivity]).
      eexists. cbn [snd]. split; [apply insert_insert_eq|].
      split; [reflexivity|]. split; [reflexivity|]. split; [reflexivity|].
      rewrite lookup_insert_eq. reflexivity.
Qed.

Lemma upgrade_raises_plan_witness :
  (user_isActive (userOf bob free) = true
   /\ accountsSample !! user_id (userOf bob free) = Some freeAccount
   /\ pro <> free
   /\ "pm_1" <> "")
  /\ status (Subscription.upgrade 5000%Z accountsSample (Some (userOf bob free))
               pro "pm_1").1 = 200
  /\ exists sub' : Subscription.t,
       (Subscription.upgrade 5000%Z accountsSample (Some (userOf bob free))
          pro "pm_1").2 !! bob = Some sub'
       /\ Subscription.plan sub' = pro.
Proof.
  assert (Hpaid : pro <> free) by discriminate.
  assert (Hpay : "pm_1" <> "") by discriminate.
  split; [repeat split; assumption|].
  pose proof (upgrade_raises_plan 5000%Z accountsSample (userOf bob free)
                freeAccount pro "pm_1" eq_refl eq_refl Hpaid Hpay) as H.
  change (Subscription.planHierarchy (Subscription.plan freeAccount)
          >=? Subscription.planHierarchy pro)%Z with false in H.
  destruct H as (Hstatus & sub' & Hstore & Hplan & _).
  split; [exact Hstatus|]. exists sub'. split; [|exact Hplan].
  rewrite Hstore. apply lookup_insert_eq.
Defined.

(** ** Creating, updating and deleting a design *)

Lemma length_rev_app (s1 s2 : string) :
  String.length (String.rev_app s1 s2) = String.length s1 + String.length s2.
Proof.
  revert s2. induction s1 as [|c s1 IH]; intros s2; simpl; [reflexivity|].
  rewrite IH. simpl. lia.
Qed.

Lemma length_trimStart (s : string) :
  String.length (trimStart s) <= String.length s.
Proof.
  induction s as [|c s IH]; simpl; [lia|].
  destruct (isWhitespace c); simpl; lia.
Qed.

Lemma length_trim (s : string) : String.length (trim s) <= String.length s.
Proof.
  unfold trim, String.rev. rewrite length_rev_app. simpl.
  etransitivity; [rewrite Nat.add_0_r; apply length_trimStart|].
  rewrite length_rev_app. simpl. rewrite Nat.add_0_r. apply length_trimStart.
Qed.

Lemma trim_trim_valid (name : string) :
  1 <= String.length (trim name) ->
  String.length (trim name) <= 100 ->
  Design.validateMaxlength (trim (trim name)) = Ok tt /\ trim (trim name) <> "".
Proof.
  intros Hmin Hmax. split.
  - unfold Design.validateMaxlength.
    pose proof (length_trim (trim name)) as Hlen.
    destruct (Nat.leb_spec (String.length (trim (trim name))) 100);
      [reflexivity|lia].
  - apply ink_nonempty. rewrite inkCount_trim. rewrite inkCount_trim.
    apply trim_ink. intros Hempty. rewrite Hempty in Hmin. simpl in Hmin. lia.
Qed.

Lemma mayWrite_viewer (P : Project.t) (user : User) (c : Project.Collaborator) :
  Project.owner P <> user_id user ->
  List.NoDup (Project.users P) ->
  find (Project.sameUser (user_id user)) (Project.collaborators P) = Some c ->
  Project.role c = Project.viewer ->
  Routes.mayWrite P user = false.
Proof.
  intros Howner Hnd Hfind Hrole.
  destruct (mayWrite_iff_editor_rank P user c Howner Hnd Hfind) as [_ Hiff].
  destruct (Routes.mayWrite P user); [|reflexivity].
  rewrite Hrole in Hiff. simpl in Hiff. destruct Hiff as [Hfalse _].
  specialize (Hfalse eq_refl). lia.
Qed.

(** X19. A collaborator who is only a viewer can create a design in the
    project but cannot touch it afterwards: the creation of a design with
    no design data is answered with 201 and stores the design under the
    project with consistent metadata,
    and on the store that results every update and the deletion of that
    design by the same user are refused with 403 and change nothing. *)
Theorem viewer_creates_but_cannot_change
    (settingsWithDefaults cameraWithDefaults environmentWithDefaults :
       option Mixed -> Mixed)
    (st : Store) (user : User) (pid : ObjectId) (P : Project.t)
    (c : Project.Collaborator) (name : string) (newId : ObjectId) :
  user_isActive user = true ->
  projects st !! pid = Some P ->
  Project.owner P <> user_id user ->
  List.NoDup (Project.users P) ->
  find (Project.sameUser (user_id user)) (Project.collaborators P) = Some c ->
  Project.role c = Project.viewer ->
  Routes.isMongoId pid = true ->
  1 <= String.length (trim name) <= 100 ->
  exists (d : Design.t) (st' : Store),
    Routes.postDesign settingsWithDefaults cameraWithDefaults
      environmentWithDefaults st (Some user) pid name None None newId
    = (mkResponse 201 true "Design created successfully" (Some d), st')
    /\ designs st' !! newId = Some d
    /\ projects st' = projects st
    /\ Design.project d = pid
    /\ Design._id d = newId
    /\ metadataConsistent d
    /\ (forall body : Design.Update,
          status (Routes.putDesign st' (Some user) newId body).1 = 403
          /\ (Routes.putDesign st' (Some user) newId body).2 = st')
    /\ status (Routes.deleteDesign st' (Some user) newId).1 = 403
    /\ (Routes.deleteDesign st' (Some user) newId).2 = st'.
Proof.
  intros Hactive HP Howner Hnd Hfind Hviewer Hid [Hmin Hmax].
  destruct (trim_trim_valid name Hmin Hmax) as [Hlen Hne].
  assert (Hin : existsb (Project.sameUser (user_id user)) (Project.collaborators P)
                = true).
  { apply find_some in Hfind as [Hin Hsame]. apply existsb_exists. eauto. }
  unfold Routes.postDesign, Auth.authenticateToken.
  rewrite Hactive. cbn [negb fmap option_fmap option_map Routes.whenSet].
  rewrite Hid.
  replace (1 <=? String.length (trim name))%nat with true
    by (symmetry; now apply Nat.leb_le).
  replace (String.length (trim name) <=? 100)%nat with true
    by (symmetry; now apply Nat.leb_le).
  cbn [andb negb]. pose proof HP as HP'. unfold ObjectId in HP'.
  unfold ObjectId. rewrite HP', Hin, orb_true_r. cbn [negb].
  set (fresh := Routes.newDesign _ _ _ _ _ _ _ _).
  assert (Hvalid : Design.validate fresh = Ok tt).
  { unfold Design.validate. cbn [Design.name fresh Routes.newDesign].
    destruct (String.eqb_spec (trim (trim name)) "") as [Heq|_]; [contradiction|].
    exact Hlen. }
  rewrite (save_valid fresh Hvalid).
  eexists. eexists. split; [reflexivity|].
  split; [apply lookup_insert_eq|]. split; [reflexivity|].
  split; [reflexivity|]. split; [reflexivity|].
  split; [apply (preSave_consistent fresh)|].
  assert (Hdenied : Routes.mayWrite P user = false)
    by now apply (mayWrite_viewer P user c).
  split; [|split].
  - intros body. unfold Routes.putDesign, Auth.authenticateToken, Routes.findDesign.
    rewrite Hactive. cbn [negb designs projects Routes.with_designs].
    rewrite lookup_insert_eq.
    replace (Design.project (Design.with_isNew false (Design.preSave fresh)))
      with pid by reflexivity.
    rewrite HP, Hdenied. split; reflexivity.
  - unfold Routes.deleteDesign, Auth.authenticateToken, Routes.findDesign.
    rewrite Hactive. cbn [negb designs projects Routes.with_designs].
    rewrite lookup_insert_eq.
    replace (Design.project (Design.with_isNew false (Design.preSave fresh)))
      with pid by reflexivity.
    rewrite HP, Hdenied. reflexivity.
  - unfold Routes.deleteDesign, Auth.authenticateToken, Routes.findDesign.
    rewrite Hactive. cbn [negb designs projects Routes.with_designs].
    rewrite lookup_insert_eq.
    replace (Design.project (Design.with_isNew false (Design.preSave fresh)))
      with pid by reflexivity.
    rewrite HP, Hdenied. reflexivity.
Qed.

Lemma viewer_creates_but_cannot_change_witness :
  (user_isActive (userOf bob free) = true
   /\ projects teamStore !! Project._id viewerProject = Some viewerProject
   /\ Project.owner viewerProject <> user_id (userOf bob free)
   /\ List.NoDup (Project.users viewerProject)
   /\ Project.hasAccess viewerProject bob Project.editor = false
   /\ Routes.isMongoId (Project._id viewerProject) = true
   /\ 1 <= String.length (trim "  Sketch ") <= 100)
  /\ exists (d : Design.t) (st' : Store),
       Routes.postDesign asGiven asGiven asGiven teamStore (Some (userOf bob free))
         (Project._id viewerProject) "  Sketch " None None
         "64c000000000000000000041"
       = (mkResponse 201 true "Design created successfully" (Some d), st')
       /\ Design.name d = "Sketch"
       /\ status (Routes.deleteDesign st' (Some (userOf bob free))
                    "64c000000000000000000041").1 = 403.
Proof.
  assert (Howner : Project.owner viewerProject <> user_id (userOf bob free))
    by discriminate.
  assert (Hnd : List.NoDup (Project.users viewerProject)).
  { repeat constructor. intros []. }
  assert (Hlen : 1 <= String.length (trim "  Sketch ") <= 100)
    by (vm_compute; lia).
  split; [repeat split; try assumption; apply Hlen|].
  destruct (viewer_creates_but_cannot_change asGiven asGiven asGiven teamStore
              (userOf bob free) (Project._id viewerProject) viewerProject
              (Project.mkCollaborator bob Project.viewer 1000%Z) "  Sketch "
              "64c000000000000000000041" eq_refl eq_refl Howner Hnd eq_refl
              eq_refl eq_refl Hlen)
    as (d & st' & Hpost & _ & _ & _ & _ & _ & _ & Hdelete & _).
  exists d, st'. split; [exact Hpost|]. split; [|exact Hdelete].
  vm_compute in Hpost. now injection Hpost as <- _.
Defined.

Lemma mayWrite_member (P : Project.t) (user : User) :
  Routes.mayWrite P user = true -> isMember user P.
Proof.
  unfold Routes.mayWrite, isMember, toString.
  rewrite orb_true_iff, String.eqb_eq. intros [Ho|Hc]; [now left|right].
  apply existsb_exists in Hc as (c & Hin & Hc).
  apply andb_true_iff in Hc as [Hsame _]. apply sameUser_true in Hsame.
  rewrite <- Hsame. now apply in_map.
Qed.

(** X20. Deleting a design is open to the owner of its project and to the
    collaborators listed as editor or admin, and to nobody else: a public
    design can be read and copied by a stranger but not deleted. When it is
    allowed the answer is 200, that design is gone, and every other design
    and every project is as before; when it is not, the answer is 403 and
    nothing changes. *)
Theorem deleteDesign_removes_one (st : Store) (user : User) (id : ObjectId)
    (d : Design.t) (P : Project.t) :
  user_isActive user = true ->
  designs st !! id = Some d ->
  projects st !! Design.project d = Some P ->
  (~ isMember user P -> Routes.mayWrite P user = false)
  /\ if Routes.mayWrite P user
     then status (Routes.deleteDesign st (Some user) id).1 = 200
          /\ designs (Routes.deleteDesign st (Some user) id).2 !! id = None
          /\ (forall k : ObjectId,
                k <> id ->
                designs (Routes.deleteDesign st (Some user) id).2 !! k
                = designs st !! k)
          /\ projects (Routes.deleteDesign st (Some user) id).2 = projects st
     else status (Routes.deleteDesign st (Some user) id).1 = 403
          /\ (Routes.deleteDesign st (Some user) id).2 = st.
Proof.
  intros Hactive Hd HP. split.
  - intros Hnot. destruct (Routes.mayWrite P user) eqn:Hw; [|reflexivity].
    exfalso. apply Hnot. now apply mayWrite_member.
  - unfold Routes.deleteDesign, Auth.authenticateToken, Routes.findDesign.
    rewrite Hactive, Hd, HP. cbn [negb].
    destruct (Routes.mayWrite P user); cbn [negb fst snd status].
    + split; [reflexivity|]. split; [apply lookup_delete_eq|].
      split; [|reflexivity]. intros k Hk. now apply lookup_delete_ne.
    + split; reflexivity.
Qed.

Lemma deleteDesign_removes_one_witness :
  (user_isActive (userOf carol free) = true
   /\ designs sampleStore !! "64c000000000000000000012"
      = Some (designOf "64c000000000000000000012" (Project._id adminProject)
                       "Plan B" true)
   /\ projects sampleStore !! Project._id adminProject = Some adminProject)
  /\ status (Routes.deleteDesign sampleStore (Some (userOf carol free))
               "64c000000000000000000012").1 = 403
  /\ status (Routes.deleteDesign sampleStore (Some (userOf bob free))
               "64c000000000000000000012").1 = 200.
Proof.
  split; [repeat split|]. split.
  - exact (proj1 (proj2 (deleteDesign_removes_one sampleStore (userOf carol free)
             "64c000000000000000000012"
             (designOf "64c000000000000000000012" (Project._id adminProject)
                       "Plan B" true)
             adminProject eq_refl eq_refl eq_refl))).
  - exact (proj1 (proj2 (deleteDesign_removes_one sampleStore (userOf bob free)
             "64c000000000000000000012"
             (designOf "64c000000000000000000012" (Project._id adminProject)
                       "Plan B" true)
             adminProject eq_refl eq_refl eq_refl))).
Defined.

(** X21. An update of a design never moves it to another project and never
    changes its id, version, visibility or stored metadata, whatever the body
    holds; the other designs and the projects are untouched, and a request
    that is not answered with 200 changes nothing at all. It is refused with
    403 for whoever is neither the owner of the project nor an editor or
    admin of it, and a name that is longer than 100 characters even when
    trimmed makes it fail with 500. *)
Theorem putDesign_fields (st : Store) (user : User) (id : ObjectId)
    (d : Design.t) (P : Project.t) (body : Design.Update) :
  user_isActive user = true ->
  designs st !! id = Some d ->
  projects st !! Design.project d = Some P ->
  projects (Routes.putDesign st (Some user) id body).2 = projects st
  /\ (forall k : ObjectId,
        k <> id ->
        designs (Routes.putDesign st (Some user) id body).2 !! k = designs st !! k)
  /\ (exists d' : Design.t,
        designs (Routes.putDesign st (Some user) id body).2 !! id = Some d'
        /\ Design.project d' = Design.project d
        /\ Design._id d' = Design._id d
        /\ Design.version d' = Design.version d
        /\ Design.isPublic d' = Design.isPublic d
        /\ Design.metadata d' = Design.metadata d)
  /\ (status (Routes.putDesign st (Some user) id body).1 <> 200 ->
      (Routes.putDesign st (Some user) id body).2 = st)
  /\ (Routes.mayWrite P user = false ->
      status (Routes.putDesign st (Some user) id body).1 = 403)
  /\ (forall n : string,
        Design.u_name body = Some n ->
        100 < String.length (trim n) ->
        Routes.mayWrite P user = true ->
        status (Routes.putDesign st (Some user) id body).1 = 500).
Proof.
  intros Hactive Hd HP.
  unfold Routes.putDesign, Auth.authenticateToken, Routes.findDesign.
  rewrite Hactive, Hd, HP. cbn [negb].
  destruct (Routes.mayWrite P user) eqn:Hwrite; cbn [negb].
  - unfold Design.findByIdAndUpdate, Design.validateMaxlength.
    cbn [Design.u_name].
    destruct (Design.u_name body) as [n|] eqn:Hname.
    + destruct (Nat.leb_spec (String.length n) 100) as [Hle|Hgt].
      * rewrite Hd. cbn [fst snd status projects designs Routes.with_designs].
        split; [reflexivity|]. split.
        { intros k Hk. now apply lookup_insert_ne. }
        split.
        { eexists. split; [apply lookup_insert_eq|]. repeat split. }
        split; [intros Hne; now contradiction Hne|].
        split; [discriminate|].
        intros n' [= <-] Hlong _. pose proof (length_trim n). lia.
      * cbn [fst snd status]. split; [reflexivity|]. split; [reflexivity|].
        split; [exists d; repeat split; exact Hd|]. split; [reflexivity|].
        split; [discriminate|reflexivity].
    + rewrite Hd. cbn [fst snd status projects designs Routes.with_designs].
      split; [reflexivity|]. split.
      { intros k Hk. now apply lookup_insert_ne. }
      split.
      { eexists. split; [apply lookup_insert_eq|]. repeat split. }
      split; [intros Hne; now contradiction Hne|].
      split; [discriminate|]. intros n' Hn'. discriminate Hn'.
  - cbn [fst snd status]. split; [reflexivity|]. split; [reflexivity|].
    split; [exists d; repeat split; exact Hd|]. split; [reflexivity|].
    split; [reflexivity|discriminate].
Qed.

Lemma putDesign_fields_witness :
  (user_isActive (userOf bob free) = true
   /\ designs sampleStore !! Design._id sampleDesign = Some sampleDesign
   /\ projects sampleStore !! Design.project sampleDesign = Some sampleProject)
  /\ exists d' : Design.t,
       designs (Routes.putDesign sampleStore (Some (userOf bob free))
                  (Design._id sampleDesign) zoomBody).2
         !! Design._id sampleDesign = Some d'
       /\ Design.project d' = Project._id sampleProject.
Proof.
  split; [repeat split|].
  destruct (putDesign_fields sampleStore (userOf bob free)
              (Design._id sampleDesign) sampleDesign sampleProject zoomBody
              eq_refl eq_refl eq_refl)
    as (_ & _ & (d' & Hd' & Hproject & _) & _).
  exists d'. split; [exact Hd'|exact Hproject].
Defined.

Lemma eqb_empty_length (s : string) :
  String.eqb s "" = negb (1 <=? String.length s)%nat.
Proof. destruct s; reflexivity. Qed.

Lemma forallb_trim_length (n : nat) (l : list string) :
  forallb (fun tag => (String.length tag <=? n)%nat) l = true ->
  forallb (fun tag => (String.length tag <=? n)%nat) (map trim l) = true.
Proof.
  induction l as [|s l IH]; [reflexivity|]. cbn [forallb map].
  rewrite !andb_true_iff, !Nat.leb_le. intros [Hs Hl]. split; [|now apply IH].
  pose proof (length_trim s). lia.
Qed.

(** The new project passes the validators exactly when its name does. *)
Lemma validateProject_newProject (now : Date) (newId owner : ObjectId)
    (name : string) (resource : Project.t) :
  Routes.validateProject resource = Ok tt ->
  Routes.validateProject (Routes.newProject now newId name resource owner)
  = if (1 <=? String.length (trim name))%nat
       && (String.length (trim name) <=? 100)%nat
    then Ok tt
    else if (1 <=? String.length (trim name))%nat
         then Throw "Project name cannot exceed 100 characters"
         else Throw "Project name is required".
Proof.
  unfold Routes.validateProject, Routes.newProject.
  cbn [Project.name Project.description Project.tags].
  rewrite !eqb_empty_length.
  destruct (1 <=? String.length (Project.name resource))%nat; [|discriminate].
  destruct (String.length (Project.name resource) <=? 100)%nat; [|discriminate].
  cbn [negb andb].
  destruct (1 <=? String.length (trim name))%nat; [|reflexivity]. cbn [negb andb].
  destruct (String.length (trim name) <=? 100)%nat; [|reflexivity]. cbn [negb].
  destruct (Project.description resource) as [d|]; cbn [fmap option_fmap option_map].
  - destruct (Nat.leb_spec (String.length d) 500); [|discriminate]. cbn [negb].
    pose proof (length_trim d).
    destruct (Nat.leb_spec (String.length (trim d)) 500); [|lia]. cbn [negb].
    destruct (forallb _ (Project.tags resource)) eqn:Htags; [|discriminate].
    now rewrite forallb_trim_length.
  - cbn [negb].
    destruct (forallb _ (Project.tags resource)) eqn:Htags; [|discriminate].
    now rewrite forallb_trim_length.
Qed.

(** A copy of a design with a stored name passes the validators. *)
Lemma save_copyInto (newId projectId : ObjectId) (d : Design.t) :
  storedName (Design.name d) ->
  Design.save (Routes.copyInto newId projectId d)
  = Ok (Design.with_isNew false (Design.preSave (Routes.copyInto newId projectId d))).
Proof.
  intros [Hink Hlen]. apply save_valid.
  unfold Design.validate, Design.validateMaxlength, Routes.copyInto.
  cbn [Design.name].
  destruct (String.eqb_spec (trim (Design.name d)) "") as [Hempty|_].
  - exfalso. rewrite <- inkCount_trim, Hempty in Hink. simpl in Hink. lia.
  - pose proof (length_trim (Design.name d)).
    destruct (Nat.leb_spec (String.length (trim (Design.name d))) 100);
      [reflexivity|lia].
Qed.

Lemma isCopyOf_saved (newId projectId : ObjectId) (d : Design.t) :
  isCopyOf projectId
    (Design.with_isNew false (Design.preSave (Routes.copyInto newId projectId d))) d.
Proof. repeat split. Qed.

(** The loop of the route over designs with stored names: every design found
    gets its copy under a new id, and nothing else changes. *)
Lemma copyDesigns_spec (projectId : ObjectId) (newIds : nat -> ObjectId)
    (found : list Design.t) :
  (forall m n : nat, newIds m = newIds n -> m = n) ->
  Forall (fun d => storedName (Design.name d)) found ->
  forall (i : nat) (collection : gmap ObjectId Design.t),
  exists collection' : gmap ObjectId Design.t,
    Routes.copyDesigns projectId newIds i found collection = (Ok tt, collection')
    /\ (forall (j : nat) (d : Design.t),
          nth_error found j = Some d ->
          exists c : Design.t,
            collection' !! newIds (S (i + j)) = Some c /\ isCopyOf projectId c d)
    /\ (forall k : ObjectId,
          (forall j : nat, k <> newIds (S (i + j))) ->
          collection' !! k = collection !! k)
    /\ (forall (k : ObjectId) (c : Design.t),
          collection' !! k = Some c ->
          collection !! k = Some c
          \/ exists d : Design.t, In d found /\ isCopyOf projectId c d).
Proof.
  intros Hinj Hvalid. induction Hvalid as [|d rest Hd Hrest IH]; intros i collection.
  - exists collection. split; [reflexivity|]. split; [|split].
    + intros [|j] d Hj; discriminate Hj.
    + reflexivity.
    + intros k c Hk. now left.
  - cbn [Routes.copyDesigns]. rewrite (save_copyInto _ _ _ Hd).
    set (c0 := Design.with_isNew false
                 (Design.preSave (Routes.copyInto (newIds (S i)) projectId d))).
    destruct (IH (S i) (<[newIds (S i) := c0]> collection))
      as (collection' & Hrun & Hcopies & Hframe & Hfrom).
    exists collection'. split; [exact Hrun|]. split; [|split].
    + intros [|j] d' Hj.
      * injection Hj as <-. exists c0. split; [|apply isCopyOf_saved].
        rewrite Nat.add_0_r, Hframe.
        -- apply lookup_insert_eq.
        -- intros j Heq. apply Hinj in Heq. lia.
      * destruct (Hcopies j d' Hj) as (c & Hc & Hcopy). exists c.
        split; [|exact Hcopy]. now replace (i + S j) with (S i + j) by lia.
    + intros k Hk. rewrite Hframe.
      * apply lookup_insert_ne. specialize (Hk 0). rewrite Nat.add_0_r in Hk.
        congruence.
      * intros j. specialize (Hk (S j)).
        now replace (i + S j) with (S i + j) in Hk by lia.
    + intros k c Hk. destruct (Hfrom k c Hk) as [Hold|(d' & Hin & Hcopy)].
      * destruct (decide (newIds (S i) = k)) as [<-|Hne].
        -- rewrite lookup_insert_eq in Hold. injection Hold as <-. right.
           exists d. split; [now left|apply isCopyOf_saved].
        -- rewrite lookup_insert_ne in Hold by exact Hne. now left.
      * right. exists d'. split; [now right|exact Hcopy].
Qed.

(** What [Design.find({ project })] returns. *)
Lemma In_designsOf (projectId : ObjectId) (collection : gmap ObjectId Design.t)
    (d : Design.t) :
  In d (Routes.designsOf projectId collection)
  <-> Design.project d = projectId
      /\ exists k : ObjectId, collection !! k = Some d.
Proof.
  unfold Routes.designsOf, toString. rewrite filter_In, in_map_iff. split.
  - intros [([k d'] & Heq & Hin) Hp]. simpl in Heq. subst d'.
    apply String.eqb_eq in Hp. split; [exact Hp|]. exists k.
    apply list_elem_of_In in Hin. now apply elem_of_map_to_list in Hin.
  - intros [Hp [k Hk]]. split; [|now apply String.eqb_eq].
    exists (k, d). split; [reflexivity|].
    apply list_elem_of_In. now apply elem_of_map_to_list.
Qed.

(** X22. A member of a project who duplicates it gets, when the name of the
    copy (the name of the request or the name of the source followed by
    " (Copy)", trimmed) has between 1 and 100 characters, the answer 201 and
    a new private draft project of version 1 that they own, with no
    collaborators and the settings of the source. Every design of the source
    is copied under the new project as a private draft of version "1.0.0"
    with the same content, every design added is such a copy, and the
    designs and projects already stored are kept. A name of white space
    only, or of more than 100 characters, makes the request fail with 500
    and store nothing. *)
Theorem duplicateProject_copies (now : Date) (st : Store) (user : User)
    (id : ObjectId) (P : Project.t) (name : option string)
    (newIds : nat -> ObjectId) :
  user_isActive user = true ->
  projects st !! id = Some P ->
  isMember user P ->
  Routes.validateProject P = Ok tt ->
  (forall m n : nat, newIds m = newIds n -> m = n) ->
  (forall n : nat, designs st !! newIds (S n) = None) ->
  (forall (k : ObjectId) (d : Design.t),
     designs st !! k = Some d -> Design.project d = Project._id P ->
     storedName (Design.name d)) ->
  if (1 <=? String.length (projectCopyName P name))%nat
     && (String.length (projectCopyName P name) <=? 100)%nat
  then status (Routes.duplicateProject now st (Some user) id name newIds).1 = 201
       /\ exists created : Project.t,
            data (Routes.duplicateProject now st (Some user) id name newIds).1
            = Some created
            /\ projects (Routes.duplicateProject now st (Some user) id name newIds).2
               = <[newIds 0%nat := created]> (projects st)
            /\ Project._id created = newIds 0%nat
            /\ Project.owner created = user_id user
            /\ Project.collaborators created = []
            /\ Project.name created = projectCopyName P name
            /\ Project.settings created = Project.settings P
            /\ Project.status created = draft
            /\ Project.isPublic created = false
            /\ Project.version created = 1%Z
            /\ (forall (k : ObjectId) (d : Design.t),
                  designs st !! k = Some d ->
                  designs (Routes.duplicateProject now st (Some user) id name
                             newIds).2 !! k = Some d)
            /\ (forall (k : ObjectId) (d : Design.t),
                  designs st !! k = Some d -> Design.project d = Project._id P ->
                  exists (k' : ObjectId) (c : Design.t),
                    designs st !! k' = None
                    /\ designs (Routes.duplicateProject now st (Some user) id name
                                  newIds).2 !! k' = Some c
                    /\ isCopyOf (newIds 0%nat) c d)
            /\ (forall (k : ObjectId) (c : Design.t),
                  designs (Routes.duplicateProject now st (Some user) id name
                             newIds).2 !! k = Some c ->
                  designs st !! k = None ->
                  exists (k0 : ObjectId) (d : Design.t),
                    designs st !! k0 = Some d
                    /\ Design.project d = Project._id P
                    /\ isCopyOf (newIds 0%nat) c d)
  else status (Routes.duplicateProject now st (Some user) id name newIds).1 = 500
       /\ (Routes.duplicateProject now st (Some user) id name newIds).2 = st.
Proof.
  intros Hactive HP Hmember Hvalid Hinj Hfresh Hnames.
  unfold Routes.duplicateProject, Auth.authenticateToken. rewrite Hactive.
  change (negb true) with false. cbv beta iota.
  rewrite (gate_member POST user (projects st) id P HP Hmember).
  rewrite (validateProject_newProject _ _ _ _ _ Hvalid).
  fold (projectCopyName P name).
  destruct ((1 <=? String.length (projectCopyName P name))%nat
            && (String.length (projectCopyName P name) <=? 100)%nat);
    [|destruct (1 <=? String.length (projectCopyName P name))%nat;
      split; reflexivity].
  set (saved := Project.save now _).
  assert (Hfound : Forall (fun d => storedName (Design.name d))
                     (Routes.designsOf (Project._id P) (designs st))).
  { apply List.Forall_forall. intros d Hd. apply In_designsOf in Hd.
    destruct Hd as [Hp [k Hk]]. exact (Hnames k d Hk Hp). }
  destruct (copyDesigns_spec (Project._id saved) newIds _ Hinj Hfound 0 (designs st))
    as (designs' & Hrun & Hcopies & Hframe & Hfrom).
  rewrite Hrun. cbn [fst snd status data Routes.with_designs Routes.with_projects
                     designs projects].
  split; [reflexivity|]. exists saved. split; [reflexivity|].
  split; [reflexivity|]. repeat (split; [reflexivity|]).
  split; [|split].
  - intros k d Hk. rewrite Hframe; [exact Hk|].
    intros j ->. rewrite Hfresh in Hk. discriminate Hk.
  - intros k d Hk Hp.
    assert (Hin : In d (Routes.designsOf (Project._id P) (designs st)))
      by (apply In_designsOf; eauto).
    apply In_nth_error in Hin. destruct Hin as [j Hj].
    destruct (Hcopies j d Hj) as (c & Hc & Hcopy).
    exists (newIds (S (0 + j))), c. split; [apply Hfresh|]. split; assumption.
  - intros k c Hk Hnew. destruct (Hfrom k c Hk) as [Hold|(d & Hin & Hcopy)].
    + rewrite Hnew in Hold. discriminate Hold.
    + apply In_designsOf in Hin. destruct Hin as [Hp [k0 Hk0]].
      exists k0, d. split; [exact Hk0|]. split; assumption.
Qed.

Lemma freshIds_inj (m n : nat) : freshIds m = freshIds n -> m = n.
Proof.
  unfold freshIds. intros Heq. simpl in Heq. injection Heq as Heq.
  now apply pretty_nat_inj in Heq.
Qed.

Lemma freshIds_fresh (n : nat) : designs sampleStore !! freshIds n = None.
Proof.
  change (freshIds n) with (String "6" (String "5" (String "d" (pretty n)))).
  unfold sampleStore. cbn [designs].
  rewrite !lookup_insert_ne by discriminate. apply lookup_empty.
Qed.

Lemma sampleStore_names (k : ObjectId) (d : Design.t) :
  designs sampleStore !! k = Some d -> storedName (Design.name d).
Proof.
  unfold sampleStore. cbn [designs]. intros Hk.
  repeat (apply lookup_insert_Some in Hk;
          destruct Hk as [[_ <-]|[_ Hk]]; [unfold storedName; simpl; lia|]).
  rewrite lookup_empty in Hk. discriminate Hk.
Qed.

Lemma duplicateProject_copies_witness :
  (user_isActive (userOf bob free) = true
   /\ projects sampleStore !! Project._id adminProject = Some adminProject
   /\ isMember (userOf bob free) adminProject
   /\ Routes.validateProject adminProject = Ok tt)
  /\ status (Routes.duplicateProject 2000%Z sampleStore (Some (userOf bob free))
               (Project._id adminProject) None freshIds).1 = 201
  /\ exists (k' : ObjectId) (c : Design.t),
       designs (Routes.duplicateProject 2000%Z sampleStore (Some (userOf bob free))
                  (Project._id adminProject) None freshIds).2 !! k' = Some c
       /\ isCopyOf (freshIds 0) c
            (designOf "64c000000000000000000011" (Project._id adminProject)
               "Plan A" false).
Proof.
  assert (Hmember : isMember (userOf bob free) adminProject)
    by (right; left; reflexivity).
  split; [repeat split; exact Hmember|].
  pose proof (duplicateProject_copies 2000%Z sampleStore (userOf bob free)
                (Project._id adminProject) adminProject None freshIds
                eq_refl eq_refl Hmember eq_refl freshIds_inj
                (fun n => freshIds_fresh (S n))
                (fun k d Hk _ => sampleStore_names k d Hk)) as H.
  change ((1 <=? String.length (projectCopyName adminProject None))%nat
          && (String.length (projectCopyName adminProject None) <=? 100)%nat)
    with true in H.
  destruct H as (Hstatus & created & _ & _ & _ & _ & _ & _ & _ & _ & _ & _ & _
                 & Hcopied & _).
  split; [exact Hstatus|].
  destruct (Hcopied "64c000000000000000000011"
              (designOf "64c000000000000000000011" (Project._id adminProject)
                 "Plan A" false) eq_refl eq_refl) as (k' & c & _ & Hc & Hcopy).
  exists k', c. split; assumption.
Defined.

Lemma Method_eqb_eq (a b : Method) : Router.Method_eqb a b = true <-> a = b.
Proof. destruct a, b; simpl; split; congruence. Qed.

Lemma lowerString_empty (s : string) : Router.lowerString s = "" -> s = "".
Proof. destruct s; [reflexivity|discriminate]. Qed.

(** A pattern that subsumes another matches wherever the other does. *)
Lemma subsumes_matchPath (p q : list Router.Segment) (path : list string) :
  subsumes p q = true ->
  Router.matchPath q path <> None -> Router.matchPath p path <> None.
Proof.
  revert q path. induction p as [|[a|a] p IH]; intros [|[b|b] q] path Hsub;
    try discriminate Hsub; destruct path as [|s path]; try (intros H; exact H);
    cbn [subsumes] in Hsub; cbn [Router.matchPath].
  - apply andb_true_iff in Hsub. destruct Hsub as [Hab Hsub].
    unfold Router.eqbNoCase in *. apply String.eqb_eq in Hab. rewrite Hab.
    destruct (String.eqb _ _); [now apply IH|intros H; exact H].
  - apply andb_true_iff in Hsub. destruct Hsub as [Hne Hsub].
    unfold Router.eqbNoCase.
    destruct (String.eqb_spec (Router.lowerString b) (Router.lowerString s))
      as [Hbs|_]; [|intros H; now contradiction H].
    destruct (String.eqb_spec s "") as [->|_].
    + simpl in Hbs. apply lowerString_empty in Hbs. subst b. discriminate Hne.
    + intros Hq. specialize (IH q path Hsub Hq).
      destruct (Router.matchPath p path); [discriminate|contradiction].
  - destruct (String.eqb s ""); [intros H; exact H|].
    intros Hq. assert (Hq' : Router.matchPath q path <> None)
      by (destruct (Router.matchPath q path); [discriminate|contradiction]).
    specialize (IH q path Hsub Hq').
    destruct (Router.matchPath p path); [discriminate|contradiction].
Qed.

Lemma dispatch_app (pre post : list Router.Route) (m : Method)
    (path : list string) :
  Router.dispatch (pre ++ post) m path
  = match Router.dispatch pre m path with
    | Some found => Some found
    | None => Router.dispatch post m path
    end.
Proof.
  induction pre as [|r pre IH]; [reflexivity|]. cbn [app Router.dispatch].
  destruct (Router.Method_eqb (Router.method r) m); [|exact IH].
  destruct (Router.matchPath (Router.pattern r) path); [reflexivity|exact IH].
Qed.

Lemma dispatch_In (router : list Router.Route) (m : Method) (path : list string)
    (r : Router.Route) (params : list (string * string)) :
  Router.dispatch router m path = Some (r, params) ->
  In r router /\ Router.method r = m
  /\ Router.matchPath (Router.pattern r) path = Some params.
Proof.
  induction router as [|r0 router IH]; [discriminate|]. cbn [Router.dispatch].
  destruct (Router.Method_eqb (Router.method r0) m) eqn:Hm.
  - destruct (Router.matchPath (Router.pattern r0) path) eqn:Hp.
    + intros [= <- <-]. apply Method_eqb_eq in Hm. repeat split; [now left|..];
        assumption.
    + intros H. destruct (IH H) as (Hin & Hrest). split; [now right|exact Hrest].
  - intros H. destruct (IH H) as (Hin & Hrest). split; [now right|exact Hrest].
Qed.

Lemma dispatch_None (router : list Router.Route) (m : Method) (path : list string)
    (r : Router.Route) :
  Router.dispatch router m path = None ->
  In r router -> Router.method r = m ->
  Router.matchPath (Router.pattern r) path = None.
Proof.
  induction router as [|r0 router IH]; [intros _ []|]. cbn [Router.dispatch].
  intros Hnone [<-|Hin] Hm.
  - apply Method_eqb_eq in Hm. rewrite Hm in Hnone.
    destruct (Router.matchPath (Router.pattern r0) path); [discriminate|reflexivity].
  - destruct (Router.Method_eqb (Router.method r0) m);
      [destruct (Router.matchPath (Router.pattern r0) path); [discriminate|]|];
      now apply IH.
Qed.

(** A route registered after one of the same method whose pattern subsumes
    its own is never handed a request. *)
Lemma dispatch_shadowed (pre post : list Router.Route) (r1 r2 : Router.Route) :
  In r1 pre -> ~ In r2 pre ->
  Router.method r1 = Router.method r2 ->
  subsumes (Router.pattern r1) (Router.pattern r2) = true ->
  ~ reachable (pre ++ r2 :: post) r2.
Proof.
  intros Hin Hnotin Hmethod Hsub (path & params & Hrun).
  rewrite dispatch_app in Hrun.
  destruct (Router.dispatch pre (Router.method r2) path) as [[r params']|] eqn:Hpre.
  - injection Hrun as -> ->. apply dispatch_In in Hpre. now destruct Hpre.
  - apply (dispatch_None _ _ _ r1 Hpre Hin) in Hmethod.
    cbn [Router.dispatch] in Hrun.
    destruct (Method_eqb_eq (Router.method r2) (Router.method r2)) as [_ Hrefl].
    rewrite (Hrefl eq_refl) in Hrun.
    apply (subsumes_matchPath _ _ path Hsub); [|exact Hmethod].
    destruct (Router.matchPath (Router.pattern r2) path) eqn:Hp2; [discriminate|].
    apply dispatch_In in Hrun. destruct Hrun as (_ & _ & Hmatch). congruence.
Qed.

Ltac live_route :=
  split;
  [ intros _; cbn; lia
  | intros _;
    match goal with
    | |- reachable _ ?r => exists (pathFor (Router.pattern r)); eexists; reflexivity
    end ].

Ltac dead_route T k :=
  split;
  [ intros Hr; exfalso; revert Hr;
    match goal with
    | |- reachable _ ?r2 -> False =>
        refine (dispatch_shadowed (firstn k T) (skipn (S k) T) (nth 1 T r2) r2
                  _ _ eq_refl eq_refl);
        [ cbn; right; left; reflexivity
        | cbn; intros H; repeat (destruct H as [H|H]; [discriminate H|]); exact H ]
    end
  | intros H; exfalso; revert H; cbn; lia ].

Lemma projects_reachable (r : Router.Route) :
  In r Router.projects -> (reachable Router.projects r <-> Router.line r <> 553).
Proof.
  intros Hin. cbn in Hin.
  repeat (destruct Hin as [<-|Hin];
          [first [live_route | dead_route Router.projects 9]|]).
  contradiction.
Qed.

Lemma designs_reachable (r : Router.Route) :
  In r Router.designs -> (reachable Router.designs r <-> Router.line r <> 648).
Proof.
  intros Hin. cbn in Hin.
  repeat (destruct Hin as [<-|Hin];
          [first [live_route | dead_route Router.designs 9]|]).
  contradiction.
Qed.

Lemma templates_reachable (r : Router.Route) :
  In r Router.templates ->
  (reachable Router.templates r <-> ~ In (Router.line r) [950; 992; 1184]).
Proof.
  intros Hin. cbn in Hin.
  repeat (destruct Hin as [<-|Hin];
          [first [live_route | dead_route Router.templates 3
                 | dead_route Router.templates 4 | dead_route Router.templates 8]|]).
  contradiction.
Qed.

Lemma furniture_reachable (r : Router.Route) :
  In r Router.furniture ->
  (reachable Router.furniture r <-> ~ In (Router.line r) [254; 296; 381; 492]).
Proof.
  intros Hin. cbn in Hin.
  repeat (destruct Hin as [<-|Hin];
          [first [live_route | dead_route Router.furniture 2
                 | dead_route Router.furniture 3 | dead_route Router.furniture 5
                 | dead_route Router.furniture 7]|]).
  contradiction.
Qed.

Lemma dispatch_one_segment (first detail : Router.Route)
    (rest : list Router.Route) (segment : string) :
  Router.method first = GET -> Router.pattern first = [] ->
  Router.method detail = GET -> Router.pattern detail = [Router.Param "id"] ->
  segment <> "" ->
  Router.dispatch (first :: detail :: rest) GET [segment]
  = Some (detail, [("id", segment)]).
Proof.
  intros Hm1 Hp1 Hm2 Hp2 Hne. cbn [Router.dispatch].
  rewrite Hm1, Hp1, Hm2, Hp2. cbn [Router.Method_eqb Router.matchPath].
  apply String.eqb_neq in Hne. now rewrite Hne.
Qed.

(** X23. In the routers of projects, designs, templates and furniture the
    route [GET /:id] is registered before the static one-segment routes, and
    the router hands a request to the first route that matches. So every GET
    request for a single segment goes to [GET /:id] with that segment as the
    id, and the routes [GET /public] (projects, designs), [GET /categories],
    [GET /featured], [GET /search] (templates, furniture) and
    [GET /trending] (furniture) are never handed a request; every other
    route of the four routers is handed one for a suitable path. *)
Theorem static_routes_shadowed (r : Router.Route) :
  (In r Router.projects -> (reachable Router.projects r <-> Router.line r <> 553))
  /\ (In r Router.designs -> (reachable Router.designs r <-> Router.line r <> 648))
  /\ (In r Router.templates ->
      (reachable Router.templates r <-> ~ In (Router.line r) [950; 992; 1184]))
  /\ (In r Router.furniture ->
      (reachable Router.furniture r <-> ~ In (Router.line r) [254; 296; 381; 492]))
  /\ (forall segment : string,
        segment <> "" ->
        Router.dispatch Router.projects GET [segment]
        = Some (Router.mkRoute GET [Router.Param "id"] 131, [("id", segment)])
        /\ Router.dispatch Router.designs GET [segment]
           = Some (Router.mkRoute GET [Router.Param "id"] 131, [("id", segment)])
        /\ Router.dispatch Router.templates GET [segment]
           = Some (Router.mkRoute GET [Router.Param "id"] 774, [("id", segment)])
        /\ Router.dispatch Router.furniture GET [segment]
           = Some (Router.mkRoute GET [Router.Param "id"] 216, [("id", segment)])).
Proof.
  split; [apply projects_reachable|]. split; [apply designs_reachable|].
  split; [apply templates_reachable|]. split; [apply furniture_reachable|].
  intros segment Hne.
  repeat split; apply dispatch_one_segment; solve [reflexivity | exact Hne].
Qed.

Lemma static_routes_shadowed_witness :
  In (Router.mkRoute GET [Router.Lit "public"] 553) Router.projects
  /\ ~ reachable Router.projects (Router.mkRoute GET [Router.Lit "public"] 553)
  /\ Router.dispatch Router.projects GET ["public"]
     = Some (Router.mkRoute GET [Router.Param "id"] 131, [("id", "public")]).
Proof.
  assert (Hin : In (Router.mkRoute GET [Router.Lit "public"] 553) Router.projects)
    by (cbn; tauto).
  split; [exact Hin|].
  pose proof (static_routes_shadowed (Router.mkRoute GET [Router.Lit "public"] 553))
    as (Hprojects & _ & _ & _ & Hone).
  split.
  - intros Hr. now apply (proj1 (Hprojects Hin) Hr).
  - apply (Hone "public"). discriminate.
Defined.

Lemma mayRead_iff (P : Project.t) (d : Design.t) (user : User) :
  Routes.mayRead P d user = true <-> isMember user P \/ Design.isPublic d = true.
Proof.
  unfold Routes.mayRead, isMember, Project.users, toString.
  rewrite !orb_true_iff, String.eqb_eq, existsb_sameUser. tauto.
Qed.

(** X24. [GET /:id] of the designs router shows a stored design, as it is
    stored, exactly to the owner and the collaborators of its project and,
    when the design is public, to every signed-in user; the others get 403.
    An id under which nothing is stored, or a design whose project is gone,
    gives 404, a parameter that cannot be cast to an ObjectId gives 500, and
    a request without a user 401. With X23, a signed-in request for
    [GET /public] is therefore answered 500 by this handler. *)
Theorem getDesign_access (castObjectId : string -> option ObjectId) (st : Store)
    (user : User) (raw : string) :
  user_isActive user = true ->
  match castObjectId raw with
  | None => status (Routes.getDesign castObjectId st (Some user) raw) = 500
  | Some id =>
      match designs st !! id with
      | None => status (Routes.getDesign castObjectId st (Some user) raw) = 404
      | Some d =>
          match projects st !! Design.project d with
          | None => status (Routes.getDesign castObjectId st (Some user) raw) = 404
          | Some P =>
              (status (Routes.getDesign castObjectId st (Some user) raw) = 200
               <-> isMember user P \/ Design.isPublic d = true)
              /\ (status (Routes.getDesign castObjectId st (Some user) raw) = 200 ->
                  data (Routes.getDesign castObjectId st (Some user) raw) = Some d)
              /\ (status (Routes.getDesign castObjectId st (Some user) raw) <> 200 ->
                  status (Routes.getDesign castObjectId st (Some user) raw) = 403
                  /\ data (Routes.getDesign castObjectId st (Some user) raw) = None)
          end
      end
  end
  /\ status (Routes.getDesign castObjectId st None raw) = 401.
Proof.
  intros Hactive. split; [|reflexivity].
  unfold Routes.getDesign, Auth.authenticateToken, Routes.findDesign.
  rewrite Hactive. change (negb true) with false. cbv beta iota.
  destruct (castObjectId raw) as [id|]; [|reflexivity].
  destruct (designs st !! id) as [d|]; [|reflexivity].
  destruct (projects st !! Design.project d) as [P|]; [|reflexivity].
  pose proof (mayRead_iff P d user) as Hread.
  destruct (Routes.mayRead P d user); cbn [negb status data failure].
  - split; [split; [intros _; now apply Hread|reflexivity]|].
    split; [reflexivity|]. intros Hne. now contradiction Hne.
  - split; [split; [discriminate|]|].
    + intros Hmay. apply Hread in Hmay. discriminate Hmay.
    + split; [discriminate|]. intros _. split; reflexivity.
Qed.

Lemma getDesign_access_witness :
  user_isActive (userOf bob free) = true
  /\ status (Routes.getDesign hexOnly sampleStore (Some (userOf bob free)) "public")
     = 500.
Proof.
  split; [reflexivity|].
  exact (proj1 (getDesign_access hexOnly sampleStore (userOf bob free) "public"
                  eq_refl)).
Defined.

Lemma statusName_inj (a b : Status) :
  String.eqb (Routes.statusName a) (Routes.statusName b) = true <-> a = b.
Proof. destruct a, b; simpl; split; congruence. Qed.

(** The counts by status add up to the length of the list. *)
Lemma status_partition (l : list Project.t) :
  length l
  = fold_right Nat.add 0
      (map (fun s =>
              length (List.filter
                        (fun p => String.eqb (Routes.statusName (Project.status p))
                                             (Routes.statusName s)) l))
           [draft; in_progress; completed; archived]).
Proof.
  induction l as [|p l IH]; [reflexivity|]. cbn [map fold_right] in *.
  cbn [List.filter length]. destruct (Project.status p); cbn in *; lia.
Qed.

Lemma matchesProject_member (user : User) (status : option string)
    (search : option (string -> bool)) (tags : option (list string))
    (p : Project.t) :
  Routes.matchesProject user status search tags p = true ->
  isMember user p
  /\ (forall s : string, status = Some s -> Routes.statusName (Project.status p) = s).
Proof.
  unfold Routes.matchesProject, isMember, Project.users, toString.
  rewrite !andb_true_iff, orb_true_iff, String.eqb_eq, existsb_sameUser.
  intros [[[Hmember Hstatus] _] _]. split; [exact Hmember|].
  intros s ->. cbn [Routes.whenSet] in Hstatus. now apply String.eqb_eq.
Qed.

Lemma matchesProject_unfiltered (user : User) (p : Project.t) :
  isMember user p -> Routes.matchesProject user None None None p = true.
Proof.
  unfold Routes.matchesProject, isMember, Project.users, toString.
  cbn [Routes.whenSet]. rewrite !andb_true_r, orb_true_iff, String.eqb_eq,
    existsb_sameUser. tauto.
Qed.

Lemma insertSorted_In {A : Type} (le : A -> A -> bool) (v x : A) (l : list A) :
  x = v \/ In x l -> In x (Routes.insertSorted le v l).
Proof.
  induction l as [|h rest IH]; simpl.
  - intros [->|[]]. now left.
  - destruct (le v h); simpl.
    + intros [->|[->|Hin]]; [now left|right; now left|right; now right].
    + intros [->|[->|Hin]]; [right; apply IH; now left|now left|].
      right. apply IH. now right.
Qed.

Lemma sortDocs_In {A : Type} (le : A -> A -> bool) (x : A) (l : list A) :
  In x l -> In x (Routes.sortDocs le l).
Proof.
  induction l as [|h rest IH]; simpl; [intros []|].
  intros [->|Hin]; apply insertSorted_In; [now left|right; now apply IH].
Qed.

(** X25. The list of projects holds stored projects only, each owned by the
    requester or shared with them: a public project of somebody else is not
    listed. With a status filter every project listed has that status, and a
    page holds at most [limit] projects (20 when none is given). A request
    without filters whose matches fit on the first page lists every project
    the requester owns or is listed on. The statistics count the projects the
    requester owns and no others, whatever the filters: they add up to the
    number of owned projects, and a status has no entry exactly when no owned
    project has it. A search that is no regular expression is answered 500. *)
Theorem getProjects_private (compileRegex : string -> option (string -> bool))
    (comparePath : string -> Project.t -> Project.t -> comparison)
    (st : Store) (user : User) (q : Routes.ProjectParams) :
  user_isActive user = true ->
  Routes.validProjectParams q = true ->
  if searchCompiles compileRegex q
  then status (Routes.getProjects compileRegex comparePath st (Some user) q) = 200
       /\ exists pg : Routes.ProjectsPage,
            data (Routes.getProjects compileRegex comparePath st (Some user) q)
            = Some pg
            /\ (forall p : Project.t,
                  In p (Routes.page_projects pg) ->
                  In p (storedProjects st) /\ isMember user p
                  /\ (forall s : string,
                        Routes.pq_status q = Some s ->
                        Routes.statusName (Project.status p) = s))
            /\ length (Routes.page_projects pg)
               <= Routes.itemsPerPage (Routes.projects_pagination pg)
            /\ Routes.itemsPerPage (Routes.projects_pagination pg)
               = default 20 (Routes.pq_limit q)
            /\ (unfiltered q ->
                Routes.totalItems (Routes.projects_pagination pg)
                <= Routes.itemsPerPage (Routes.projects_pagination pg) ->
                forall p : Project.t,
                  In p (storedProjects st) -> isMember user p ->
                  In p (Routes.page_projects pg))
            /\ default 0 (Routes.stats pg draft)
               + default 0 (Routes.stats pg in_progress)
               + default 0 (Routes.stats pg completed)
               + default 0 (Routes.stats pg archived)
               = length (ownedProjects user st)
            /\ (forall s : Status,
                  Routes.stats pg s = None <->
                  forall p : Project.t,
                    In p (ownedProjects user st) -> Project.status p <> s)
  else status (Routes.getProjects compileRegex comparePath st (Some user) q) = 500.
Proof.
  intros Hactive Hvalid.
  unfold Routes.getProjects, Auth.authenticateToken, searchCompiles.
  rewrite Hactive. change (negb true) with false. cbv beta iota.
  rewrite Hvalid. change (negb true) with false. cbv beta iota.
  assert (Hlimit : match Routes.pq_limit q with
                   | Some 0 | None => 20
                   | Some n => n
                   end = default 20 (Routes.pq_limit q)).
  { unfold Routes.validProjectParams in Hvalid.
    destruct (Routes.pq_limit q) as [[|n]|]; try reflexivity.
    cbn [Routes.whenSet] in Hvalid. rewrite !andb_true_iff in Hvalid.
    destruct Hvalid as [[[_ [H _]] _] _]. discriminate H. }
  rewrite Hlimit.
  set (limit := default 20 (Routes.pq_limit q)).
  assert (Hsearch :
    forall search : option (string -> bool),
      let found :=
        List.filter (Routes.matchesProject user (Routes.pq_status q) search
                       (Routes.pq_tags q))
                    (map snd (map_to_list (projects st))) in
      forall pg : Routes.ProjectsPage,
      Routes.page_projects pg
      = take limit
          (drop ((match Routes.pq_page q with Some 0 | None => 1 | Some n => n end
                  - 1) * limit)
             (Routes.sortDocs
                (fun a b =>
                   match (if String.eqb (default "desc" (Routes.pq_sortOrder q)) "desc"
                          then comparePath (default "lastModified" (Routes.pq_sortBy q)) b a
                          else comparePath (default "lastModified" (Routes.pq_sortBy q)) a b)
                   with Gt => false | _ => true end) found)) ->
      Routes.itemsPerPage (Routes.projects_pagination pg) = limit ->
      Routes.totalItems (Routes.projects_pagination pg) = length found ->
      (Routes.pq_search q = None -> search = None) ->
      (forall p : Project.t,
         In p (Routes.page_projects pg) ->
         In p (storedProjects st) /\ isMember user p
         /\ (forall s : string,
               Routes.pq_status q = Some s ->
               Routes.statusName (Project.status p) = s))
      /\ length (Routes.page_projects pg)
         <= Routes.itemsPerPage (Routes.projects_pagination pg)
      /\ Routes.itemsPerPage (Routes.projects_pagination pg) = limit
      /\ (unfiltered q ->
          Routes.totalItems (Routes.projects_pagination pg)
          <= Routes.itemsPerPage (Routes.projects_pagination pg) ->
          forall p : Project.t,
            In p (storedProjects st) -> isMember user p ->
            In p (Routes.page_projects pg))).
  { intros search found pg Hpage Hper Htotal Hnone.
    split; [|split; [|split]].
    - intros p Hin. rewrite Hpage in Hin.
      apply In_take_drop, In_sortDocs in Hin.
      apply List.filter_In in Hin as [Hin Hmatch].
      split; [exact Hin|]. now apply matchesProject_member in Hmatch.
    - rewrite Hpage, Hper, length_take. lia.
    - exact Hper.
    - intros (Hp & Hs & Hq & Ht) Hfits p Hin Hmember.
      rewrite Hpage, Hp. cbn [Nat.sub Nat.mul]. rewrite drop_0.
      rewrite take_ge.
      + apply sortDocs_In. apply List.filter_In. split; [exact Hin|].
        rewrite Hs, Ht, (Hnone Hq). now apply matchesProject_unfiltered.
      + rewrite length_sortDocs. rewrite Htotal, Hper in Hfits. exact Hfits. }
  assert (Hstats :
    forall pg : Routes.ProjectsPage,
      (forall s : Status,
         Routes.stats pg s
         = let count :=
             length (List.filter
                       (fun p => String.eqb (Routes.statusName (Project.status p))
                                            (Routes.statusName s))
                       (ownedProjects user st)) in
           if Nat.eqb count 0 then None else Some count) ->
      default 0 (Routes.stats pg draft)
      + default 0 (Routes.stats pg in_progress)
      + default 0 (Routes.stats pg completed)
      + default 0 (Routes.stats pg archived)
      = length (ownedProjects user st)
      /\ (forall s : Status,
            Routes.stats pg s = None <->
            forall p : Project.t,
              In p (ownedProjects user st) -> Project.status p <> s)).
  { intros pg Hpg. split.
    - rewrite (status_partition (ownedProjects user st)), !Hpg.
      cbn [map fold_right].
      repeat match goal with
             | |- context [Nat.eqb (length ?l) 0] => destruct (length l)
             end; cbn; lia.
    - intros s. rewrite Hpg. cbv zeta.
      set (same := List.filter _ (ownedProjects user st)).
      assert (Hsame : forall p, In p same <->
                                In p (ownedProjects user st) /\ Project.status p = s).
      { intros p. unfold same. rewrite List.filter_In, statusName_inj. tauto. }
      destruct same as [|p0 rest]; cbn [length Nat.eqb]; split.
      + intros _ p Hin Hs. now apply (proj2 (Hsame p) (conj Hin Hs)).
      + reflexivity.
      + discriminate.
      + intros Hnone. exfalso.
        destruct (proj1 (Hsame p0) (or_introl eq_refl)) as [Hin Hs].
        exact (Hnone p0 Hin Hs). }
  destruct (Routes.truthy (trim <$> Routes.pq_search q)) as [pattern|] eqn:Htruthy.
  - destruct (compileRegex pattern) as [re|] eqn:Hre.
    + rewrite bool_decide_eq_true_2 by (now exists re).
      cbn [fmap option_fmap option_map]. cbv beta iota.
      split; [reflexivity|]. eexists. split; [reflexivity|].
      match goal with
      | |- (forall p, In p (Routes.page_projects ?pg) -> _) /\ _ =>
          destruct (Hsearch (Some re) pg eq_refl eq_refl eq_refl)
            as (H1 & H2 & H3 & H4)
      end.
      { intros Hq. rewrite Hq in Htruthy. discriminate Htruthy. }
      split; [exact H1|]. split; [exact H2|]. split; [exact H3|].
      split; [exact H4|]. apply Hstats. reflexivity.
    + rewrite bool_decide_eq_false_2 by (intros [re Hsome]; discriminate Hsome).
      reflexivity.
  - cbv beta iota. split; [reflexivity|]. eexists. split; [reflexivity|].
    match goal with
    | |- (forall p, In p (Routes.page_projects ?pg) -> _) /\ _ =>
        destruct (Hsearch None pg eq_refl eq_refl eq_refl
                    (fun _ => eq_refl))
          as (H1 & H2 & H3 & H4)
    end.
    split; [exact H1|]. split; [exact H2|]. split; [exact H3|].
    split; [exact H4|]. apply Hstats. reflexivity.
Qed.

Lemma getProjects_private_witness :
  (user_isActive (userOf alice pro) = true
   /\ Routes.validProjectParams noProjectParams = true)
  /\ status (Routes.getProjects plainRegex allTie sampleStore
               (Some (userOf alice pro)) noProjectParams) = 200
  /\ exists pg : Routes.ProjectsPage,
       data (Routes.getProjects plainRegex allTie sampleStore
               (Some (userOf alice pro)) noProjectParams) = Some pg
       /\ default 0 (Routes.stats pg draft)
          + default 0 (Routes.stats pg in_progress)
          + default 0 (Routes.stats pg completed)
          + default 0 (Routes.stats pg archived)
          = length (ownedProjects (userOf alice pro) sampleStore).
Proof.
  split; [split; reflexivity|].
  pose proof (getProjects_private plainRegex allTie sampleStore (userOf alice pro)
                noProjectParams eq_refl eq_refl) as H.
  change (searchCompiles plainRegex noProjectParams) with true in H.
  destruct H as (Hstatus & pg & Hdata & _ & _ & _ & _ & Hsum & _).
  split; [exact Hstatus|]. exists pg. split; [exact Hdata|exact Hsum].
Defined.

(** X26. The id the validators of [POST /:id/furniture] ask for,
    [furnitureId], is not the id of the item: for a body that passes the
    validators, sent by the owner, an editor or an admin of the project, the
    item is appended under the [id] of the body, or under
    ["furniture-" ++ now] when there is none, and the answer is 200; a body
    without [type] passes the validators and fails with 500. A later
    [DELETE /:id/furniture/:furnitureId] with the [furnitureId] of the body,
    when that is not the id of an item, is answered with 200 and removes
    nothing; with the id of the item it gives back the furniture the design
    had. *)
Theorem furnitureId_is_not_the_item_id (now : Date) (st : Store) (user : User)
    (id : ObjectId) (d : Design.t) (P : Project.t) (body : Routes.FurnitureBody)
    (furnitureId : string) :
  user_isActive user = true ->
  designs st !! id = Some d ->
  projects st !! Design.project d = Some P ->
  Routes.mayWrite P user = true ->
  Design.validate d = Ok tt ->
  Routes.validFurnitureBody body = true ->
  Routes.fb_furnitureId body = Some furnitureId ->
  if String.eqb (Design.fd_type (Routes.fb_item body)) ""
  then status (Routes.postFurniture now st (Some user) id body).1 = 500
       /\ (Routes.postFurniture now st (Some user) id body).2 = st
  else status (Routes.postFurniture now st (Some user) id body).1 = 200
       /\ exists (d1 : Design.t) (item : FurnitureItem.t),
            designs (Routes.postFurniture now st (Some user) id body).2 !! id
            = Some d1
            /\ projects (Routes.postFurniture now st (Some user) id body).2
               = projects st
            /\ Design.furniture d1 = Design.furniture d ++ [item]
            /\ FurnitureItem.id item = itemId now (Routes.fb_item body)
            /\ FurnitureItem.name item = trim (Design.fd_name (Routes.fb_item body))
            /\ (~ In furnitureId (furnitureIds d1) ->
                status (Routes.deleteFurniture
                          (Routes.postFurniture now st (Some user) id body).2
                          (Some user) id furnitureId).1 = 200
                /\ exists d2 : Design.t,
                     designs (Routes.deleteFurniture
                                (Routes.postFurniture now st (Some user) id body).2
                                (Some user) id furnitureId).2 !! id = Some d2
                     /\ Design.furniture d2 = Design.furniture d1)
            /\ (~ In (itemId now (Routes.fb_item body)) (furnitureIds d) ->
                exists d2 : Design.t,
                  designs (Routes.deleteFurniture
                             (Routes.postFurniture now st (Some user) id body).2
                             (Some user) id (itemId now (Routes.fb_item body))).2
                    !! id = Some d2
                  /\ Design.furniture d2 = Design.furniture d).
Proof.
  intros Hactive Hd HP Hwrite Hvalid Hbody Hfid.
  unfold Routes.postFurniture, Auth.authenticateToken, Routes.findDesign.
  rewrite Hactive, Hbody, Hd, HP. cbn [negb]. rewrite Hwrite. cbn [negb].
  change (Design.fd_type (Routes.sanitized (Routes.fb_item body)))
    with (Design.fd_type (Routes.fb_item body)).
  destruct (String.eqb (Design.fd_type (Routes.fb_item body)) "");
    [split; reflexivity|].
  destruct (addFurniture_result now d (Routes.sanitized (Routes.fb_item body)) Hvalid)
    as (d1 & item & Hadd & Hfurn & Hid & Hvalid1 & _ & _).
  rewrite Hadd. cbn [fst snd status designs projects Routes.with_designs].
  split; [reflexivity|]. exists d1, item.
  split; [apply lookup_insert_eq|]. split; [reflexivity|].
  split; [exact Hfurn|]. split; [exact Hid|].
  assert (Hname : FurnitureItem.name item
                  = trim (Design.fd_name (Routes.fb_item body))).
  { unfold Design.addFurniture in Hadd. rewrite save_valid in Hadd
      by (now rewrite validate_with_furniture).
    injection Hadd as <-. cbn [Design.furniture Design.with_isNew Design.preSave
                               Design.with_furniture Design.with_metadata] in Hfurn.
    apply app_inj_tail in Hfurn. destruct Hfurn as [_ <-]. reflexivity. }
  split; [exact Hname|].
  assert (Hproject : Design.project d1 = Design.project d).
  { unfold Design.addFurniture in Hadd. rewrite save_valid in Hadd
      by (now rewrite validate_with_furniture).
    now injection Hadd as <-. }
  assert (Hdelete :
    forall i : string,
      Routes.deleteFurniture
        (Routes.with_designs (<[id := d1]> (designs st)) st) (Some user) id i
      = (mkResponse 200 true "Furniture removed successfully"
           (Some (Design.with_isNew false
                    (Design.preSave
                       (Design.with_furniture
                          (List.filter
                             (fun f => negb (String.eqb (FurnitureItem.id f) i))
                             (Design.furniture d1)) d1)))),
         Routes.with_designs
           (<[id := Design.with_isNew false
                      (Design.preSave
                         (Design.with_furniture
                            (List.filter
                               (fun f => negb (String.eqb (FurnitureItem.id f) i))
                               (Design.furniture d1)) d1))]>
              (<[id := d1]> (designs st)))
           (Routes.with_designs (<[id := d1]> (designs st)) st))).
  { intros i.
    unfold Routes.deleteFurniture, Auth.authenticateToken, Routes.findDesign.
    rewrite Hactive. cbn [negb designs projects Routes.with_designs].
    rewrite lookup_insert_eq, Hproject, HP. cbn [negb]. rewrite Hwrite.
    cbn [negb]. now rewrite (removeFurniture_result d1 i Hvalid1). }
  split.
  - intros Hnot. rewrite Hdelete. cbn [fst snd status designs Routes.with_designs].
    split; [reflexivity|]. eexists. split; [apply lookup_insert_eq|].
    cbn [Design.furniture Design.with_isNew Design.preSave Design.with_furniture
         Design.with_metadata].
    now apply filter_absent_id.
  - intros Hnot. rewrite Hdelete. cbn [fst snd status designs Routes.with_designs].
    eexists. split; [apply lookup_insert_eq|].
    cbn [Design.furniture Design.with_isNew Design.preSave Design.with_furniture
         Design.with_metadata].
    rewrite Hfurn. now apply filter_app_new_id.
Qed.

Lemma furnitureId_is_not_the_item_id_witness :
  (user_isActive (userOf bob free) = true
   /\ designs furnishedStore !! Design._id furnishedDesign = Some furnishedDesign
   /\ projects furnishedStore !! Design.project furnishedDesign = Some sampleProject
   /\ Routes.mayWrite sampleProject (userOf bob free) = true
   /\ Design.validate furnishedDesign = Ok tt
   /\ Routes.validFurnitureBody sofaBody = true
   /\ Routes.fb_furnitureId sofaBody = Some "sofa-7")
  /\ status (Routes.postFurniture 1700%Z furnishedStore (Some (userOf bob free))
               (Design._id furnishedDesign) sofaBody).1 = 200
  /\ exists d1 : Design.t,
       designs (Routes.postFurniture 1700%Z furnishedStore (Some (userOf bob free))
                  (Design._id furnishedDesign) sofaBody).2
         !! Design._id furnishedDesign = Some d1
       /\ furnitureIds d1 = ["sofa-1"; "furniture-1700"].
Proof.
  split; [repeat split|].
  pose proof (furnitureId_is_not_the_item_id 1700%Z furnishedStore
                (userOf bob free) (Design._id furnishedDesign) furnishedDesign
                sampleProject sofaBody "sofa-7"
                eq_refl eq_refl eq_refl eq_refl eq_refl eq_refl eq_refl) as H.
  change (String.eqb (Design.fd_type (Routes.fb_item sofaBody)) "") with false in H.
  destruct H as (Hstatus & d1 & item & Hd1 & _ & Hfurn & Hid & _).
  split; [exact Hstatus|]. exists d1. split; [exact Hd1|].
  unfold furnitureIds. rewrite Hfurn, map_app. cbn [map]. now rewrite Hid.
Defined.
